(** * sfc-proxy: VXLAN-GPE / NSH proxy for service functions that are not
      SFC-aware.

    A shallow embedding of [proxy.py]: the [struct]-based header records,
    the slicing parsers, the header rewriting helpers, the Internet
    checksum, and the three receive pipelines with their two session
    dictionaries.

    Conventions.
    - A Python [bytes] object is a [list byte]; a Python [int] is a [Z]
      (unbounded, as in Python), so that range failures of [struct.pack]
      are visible.
    - A Python exception is a value [Raise e]; pure helpers return
      [result A], the pipelines return an [Outcome] that carries the
      state of the process at the moment of return or raise.
    - [print] / [pf] calls write to standard output only and are left out.
    - Each pipeline body processes one frame to completion; the model is
      the sequential semantics of one such body. *)

From Stdlib Require Import ZArith Lia List.
From Stdlib.Strings Require Import Byte String.
From stdpp Require Import base option countable gmap list.
Import ListNotations.

Local Open Scope Z_scope.

(** ** Bytes and integers *)

Abbreviation bytes := (list byte).

Definition byte_to_Z (b : byte) : Z := Z.of_N (Byte.to_N b).

Definition byte_of_Z (z : Z) : byte :=
  match Byte.of_N (Z.to_N (z mod 256)) with
  | Some b => b
  | None => x00
  end.

#[global] Instance byte_eq_dec : EqDecision byte.
Proof.
  intros x y. destruct (decide (Byte.to_N x = Byte.to_N y)) as [e|n].
  - left. apply (f_equal Byte.of_N) in e. rewrite !Byte.of_to_N in e.
    congruence.
  - right. congruence.
Defined.

#[global] Instance byte_countable : Countable byte :=
  inj_countable Byte.to_N Byte.of_N Byte.of_to_N.

(** [b[i:j]]: Python slicing never raises; it clips to the object. *)
Definition slice (i j : nat) (b : bytes) : bytes :=
  firstn (j - i) (skipn i b).

(** Big-endian value of a byte string (the ['!'] formats of [struct]). *)
Definition be_decode (b : bytes) : Z :=
  fold_left (fun acc x => acc * 256 + byte_to_Z x) b 0.

(** The [n] low-order bytes of [v], most significant first. *)
Fixpoint be_encode (n : nat) (v : Z) : bytes :=
  match n with
  | O => []
  | S n' => be_encode n' (v / 256) ++ [byte_of_Z v]
  end.

(** ** Exceptions *)

Inductive exn := StructError | IndexError | KeyError.

Inductive result (A : Type) : Type :=
  | Ok (a : A)
  | Raise (e : exn).
Arguments Ok {A} a.
Arguments Raise {A} e.

#[global] Instance result_ret : MRet result := fun A a => Ok a.
#[global] Instance result_bind : MBind result := fun A B f m =>
  match m with
  | Ok a => f a
  | Raise e => Raise e
  end.
#[global] Instance result_fmap : FMap result := fun A B f m =>
  match m with
  | Ok a => Ok (f a)
  | Raise e => Raise e
  end.

(** ** The [struct] module, network byte order, no padding *)

Inductive fmt_code :=
  | fmt_B               (* unsigned char,  1 byte  *)
  | fmt_H               (* unsigned short, 2 bytes *)
  | fmt_L               (* unsigned long,  4 bytes *)
  | fmt_s (n : nat).    (* char[n] *)

Definition code_size (c : fmt_code) : nat :=
  match c with
  | fmt_B => 1
  | fmt_H => 2
  | fmt_L => 4
  | fmt_s n => n
  end.

Definition calcsize (fmt : list fmt_code) : nat :=
  fold_right (fun c n => (code_size c + n)%nat) 0%nat fmt.

Definition code_val (c : fmt_code) : Type :=
  match c with
  | fmt_s _ => bytes
  | _ => Z
  end.

(** The tuple of values a format denotes. *)
Fixpoint fields (fmt : list fmt_code) : Type :=
  match fmt with
  | [] => unit
  | c :: fmt' => (code_val c * fields fmt')%type
  end.

Definition unpack_code (c : fmt_code) (b : bytes) : code_val c :=
  match c with
  | fmt_B => be_decode b
  | fmt_H => be_decode b
  | fmt_L => be_decode b
  | fmt_s _ => b
  end.

Fixpoint unpack_fields (fmt : list fmt_code) (b : bytes) : fields fmt :=
  match fmt with
  | [] => tt
  | c :: fmt' =>
      (unpack_code c (firstn (code_size c) b),
       unpack_fields fmt' (skipn (code_size c) b))
  end.

(** [struct.unpack(fmt, record)]: the buffer must have exactly
    [calcsize(fmt)] bytes. *)
Definition struct_unpack (fmt : list fmt_code) (record : bytes)
  : result (fields fmt) :=
  if (length record =? calcsize fmt)%nat
  then Ok (unpack_fields fmt record)
  else Raise StructError.

(** An integer argument out of the range of its format is an error. *)
Definition pack_uint (n : nat) (v : Z) : result bytes :=
  if (0 <=? v) && (v <? 256 ^ Z.of_nat n)
  then Ok (be_encode n v)
  else Raise StructError.

(** For ['s'] the string is truncated or padded with null bytes to fit. *)
Definition pack_s (n : nat) (s : bytes) : bytes :=
  firstn n (s ++ repeat x00 n).

Definition pack_code (c : fmt_code) : code_val c -> result bytes :=
  match c with
  | fmt_B => pack_uint 1
  | fmt_H => pack_uint 2
  | fmt_L => pack_uint 4
  | fmt_s n => fun s => Ok (pack_s n s)
  end.

Fixpoint struct_pack (fmt : list fmt_code) : fields fmt -> result bytes :=
  match fmt with
  | [] => fun _ => Ok []
  | c :: fmt' => fun vs =>
      b ← pack_code c (fst vs);
      bs ← struct_pack fmt' (snd vs);
      Ok (b ++ bs)
  end.

(** Values [struct.pack] encodes without loss: integers in the range of
    their format, strings of the declared width. *)
Definition code_ok (c : fmt_code) : code_val c -> Prop :=
  match c with
  | fmt_B => fun v => 0 <= v < 256
  | fmt_H => fun v => 0 <= v < 65536
  | fmt_L => fun v => 0 <= v < 4294967296
  | fmt_s n => fun s => length s = n
  end.

Fixpoint fields_ok (fmt : list fmt_code) : fields fmt -> Prop :=
  match fmt with
  | [] => fun _ => True
  | c :: fmt' => fun vs => code_ok c (fst vs) /\ fields_ok fmt' (snd vs)
  end.

(** ** [MetaStruct]: a named tuple built by unpacking a record *)

Class MetaStruct (T : Type) := {
  struct_fmt : list fmt_code;
  of_fields : fields struct_fmt -> T;
  to_fields : T -> fields struct_fmt;
}.

(** [cls(record)], that is [MetaStruct.__new__]. *)
Definition new (T : Type) `{MetaStruct T} (record : bytes) : result T :=
  of_fields <$> struct_unpack struct_fmt record.

(** [pack_namedtuple(struct_fmt, nt)], the body of every [pack] method. *)
Definition pack {T : Type} `{MetaStruct T} (nt : T) : result bytes :=
  struct_pack struct_fmt (to_fields nt).

Definition well_formed {T : Type} `{MetaStruct T} (nt : T) : Prop :=
  fields_ok struct_fmt (to_fields nt).

Record StructEthHeader := {
  eth_dst : bytes;
  eth_src : bytes;
  eth_type : Z;
}.

#[global] Instance StructEthHeader_struct : MetaStruct StructEthHeader := {|
  struct_fmt := [fmt_s 6; fmt_s 6; fmt_H];
  of_fields := fun '(a, (b, (c, _))) =>
    {| eth_dst := a; eth_src := b; eth_type := c |};
  to_fields := fun nt => (eth_dst nt, (eth_src nt, (eth_type nt, tt)));
|}.

Record StructNshHeader := {
  nsh_flags_length : Z;
  nsh_md_type : Z;
  nsh_np : Z;
  nsh_sph : Z;
  nsh_ctx1 : Z;
  nsh_ctx2 : Z;
  nsh_ctx3 : Z;
  nsh_ctx4 : Z;
}.

#[global] Instance StructNshHeader_struct : MetaStruct StructNshHeader := {|
  struct_fmt := [fmt_H; fmt_B; fmt_B; fmt_L; fmt_L; fmt_L; fmt_L; fmt_L];
  of_fields := fun '(a, (b, (c, (d, (e, (f, (g, (h, _)))))))) =>
    {| nsh_flags_length := a; nsh_md_type := b; nsh_np := c; nsh_sph := d;
       nsh_ctx1 := e; nsh_ctx2 := f; nsh_ctx3 := g; nsh_ctx4 := h |};
  to_fields := fun nt =>
    (nsh_flags_length nt, (nsh_md_type nt, (nsh_np nt, (nsh_sph nt,
    (nsh_ctx1 nt, (nsh_ctx2 nt, (nsh_ctx3 nt, (nsh_ctx4 nt, tt))))))));
|}.

Definition get_nsh_spi (nt : StructNshHeader) : Z :=
  Z.shiftr (Z.land (nsh_sph nt) 0xFFFFFF00) 8.

Definition get_nsh_si (nt : StructNshHeader) : Z :=
  Z.land (nsh_sph nt) 0x000000FF.

Definition make_nsh_sph_with_si (nt : StructNshHeader) (new_nsh_si : Z) : Z :=
  Z.shiftl (get_nsh_spi nt) 8 + new_nsh_si.

Record StructUdpHeader := {
  udp_src_port : Z;
  udp_dst_port : Z;
  udp_data_length : Z;
  udp_checksum : Z;
}.

#[global] Instance StructUdpHeader_struct : MetaStruct StructUdpHeader := {|
  struct_fmt := [fmt_H; fmt_H; fmt_H; fmt_H];
  of_fields := fun '(a, (b, (c, (d, _)))) =>
    {| udp_src_port := a; udp_dst_port := b; udp_data_length := c;
       udp_checksum := d |};
  to_fields := fun nt =>
    (udp_src_port nt, (udp_dst_port nt, (udp_data_length nt,
    (udp_checksum nt, tt))));
|}.

Record StructIpHeader := {
  ip_ver_ihl_type : Z;
  ip_total_length : Z;
  ip_id : Z;
  ip_flags_frag_offset : Z;
  ip_time2live : Z;
  ip_protocol : Z;
  ip_hdr_checksum : Z;
  ip_src : bytes;
  ip_dst : bytes;
}.

#[global] Instance StructIpHeader_struct : MetaStruct StructIpHeader := {|
  struct_fmt :=
    [fmt_H; fmt_H; fmt_H; fmt_H; fmt_B; fmt_B; fmt_H; fmt_s 4; fmt_s 4];
  of_fields := fun '(a, (b, (c, (d, (e, (f, (g, (h, (i, _))))))))) =>
    {| ip_ver_ihl_type := a; ip_total_length := b; ip_id := c;
       ip_flags_frag_offset := d; ip_time2live := e; ip_protocol := f;
       ip_hdr_checksum := g; ip_src := h; ip_dst := i |};
  to_fields := fun nt =>
    (ip_ver_ihl_type nt, (ip_total_length nt, (ip_id nt,
    (ip_flags_frag_offset nt, (ip_time2live nt, (ip_protocol nt,
    (ip_hdr_checksum nt, (ip_src nt, (ip_dst nt, tt)))))))));
|}.

Record StructTcpHeaderWithoutOptions := {
  tcp_src_port : Z;
  tcp_dst_port : Z;
  tcp_seq_number : Z;
  tcp_ack : Z;
  tcp_byte_data_offset : Z;
  tcp_flags : Z;
  tcp_win_size : Z;
  tcp_checksum : Z;
  tcp_urgent_ptr : Z;
}.

#[global] Instance StructTcpHeaderWithoutOptions_struct
  : MetaStruct StructTcpHeaderWithoutOptions := {|
  struct_fmt :=
    [fmt_H; fmt_H; fmt_L; fmt_L; fmt_B; fmt_B; fmt_H; fmt_H; fmt_H];
  of_fields := fun '(a, (b, (c, (d, (e, (f, (g, (h, (i, _))))))))) =>
    {| tcp_src_port := a; tcp_dst_port := b; tcp_seq_number := c;
       tcp_ack := d; tcp_byte_data_offset := e; tcp_flags := f;
       tcp_win_size := g; tcp_checksum := h; tcp_urgent_ptr := i |};
  to_fields := fun nt =>
    (tcp_src_port nt, (tcp_dst_port nt, (tcp_seq_number nt, (tcp_ack nt,
    (tcp_byte_data_offset nt, (tcp_flags nt, (tcp_win_size nt,
    (tcp_checksum nt, (tcp_urgent_ptr nt, tt)))))))));
|}.

Record StructPseudoHeader := {
  src : bytes;
  dst : bytes;
  zero : Z;
  protocol : Z;
  tcp_length : Z;
}.

#[global] Instance StructPseudoHeader_struct : MetaStruct StructPseudoHeader := {|
  struct_fmt := [fmt_s 4; fmt_s 4; fmt_B; fmt_B; fmt_H];
  of_fields := fun '(a, (b, (c, (d, (e, _))))) =>
    {| src := a; dst := b; zero := c; protocol := d; tcp_length := e |};
  to_fields := fun nt =>
    (src nt, (dst nt, (zero nt, (protocol nt, (tcp_length nt, tt)))));
|}.

Record StructVxLanGPEHeader := {
  vxlan_flags : Z;
  vxlan_reserved1 : Z;
  next_proto : Z;
  vni : bytes;
  vxlan_reserved2 : Z;
}.

#[global] Instance StructVxLanGPEHeader_struct
  : MetaStruct StructVxLanGPEHeader := {|
  struct_fmt := [fmt_B; fmt_H; fmt_B; fmt_s 3; fmt_B];
  of_fields := fun '(a, (b, (c, (d, (e, _))))) =>
    {| vxlan_flags := a; vxlan_reserved1 := b; next_proto := c; vni := d;
       vxlan_reserved2 := e |};
  to_fields := fun nt =>
    (vxlan_flags nt, (vxlan_reserved1 nt, (next_proto nt, (vni nt,
    (vxlan_reserved2 nt, tt)))));
|}.

(** ** Header parsers and rewriting helpers *)

Definition parse_ethernet (frame : bytes) : bytes * bytes :=
  let header_length := 14%nat in
  (firstn header_length frame, skipn header_length frame).

Definition make_ethernet_header_swap (header : bytes) : result bytes :=
  outer_eth_header_nt ← new StructEthHeader header;
  pack {| eth_dst := eth_src outer_eth_header_nt;
          eth_src := eth_dst outer_eth_header_nt;
          eth_type := eth_type outer_eth_header_nt |}.

Definition parse_nsh (packet : bytes) : bytes * bytes :=
  let header_length := 8%nat in
  let context_length := 16%nat in
  (firstn (header_length + context_length) packet,
   skipn (header_length + context_length) packet).

Definition make_nsh_decr_si (nsh_header : bytes) : result bytes :=
  nt ← new StructNshHeader nsh_header;
  pack {| nsh_flags_length := nsh_flags_length nt;
          nsh_md_type := nsh_md_type nt;
          nsh_np := nsh_np nt;
          nsh_sph := make_nsh_sph_with_si nt (get_nsh_si nt - 1);
          nsh_ctx1 := nsh_ctx1 nt;
          nsh_ctx2 := nsh_ctx2 nt;
          nsh_ctx3 := nsh_ctx3 nt;
          nsh_ctx4 := nsh_ctx4 nt |}.

(** [packet[0]] raises [IndexError] on an empty packet. *)
Definition parse_ip (packet : bytes) : result (bytes * bytes) :=
  match packet with
  | [] => Raise IndexError
  | b0 :: _ =>
      let header_length_in_bytes :=
        Z.to_nat (Z.land (byte_to_Z b0) 0x0F * 4) in
      Ok (firstn header_length_in_bytes packet,
          skipn header_length_in_bytes packet)
  end.

Definition parse_udp (packet : bytes) : bytes * bytes :=
  let header_length := 8%nat in
  (firstn header_length packet, skipn header_length packet).

Definition parse_vxlan_gpe (packet : bytes) : bytes * bytes :=
  let header_length := 8%nat in
  (firstn header_length packet, skipn header_length packet).

Definition parse_tcp (packet : bytes) : result (bytes * bytes * bytes) :=
  let header_basic_length := 20%nat in
  let header_without_options := firstn header_basic_length packet in
  nt ← new StructTcpHeaderWithoutOptions header_without_options;
  let data_offset := Z.shiftr (tcp_byte_data_offset nt) 4 in
  let header_length := Z.to_nat (data_offset * 4) in
  let options := slice header_basic_length header_length packet in
  let payload := skipn header_length packet in
  Ok (header_without_options, options, payload).

(** ** Internet checksum *)

(** [array.array("H", pkt)] reads the buffer as 16-bit words in the byte
    order of the host. *)
Inductive byteorder := little | big.

Definition word16 (host : byteorder) (b0 b1 : byte) : Z :=
  match host with
  | little => byte_to_Z b0 + 256 * byte_to_Z b1
  | big => 256 * byte_to_Z b0 + byte_to_Z b1
  end.

Fixpoint array_H (host : byteorder) (pkt : bytes) : list Z :=
  match pkt with
  | b0 :: b1 :: rest => word16 host b0 b1 :: array_H host rest
  | _ => []
  end.

(** [struct.pack("H", 1)], native byte order. *)
Definition native_pack_H_1 (host : byteorder) : bytes :=
  match host with
  | little => [x01; x00]
  | big => [x00; x01]
  end.

(** [bytes == str]: a [bytes] object never equals a [str] object. *)
Definition bytes_eq_str (b : bytes) (s : string) : bool := false.

(** The literal ["\x00\x01"]. *)
Definition str_00_01 : string :=
  String (Ascii.ascii_of_nat 0) (String (Ascii.ascii_of_nat 1) EmptyString).

Definition sum (l : list Z) : Z := fold_left Z.add l 0.

Definition calculate_checksum (host : byteorder) (pkt : bytes) : Z :=
  let pkt := if (length pkt mod 2 =? 1)%nat then pkt ++ [x00] else pkt in
  let s := sum (array_H host pkt) in
  let s := Z.shiftr s 16 + Z.land s 0xffff in
  let s := s + Z.shiftr s 16 in
  let s := Z.lnot s in
  if bytes_eq_str (native_pack_H_1 host) str_00_01
  then Z.land s 0xffff
  else Z.land (Z.lor (Z.land (Z.shiftr s 8) 0xff) (Z.shiftl s 8)) 0xffff.

Definition calculate_ip_checksum (host : byteorder) (pkt : bytes) : Z :=
  let pkt := slice 0 10 pkt ++ [x00] ++ [x00] ++ slice 12 (length pkt) pkt in
  calculate_checksum host pkt.

Definition make_ip_header (host : byteorder) (header : bytes)
    (new_ip_total_length : Z) : result bytes :=
  nt ← new StructIpHeader header;
  let nt :=
    {| ip_ver_ihl_type := ip_ver_ihl_type nt;
       ip_total_length := new_ip_total_length;
       ip_id := ip_id nt;
       ip_flags_frag_offset := ip_flags_frag_offset nt;
       ip_time2live := ip_time2live nt;
       ip_protocol := ip_protocol nt;
       ip_hdr_checksum := ip_hdr_checksum nt;
       ip_src := ip_src nt;
       ip_dst := ip_dst nt |} in
  packed ← pack nt;
  let nt :=
    {| ip_ver_ihl_type := ip_ver_ihl_type nt;
       ip_total_length := ip_total_length nt;
       ip_id := ip_id nt;
       ip_flags_frag_offset := ip_flags_frag_offset nt;
       ip_time2live := ip_time2live nt;
       ip_protocol := ip_protocol nt;
       ip_hdr_checksum := calculate_ip_checksum host packed;
       ip_src := ip_src nt;
       ip_dst := ip_dst nt |} in
  pack nt.

Definition make_ip_header_swap (header : bytes) : result bytes :=
  ip_header_nt ← new StructIpHeader header;
  pack {| ip_ver_ihl_type := ip_ver_ihl_type ip_header_nt;
          ip_total_length := ip_total_length ip_header_nt;
          ip_id := ip_id ip_header_nt;
          ip_flags_frag_offset := ip_flags_frag_offset ip_header_nt;
          ip_time2live := ip_time2live ip_header_nt;
          ip_protocol := ip_protocol ip_header_nt;
          ip_hdr_checksum := ip_hdr_checksum ip_header_nt;
          ip_src := ip_dst ip_header_nt;
          ip_dst := ip_src ip_header_nt |}.

(** What a receiver verifies: the one's-complement sum of the buffer read
    as 16-bit words in network byte order, the carries folded back twice
    (enough for any sum below [2^32]).  A header verifies when this is
    [0xFFFF]. *)
Definition fold16 (s : Z) : Z := Z.shiftr s 16 + Z.land s 0xffff.

Definition ones_complement_sum (pkt : bytes) : Z :=
  fold16 (fold16 (sum (array_H big pkt))).

(** ** Process state *)

(** The inner flow key
    [(eth_dst, eth_src, eth_type, ip_dst, ip_src, tcp_dst_port, tcp_src_port)]. *)
Definition Key : Type := bytes * bytes * Z * bytes * bytes * Z * Z.

(** The stored tuple
    [(outer_eth_header, ip_header, udp_header, vxlan_header, eth_nsh_header,
      nsh_header)]. *)
Definition Bundle : Type := bytes * bytes * bytes * bytes * bytes * bytes.

(** [swap(k)]: source and destination exchanged at each of the three
    layers, [eth_type] kept. *)
Definition swap_key (k : Key) : Key :=
  let '(eth_dst, eth_src, eth_type, ip_dst, ip_src, tcp_dst_port,
        tcp_src_port) := k in
  (eth_src, eth_dst, eth_type, ip_src, ip_dst, tcp_src_port, tcp_dst_port).

(** The three raw sockets. *)
Inductive Socket := sckt_encap | sckt_unencap_in | sckt_unencap_out.

(** The module globals [sessions] and [sessions_reply_info], and the
    environment seen through the sockets: [wire] logs, oldest first, the
    bytes each [send] call handed to the kernel; [send_results] holds the
    values the coming [send] calls will return. *)
Record World := {
  sessions : gmap Key Bundle;
  sessions_reply_info : gmap Key Bundle;
  wire : list (Socket * bytes);
  send_results : list nat;
}.

(** How a pipeline body ends: it returns, it raises (nothing catches it
    and the worker thread dies), or it is still inside its send loop when
    the supplied send results are used up. *)
Inductive Outcome :=
  | Returned (w : World)
  | Raised (e : exn) (w : World)
  | Sending (w : World).

(** [while new_pkt: sent = sckt.send(new_pkt); new_pkt = new_pkt[sent:]]
    against the given results: the chunks taken by the kernel, the unused
    results, and what is left to send when the results run out. *)
Fixpoint drain (results : list nat) (new_pkt : bytes)
  : list bytes * list nat * bytes :=
  match new_pkt, results with
  | [], _ => ([], results, [])
  | _ :: _, [] => ([], [], new_pkt)
  | _ :: _, sent :: results' =>
      let '(chunks, unused, unsent) :=
        drain results' (skipn sent new_pkt) in
      (firstn sent new_pkt :: chunks, unused, unsent)
  end.

Definition send_all (sckt : Socket) (new_pkt : bytes) (w : World) : Outcome :=
  let '(chunks, unused, unsent) := drain (send_results w) new_pkt in
  let w' :=
    {| sessions := sessions w;
       sessions_reply_info := sessions_reply_info w;
       wire := wire w ++ map (fun c => (sckt, c)) chunks;
       send_results := unused |} in
  match unsent with
  | [] => Returned w'
  | _ :: _ => Sending w'
  end.

(** ** Decap pipeline *)

(** What the parsing half of [parse_frame_and_deencapsulate] binds. *)
Record Decapsulated := {
  outer_eth_header : bytes;
  ip_header : bytes;
  udp_header : bytes;
  vxlan_header : bytes;
  eth_nsh_header : bytes;
  nsh_header : bytes;
  nsh_payload : bytes;
  inner_eth_header_nt : StructEthHeader;
  inner_ip_header_nt : StructIpHeader;
  inner_tcp_header_nt : StructTcpHeaderWithoutOptions;
}.

(** The descent through the header stack.  [Ok None]: one of the three
    guards ([eth_type], [ip_protocol], [udp_dst_port]) did not match and
    the function falls through to its [return]. *)
Definition decap_headers (frame : bytes) : result (option Decapsulated) :=
  let '(outer_eth_header, outer_eth_payload) := parse_ethernet frame in
  outer_eth_header_nt ← new StructEthHeader outer_eth_header;
  let outer_eth_type := eth_type outer_eth_header_nt in
  if outer_eth_type =? 0x0800 then
    let next_eth_payload := outer_eth_payload in
    '(ip_header, ip_payload) ← parse_ip next_eth_payload;
    ip_header_nt ← new StructIpHeader ip_header;
    let ip_protocol := ip_protocol ip_header_nt in
    if ip_protocol =? 17 then
      let '(udp_header, udp_payload) := parse_udp ip_payload in
      udp_header_nt ← new StructUdpHeader udp_header;
      let dst_port := udp_dst_port udp_header_nt in
      if dst_port =? 4790 then
        let '(vxlan_header, vxlan_payload) := parse_vxlan_gpe udp_payload in
        vxlan_header_nt ← new StructVxLanGPEHeader vxlan_header;
        let '(eth_nsh_header, eth_nsh_payload) :=
          parse_ethernet vxlan_payload in
        eth_nsh_header_nt ← new StructEthHeader eth_nsh_header;
        let '(nsh_header, nsh_payload) := parse_nsh eth_nsh_payload in
        nsh_header_nt ← new StructNshHeader nsh_header;
        let '(inner_eth_header, inner_eth_payload) :=
          parse_ethernet nsh_payload in
        inner_eth_header_nt ← new StructEthHeader inner_eth_header;
        '(inner_ip_header, inner_ip_payload) ← parse_ip inner_eth_payload;
        inner_ip_header_nt ← new StructIpHeader inner_ip_header;
        '(inner_tcp_header_without_options, inner_tcp_options,
          inner_tcp_payload) ← parse_tcp inner_ip_payload;
        inner_tcp_header_nt ←
          new StructTcpHeaderWithoutOptions inner_tcp_header_without_options;
        Ok (Some {| outer_eth_header := outer_eth_header;
                    ip_header := ip_header;
                    udp_header := udp_header;
                    vxlan_header := vxlan_header;
                    eth_nsh_header := eth_nsh_header;
                    nsh_header := nsh_header;
                    nsh_payload := nsh_payload;
                    inner_eth_header_nt := inner_eth_header_nt;
                    inner_ip_header_nt := inner_ip_header_nt;
                    inner_tcp_header_nt := inner_tcp_header_nt |})
      else Ok None
    else Ok None
  else Ok None.

Definition flow_key (eth : StructEthHeader) (ip : StructIpHeader)
    (tcp : StructTcpHeaderWithoutOptions) : Key :=
  (eth_dst eth, eth_src eth, eth_type eth, ip_dst ip, ip_src ip,
   tcp_dst_port tcp, tcp_src_port tcp).

Definition flow_swapped_key (eth : StructEthHeader) (ip : StructIpHeader)
    (tcp : StructTcpHeaderWithoutOptions) : Key :=
  (eth_src eth, eth_dst eth, eth_type eth, ip_src ip, ip_dst ip,
   tcp_src_port tcp, tcp_dst_port tcp).

Definition decap_key (d : Decapsulated) : Key :=
  flow_key (inner_eth_header_nt d) (inner_ip_header_nt d)
    (inner_tcp_header_nt d).

Definition decap_swapped_key (d : Decapsulated) : Key :=
  flow_swapped_key (inner_eth_header_nt d) (inner_ip_header_nt d)
    (inner_tcp_header_nt d).

Definition decap_bundle (d : Decapsulated) : Bundle :=
  (outer_eth_header d, ip_header d, udp_header d, vxlan_header d,
   eth_nsh_header d, nsh_header d).

(** [sckt] is the socket the caller passes; replies go to the global
    [sckt_unencap_in] instead.  [isReply] does not change inside the send
    loop, so the socket is chosen once. *)
Definition parse_frame_and_deencapsulate (frame : bytes) (sckt : Socket)
    (w : World) : Outcome :=
  match decap_headers frame with
  | Raise e => Raised e w
  | Ok None => Returned w
  | Ok (Some d) =>
      let key := decap_key d in
      let swapped_key := decap_swapped_key d in
      let isReply := bool_decide (is_Some (sessions w !! swapped_key)) in
      let w :=
        if isReply
        then {| sessions := sessions w;
                sessions_reply_info :=
                  <[swapped_key := decap_bundle d]> (sessions_reply_info w);
                wire := wire w;
                send_results := send_results w |}
        else w in
      let w :=
        if negb isReply
        then {| sessions := <[key := decap_bundle d]> (sessions w);
                sessions_reply_info := sessions_reply_info w;
                wire := wire w;
                send_results := send_results w |}
        else w in
      let new_pkt := nsh_payload d in
      send_all (if negb isReply then sckt else sckt_unencap_in) new_pkt w
  end.

(** ** Encap pipeline *)

(** The parsing half shared, line for line, by
    [parse_frame_and_encapsulate] and [parse_frame_and_encapsulate_test]:
    Ethernet, IPv4 and TCP of a bare frame.  [Ok None]: not IPv4 or not
    TCP. *)
Definition bare_headers (frame : bytes)
  : result (option (StructEthHeader * StructIpHeader
                    * StructTcpHeaderWithoutOptions)) :=
  let '(outer_eth_header, outer_eth_payload) := parse_ethernet frame in
  outer_eth_header_nt ← new StructEthHeader outer_eth_header;
  let outer_eth_type := eth_type outer_eth_header_nt in
  if outer_eth_type =? 0x0800 then
    let next_eth_payload := outer_eth_payload in
    '(ip_header, ip_payload) ← parse_ip next_eth_payload;
    ip_header_nt ← new StructIpHeader ip_header;
    let ip_protocol := ip_protocol ip_header_nt in
    if ip_protocol =? 6 then
      '(tcp_header_without_options, tcp_options, tcp_payload) ←
        parse_tcp ip_payload;
      tcp_header_nt ←
        new StructTcpHeaderWithoutOptions tcp_header_without_options;
      Ok (Some (outer_eth_header_nt, ip_header_nt, tcp_header_nt))
    else Ok None
  else Ok None.

Definition parse_frame_and_encapsulate (frame : bytes) (sckt : Socket)
    (w : World) : Outcome :=
  match bare_headers frame with
  | Raise e => Raised e w
  | Ok None => Returned w
  | Ok (Some (outer_eth_header_nt, ip_header_nt, tcp_header_nt)) =>
      let key := flow_key outer_eth_header_nt ip_header_nt tcp_header_nt in
      match sessions w !! key with
      | Some (new_outer_eth_header, new_ip_header, new_udp_header,
              new_vxlan_header, new_eth_nsh_header, new_nsh_header) =>
          match
            new_outer_eth_header_swapped ←
              make_ethernet_header_swap new_outer_eth_header;
            new_ip_header_swapped ← make_ip_header_swap new_ip_header;
            new_nsh_header_decremented ← make_nsh_decr_si new_nsh_header;
            Ok (new_outer_eth_header_swapped ++ new_ip_header_swapped
                ++ new_udp_header ++ new_vxlan_header ++ new_eth_nsh_header
                ++ new_nsh_header_decremented ++ frame)
          with
          | Raise e => Raised e w
          | Ok new_pkt => send_all sckt new_pkt w
          end
      | None => Returned w
      end
  end.

(** ** Reverse-encap pipeline *)

Definition parse_frame_and_encapsulate_test (frame : bytes) (sckt : Socket)
    (w : World) : Outcome :=
  match bare_headers frame with
  | Raise e => Raised e w
  | Ok None => Returned w
  | Ok (Some (outer_eth_header_nt, ip_header_nt, tcp_header_nt)) =>
      let swapped_key :=
        flow_swapped_key outer_eth_header_nt ip_header_nt tcp_header_nt in
      match sessions w !! swapped_key with
      | Some _ =>
          match sessions_reply_info w !! swapped_key with
          | None => Raised KeyError w
          | Some (reply_outer_eth_header, reply_ip_header, reply_udp_header,
                  reply_vxlan_header, reply_eth_nsh_header, new_nsh_header) =>
              match
                new_nsh_header_decremented ← make_nsh_decr_si new_nsh_header;
                new_reply_outer_eth_header_swapped ←
                  make_ethernet_header_swap reply_outer_eth_header;
                new_reply_ip_header_swapped ←
                  make_ip_header_swap reply_ip_header;
                new_reply_eth_nsh_header_swapped ←
                  make_ethernet_header_swap reply_eth_nsh_header;
                Ok (new_reply_outer_eth_header_swapped
                    ++ new_reply_ip_header_swapped ++ reply_udp_header
                    ++ reply_vxlan_header ++ new_reply_eth_nsh_header_swapped
                    ++ new_nsh_header_decremented ++ frame)
              with
              | Raise e => Raised e w
              | Ok new_pkt => send_all sckt new_pkt w
              end
          end
      | None => Returned w
      end
  end.

(** ** The three worker loops *)

(** [while True: frame = recvfrom(...); body(frame)] over the frames the
    socket delivers.  A raise ends the worker; running out of frames
    leaves it blocked in [recvfrom]. *)
Fixpoint worker (body : bytes -> World -> Outcome) (frames : list bytes)
    (w : World) : Outcome :=
  match frames with
  | [] => Returned w
  | frame :: frames' =>
      match body frame w with
      | Returned w' => worker body frames' w'
      | o => o
      end
  end.

Definition unencapsulating_loop : list bytes -> World -> Outcome :=
  worker (fun frame => parse_frame_and_deencapsulate frame sckt_unencap_out).

Definition encapsulating_loop : list bytes -> World -> Outcome :=
  worker (fun frame => parse_frame_and_encapsulate frame sckt_encap).

Definition test_loop : list bytes -> World -> Outcome :=
  worker (fun frame => parse_frame_and_encapsulate_test frame sckt_encap).

(** ** Parse preconditions of the decap pipeline *)

(** The three value checks of [parse_frame_and_deencapsulate], each on
    headers of the expected length up to the check. *)
Definition ethertype_mismatch (frame : bytes) : Prop :=
  exists eth,
    new StructEthHeader (parse_ethernet frame).1 = Ok eth
    /\ eth_type eth <> 0x0800.

Definition ip_protocol_mismatch (frame : bytes) : Prop :=
  exists eth ip_header ip_payload ip,
    new StructEthHeader (parse_ethernet frame).1 = Ok eth
    /\ eth_type eth = 0x0800
    /\ parse_ip (parse_ethernet frame).2 = Ok (ip_header, ip_payload)
    /\ new StructIpHeader ip_header = Ok ip
    /\ ip_protocol ip <> 17.

Definition udp_port_mismatch (frame : bytes) : Prop :=
  exists eth ip_header ip_payload ip udp,
    new StructEthHeader (parse_ethernet frame).1 = Ok eth
    /\ eth_type eth = 0x0800
    /\ parse_ip (parse_ethernet frame).2 = Ok (ip_header, ip_payload)
    /\ new StructIpHeader ip_header = Ok ip
    /\ ip_protocol ip = 17
    /\ new StructUdpHeader (parse_udp ip_payload).1 = Ok udp
    /\ udp_dst_port udp <> 4790.

(** A header whose length is not the one its record type unpacks: a
    frame shorter than an Ethernet header, an IPv4 header that is not 20
    bytes long (IHL other than 5, or a truncated datagram), a truncated
    UDP header. *)
Definition header_length_unexpected (frame : bytes) : Prop :=
  (length frame < 14)%nat
  \/ (exists eth ip_header ip_payload,
        new StructEthHeader (parse_ethernet frame).1 = Ok eth
        /\ eth_type eth = 0x0800
        /\ parse_ip (parse_ethernet frame).2 = Ok (ip_header, ip_payload)
        /\ length ip_header <> 20%nat)
  \/ (exists eth ip_header ip_payload ip,
        new StructEthHeader (parse_ethernet frame).1 = Ok eth
        /\ eth_type eth = 0x0800
        /\ parse_ip (parse_ethernet frame).2 = Ok (ip_header, ip_payload)
        /\ new StructIpHeader ip_header = Ok ip
        /\ ip_protocol ip = 17
        /\ (length ip_payload < 8)%nat).

(** An IPv4 ethertype with nothing after the Ethernet header. *)
Definition ip_packet_missing (frame : bytes) : Prop :=
  exists eth,
    new StructEthHeader (parse_ethernet frame).1 = Ok eth
    /\ eth_type eth = 0x0800
    /\ (parse_ethernet frame).2 = [].

(** The state a pipeline body leaves behind, however it ends. *)
Definition outcome_world (o : Outcome) : World :=
  match o with
  | Returned w => w
  | Raised _ w => w
  | Sending w => w
  end.

(** The slices of a stored bundle have the lengths of the headers they
    were unpacked from. *)
Definition bundle_wf (B : Bundle) : Prop :=
  let '(outer_eth, outer_ip, udp, vxlan, eth_nsh, nsh) := B in
  length outer_eth = 14%nat /\ length outer_ip = 20%nat
  /\ length udp = 8%nat /\ length vxlan = 8%nat
  /\ length eth_nsh = 14%nat /\ length nsh = 24%nat.

Definition tables_wf (w : World) : Prop :=
  map_Forall (fun _ B => bundle_wf B) (sessions w)
  /\ map_Forall (fun _ B => bundle_wf B) (sessions_reply_info w).

(** ** Sample traffic *)

Definition sample_mac_a : bytes := [x02; x00; x00; x00; x00; x0a].
Definition sample_mac_b : bytes := [x02; x00; x00; x00; x00; x0b].
Definition sample_mac_c : bytes := [x02; x00; x00; x00; x00; x0c].
Definition sample_mac_d : bytes := [x02; x00; x00; x00; x00; x0d].
Definition sample_ip_a : bytes := [x0a; x00; x00; x01].
Definition sample_ip_b : bytes := [x0a; x00; x00; x02].

(** An outer IPv4 header: version 4, IHL 5, TTL 64, UDP, with a checksum
    that verifies. *)
Definition sample_outer_ip : bytes :=
  [x45; x00; x00; x8a; x00; x01; x00; x00; x40; x11; xf7; x0e;
   xc0; xa8; x01; x01; xc0; xa8; x01; x02].

Definition sample_outer_eth : bytes :=
  sample_mac_d ++ sample_mac_c ++ [x08; x00].

(** UDP to port 4790. *)
Definition sample_udp : bytes :=
  [x30; x39; x12; xb6; x00; x76; x00; x00].

Definition sample_vxlan : bytes :=
  [x0c; x00; x00; x04; x00; x00; x01; x00].

Definition sample_eth_nsh : bytes :=
  sample_mac_d ++ sample_mac_c ++ [x89; x4f].

(** NSH MD type 1, next protocol Ethernet, the last SPI byte and the SI
    given. *)
Definition sample_nsh (spi si : byte) : bytes :=
  [x00; x06; x01; x03; x00; x00; spi; si] ++ repeat x00 16.

(** A bare TCP segment between the given addresses and ports. *)
Definition sample_inner (eth_d eth_s ip_s ip_d port_s port_d : bytes)
  : bytes :=
  (eth_d ++ eth_s ++ [x08; x00])
  ++ ([x45; x00; x00; x28; x00; x00; x00; x00; x40; x06; x00; x00]
      ++ ip_s ++ ip_d)
  ++ (port_s ++ port_d
      ++ [x00; x00; x00; x01; x00; x00; x00; x00;
          x50; x02; xff; xff; x00; x00; x00; x00]).

(** 10.0.0.1:40000 to 10.0.0.2:80, and the reply direction. *)
Definition sample_forward : bytes :=
  sample_inner sample_mac_b sample_mac_a sample_ip_a sample_ip_b
    [x9c; x40] [x00; x50].

Definition sample_reply : bytes :=
  sample_inner sample_mac_a sample_mac_b sample_ip_b sample_ip_a
    [x00; x50] [x9c; x40].

Definition sample_forward_eth : StructEthHeader :=
  {| eth_dst := sample_mac_b; eth_src := sample_mac_a; eth_type := 0x0800 |}.

Definition sample_forward_ip : StructIpHeader :=
  {| ip_ver_ihl_type := 0x4500; ip_total_length := 40; ip_id := 0;
     ip_flags_frag_offset := 0; ip_time2live := 64; ip_protocol := 6;
     ip_hdr_checksum := 0; ip_src := sample_ip_a; ip_dst := sample_ip_b |}.

Definition sample_forward_tcp : StructTcpHeaderWithoutOptions :=
  {| tcp_src_port := 40000; tcp_dst_port := 80; tcp_seq_number := 1;
     tcp_ack := 0; tcp_byte_data_offset := 0x50; tcp_flags := 2;
     tcp_win_size := 65535; tcp_checksum := 0; tcp_urgent_ptr := 0 |}.

Definition sample_reply_eth : StructEthHeader :=
  {| eth_dst := sample_mac_a; eth_src := sample_mac_b; eth_type := 0x0800 |}.

Definition sample_reply_ip : StructIpHeader :=
  {| ip_ver_ihl_type := 0x4500; ip_total_length := 40; ip_id := 0;
     ip_flags_frag_offset := 0; ip_time2live := 64; ip_protocol := 6;
     ip_hdr_checksum := 0; ip_src := sample_ip_b; ip_dst := sample_ip_a |}.

Definition sample_reply_tcp : StructTcpHeaderWithoutOptions :=
  {| tcp_src_port := 80; tcp_dst_port := 40000; tcp_seq_number := 1;
     tcp_ack := 0; tcp_byte_data_offset := 0x50; tcp_flags := 2;
     tcp_win_size := 65535; tcp_checksum := 0; tcp_urgent_ptr := 0 |}.

Definition sample_encapsulated (spi si : byte) (inner : bytes) : bytes :=
  sample_outer_eth ++ sample_outer_ip ++ sample_udp ++ sample_vxlan
  ++ sample_eth_nsh ++ sample_nsh spi si ++ inner.

(** An ARP request, and an IPv4 datagram whose header carries options
    (IHL 6). *)
Definition sample_arp : bytes :=
  repeat xff 6 ++ sample_mac_c ++ [x08; x06] ++ repeat x00 28.

Definition sample_ip_options : bytes :=
  sample_outer_eth
  ++ [x46; x00; x00; x20; x00; x01; x00; x00; x40; x11; x00; x00;
      xc0; xa8; x01; x01; xc0; xa8; x01; x02; x94; x04; x00; x00]
  ++ sample_udp.

(** What the decap pipeline binds on the encapsulated forward sample. *)
Definition sample_decapsulated (spi si : byte) : Decapsulated :=
  {| outer_eth_header := sample_outer_eth;
     ip_header := sample_outer_ip;
     udp_header := sample_udp;
     vxlan_header := sample_vxlan;
     eth_nsh_header := sample_eth_nsh;
     nsh_header := sample_nsh spi si;
     nsh_payload := sample_forward;
     inner_eth_header_nt := sample_forward_eth;
     inner_ip_header_nt := sample_forward_ip;
     inner_tcp_header_nt := sample_forward_tcp |}.

Definition sample_bundle (spi si : byte) : Bundle :=
  (sample_outer_eth, sample_outer_ip, sample_udp, sample_vxlan,
   sample_eth_nsh, sample_nsh spi si).

Definition empty_world (results : list nat) : World :=
  {| sessions := ∅; sessions_reply_info := ∅; wire := [];
     send_results := results |}.

(** The state after the forward sample primed the flow: one entry in
    [sessions], none in [sessions_reply_info]. *)
Definition primed_world (spi si : byte) (results : list nat) : World :=
  {| sessions :=
       {[ flow_key sample_forward_eth sample_forward_ip sample_forward_tcp
          := sample_bundle spi si ]};
     sessions_reply_info := ∅;
     wire := [(sckt_unencap_out, sample_forward)];
     send_results := results |}.

(** ** Laws of a record type *)

(** The field tuple and the record are two views of the same data. *)
Class MetaStructLaws (T : Type) `{MetaStruct T} : Prop := {
  of_to_fields : forall nt : T, of_fields (to_fields nt) = nt;
  to_of_fields : forall vs, to_fields (of_fields vs : T) = vs;
}.

(** * The helpers around the pipelines *)

(** ** NSH construction *)

Definition make_nsh_sph_with_spi (nt : StructNshHeader) (new_nsh_spi : Z)
  : Z :=
  Z.shiftl new_nsh_spi 8 + get_nsh_si nt.

Definition make_nsh_sph_with_spi_si (nt : StructNshHeader)
    (new_nsh_spi new_nsh_si : Z) : Z :=
  Z.shiftl new_nsh_spi 8 + new_nsh_si.

(** [bytes(8 + 16)] is 24 null bytes. *)
Definition make_nsh_mdtype1 (nsh_spi nsh_si : Z) : result bytes :=
  let nsh_header := repeat x00 (8 + 16) in
  nt ← new StructNshHeader nsh_header;
  pack {| nsh_flags_length := 0x6;
          nsh_md_type := 0x1;
          nsh_np := 0x3;
          nsh_sph := make_nsh_sph_with_spi_si nt nsh_spi nsh_si;
          nsh_ctx1 := 0;
          nsh_ctx2 := 0;
          nsh_ctx3 := 0;
          nsh_ctx4 := 0 |}.

(** ** TCP base header helpers *)

Definition parse_tcp_flags (flags : Z)
  : bool * bool * bool * bool * bool * bool :=
  let fin := Z.land flags 1 >? 0 in
  let syn := Z.land flags (Z.shiftl 1 1) >? 0 in
  let rst := Z.land flags (Z.shiftl 1 2) >? 0 in
  let psh := Z.land flags (Z.shiftl 1 3) >? 0 in
  let ack := Z.land flags (Z.shiftl 1 4) >? 0 in
  let urg := Z.land flags (Z.shiftl 1 5) >? 0 in
  (fin, syn, rst, psh, ack, urg).

Definition get_tcp_flags_str (fin syn rst psh ack urg : bool) : string :=
  let str := EmptyString in
  let str := String.append str (if urg then "U" else "-") in
  let str := String.append str (if ack then "A" else "-") in
  let str := String.append str (if psh then "P" else "-") in
  let str := String.append str (if rst then "R" else "-") in
  let str := String.append str (if syn then "S" else "-") in
  let str := String.append str (if fin then "F" else "-") in
  str.

(** [nt._replace(tcp_ack=v)] and its like. *)
Definition replace_tcp_ack (nt : StructTcpHeaderWithoutOptions) (v : Z)
  : StructTcpHeaderWithoutOptions :=
  {| tcp_src_port := tcp_src_port nt; tcp_dst_port := tcp_dst_port nt;
     tcp_seq_number := tcp_seq_number nt; tcp_ack := v;
     tcp_byte_data_offset := tcp_byte_data_offset nt;
     tcp_flags := tcp_flags nt; tcp_win_size := tcp_win_size nt;
     tcp_checksum := tcp_checksum nt; tcp_urgent_ptr := tcp_urgent_ptr nt |}.

Definition replace_tcp_seq_number (nt : StructTcpHeaderWithoutOptions)
    (v : Z) : StructTcpHeaderWithoutOptions :=
  {| tcp_src_port := tcp_src_port nt; tcp_dst_port := tcp_dst_port nt;
     tcp_seq_number := v; tcp_ack := tcp_ack nt;
     tcp_byte_data_offset := tcp_byte_data_offset nt;
     tcp_flags := tcp_flags nt; tcp_win_size := tcp_win_size nt;
     tcp_checksum := tcp_checksum nt; tcp_urgent_ptr := tcp_urgent_ptr nt |}.

Definition replace_tcp_checksum (nt : StructTcpHeaderWithoutOptions) (v : Z)
  : StructTcpHeaderWithoutOptions :=
  {| tcp_src_port := tcp_src_port nt; tcp_dst_port := tcp_dst_port nt;
     tcp_seq_number := tcp_seq_number nt; tcp_ack := tcp_ack nt;
     tcp_byte_data_offset := tcp_byte_data_offset nt;
     tcp_flags := tcp_flags nt; tcp_win_size := tcp_win_size nt;
     tcp_checksum := v; tcp_urgent_ptr := tcp_urgent_ptr nt |}.

(** [port] is not used. *)
Definition make_tpc_hdr_ack (header_without_options : bytes) (port : Z)
    (num_bytes_added : Z) : result bytes :=
  nt ← new StructTcpHeaderWithoutOptions header_without_options;
  let new_tcp_ack := tcp_ack nt in
  let '(tcp_fin_f, tcp_syn_f, tcp_rst_f, tcp_psh_f, tcp_ack_f, tcp_urg_f) :=
    parse_tcp_flags (tcp_flags nt) in
  let new_tcp_ack :=
    if Bool.eqb tcp_ack_f true && Bool.eqb tcp_syn_f false
    then new_tcp_ack - num_bytes_added
    else new_tcp_ack in
  pack (replace_tcp_ack nt new_tcp_ack).

Definition make_tpc_hdr_seq (header_without_options : bytes) (port : Z)
    (num_bytes_added : Z) : result bytes :=
  nt ← new StructTcpHeaderWithoutOptions header_without_options;
  let new_tcp_seq := tcp_seq_number nt in
  let '(tcp_fin_f, tcp_syn_f, tcp_rst_f, tcp_psh_f, tcp_ack_f, tcp_urg_f) :=
    parse_tcp_flags (tcp_flags nt) in
  let new_tcp_seq :=
    if Bool.eqb tcp_ack_f true && Bool.eqb tcp_syn_f false
    then new_tcp_seq + num_bytes_added
    else new_tcp_seq in
  pack (replace_tcp_seq_number nt new_tcp_seq).

Definition get_tpc_sync (header_without_options : bytes) : result bool :=
  nt ← new StructTcpHeaderWithoutOptions header_without_options;
  let '(tcp_fin_f, tcp_syn_f, tcp_rst_f, tcp_psh_f, tcp_ack_f, tcp_urg_f) :=
    parse_tcp_flags (tcp_flags nt) in
  Ok tcp_syn_f.

Definition goes_from_server_to_client (header_without_options : bytes)
    (port : Z) : result bool :=
  nt ← new StructTcpHeaderWithoutOptions header_without_options;
  Ok (port =? tcp_src_port nt).

Definition goes_from_client_to_server (header_without_options : bytes)
    (port : Z) : result bool :=
  nt ← new StructTcpHeaderWithoutOptions header_without_options;
  Ok (port =? tcp_dst_port nt).

Definition has_correct_port (header_without_options : bytes) (port : Z)
  : result bool :=
  nt ← new StructTcpHeaderWithoutOptions header_without_options;
  Ok ((port =? tcp_src_port nt) || (port =? tcp_dst_port nt)).

Definition need_reset_tcp_connection (tcp_header_without_options : bytes)
  : result bool :=
  nt ← new StructTcpHeaderWithoutOptions tcp_header_without_options;
  let '(tcp_fin_f, tcp_syn_f, tcp_rst_f, tcp_psh_f, tcp_ack_f, tcp_urg_f) :=
    parse_tcp_flags (tcp_flags nt) in
  Ok tcp_rst_f.

(** ** TCP checksum and the rebuilt IP packet *)

Definition calculate_tcp_checksum (host : byteorder)
    (ip_header header_without_options options payload : bytes)
  : result Z :=
  ip_header_nt ← new StructIpHeader ip_header;
  pseudo_header_nt ← new StructPseudoHeader (repeat x00 12);
  let pseudo_header_nt :=
    {| src := ip_src ip_header_nt;
       dst := ip_dst ip_header_nt;
       zero := 0;
       protocol := ip_protocol ip_header_nt;
       tcp_length :=
         Z.of_nat (length (header_without_options ++ options ++ payload)) |}
  in
  header_without_options_nt ←
    new StructTcpHeaderWithoutOptions header_without_options;
  let header_without_options_nt :=
    replace_tcp_checksum header_without_options_nt 0 in
  pseudo_header ← pack pseudo_header_nt;
  tcp_header ← pack header_without_options_nt;
  Ok (calculate_checksum host
        (pseudo_header ++ tcp_header ++ options ++ payload)).

Definition make_ip_package (host : byteorder)
    (ip_header header_without_options options payload : bytes)
  : result bytes :=
  new_tcp_checksum ←
    calculate_tcp_checksum host ip_header header_without_options options
      payload;
  nt ← new StructTcpHeaderWithoutOptions header_without_options;
  let nt_new_header_without_options :=
    replace_tcp_checksum nt new_tcp_checksum in
  packed ← pack nt_new_header_without_options;
  let new_ip_payload := packed ++ options ++ payload in
  let new_ip_total_length :=
    Z.of_nat (length (ip_header ++ new_ip_payload)) in
  new_ip_header ← make_ip_header host ip_header new_ip_total_length;
  Ok (new_ip_header ++ new_ip_payload).

(** [nt._replace(nsh_sph=v)]. *)
Definition replace_nsh_sph (nt : StructNshHeader) (v : Z) : StructNshHeader :=
  {| nsh_flags_length := nsh_flags_length nt; nsh_md_type := nsh_md_type nt;
     nsh_np := nsh_np nt; nsh_sph := v; nsh_ctx1 := nsh_ctx1 nt;
     nsh_ctx2 := nsh_ctx2 nt; nsh_ctx3 := nsh_ctx3 nt;
     nsh_ctx4 := nsh_ctx4 nt |}.

(** The state after the forward sample primed the flow and a reply was
    seen on the encap interface: one entry in each table, under the key
    of the forward sample. *)
Definition replied_world (spi si : byte) (results : list nat) : World :=
  {| sessions :=
       {[ flow_key sample_forward_eth sample_forward_ip sample_forward_tcp
          := sample_bundle spi si ]};
     sessions_reply_info :=
       {[ flow_key sample_forward_eth sample_forward_ip sample_forward_tcp
          := sample_bundle spi si ]};
     wire := [];
     send_results := results |}.

(** What a pipeline may do to the state: [sent_on P] holds when the
    tables are as they were and everything sent went to a socket in
    [P]. *)
Definition tables_kept (w w' : World) : Prop :=
  sessions w' = sessions w
  /\ sessions_reply_info w' = sessions_reply_info w.

Definition sent_only (P : Socket -> Prop) (w w' : World) : Prop :=
  exists sent, wire w' = wire w ++ sent /\ Forall (fun p => P p.1) sent.

Definition tables_grow (w w' : World) : Prop :=
  (forall k, is_Some (sessions w !! k) -> is_Some (sessions w' !! k))
  /\ (forall k, is_Some (sessions_reply_info w !! k) ->
        is_Some (sessions_reply_info w' !! k)).

(** Every flow with reply information has been primed. *)
Definition replies_primed (w : World) : Prop :=
  forall k, is_Some (sessions_reply_info w !! k) ->
            is_Some (sessions w !! k).

(** What the decap pipeline binds on the encapsulated reply sample. *)
Definition sample_reply_decapsulated (spi si : byte) : Decapsulated :=
  {| outer_eth_header := sample_outer_eth;
     ip_header := sample_outer_ip;
     udp_header := sample_udp;
     vxlan_header := sample_vxlan;
     eth_nsh_header := sample_eth_nsh;
     nsh_header := sample_nsh spi si;
     nsh_payload := sample_reply;
     inner_eth_header_nt := sample_reply_eth;
     inner_ip_header_nt := sample_reply_ip;
     inner_tcp_header_nt := sample_reply_tcp |}.

(** ** HTTP header enrichment *)

(** A Python [str] is a sequence of code points, each in
    [0 .. 0x10FFFF]. *)
Definition str := list Z.

(** [chr(c).encode('utf-8')].  [None]: [UnicodeEncodeError], raised for
    the surrogates [0xD800 .. 0xDFFF]; a number outside [0 .. 0x10FFFF] is
    no code point and is refused as well. *)
Definition utf8_char (c : Z) : option bytes :=
  if (c <? 0) || (0x10FFFF <? c) then None
  else if c <? 0x80 then Some [byte_of_Z c]
  else if c <? 0x800 then
    Some [byte_of_Z (Z.lor 0xC0 (Z.shiftr c 6));
          byte_of_Z (Z.lor 0x80 (Z.land c 0x3F))]
  else if (0xD800 <=? c) && (c <=? 0xDFFF) then None
  else if c <? 0x10000 then
    Some [byte_of_Z (Z.lor 0xE0 (Z.shiftr c 12));
          byte_of_Z (Z.lor 0x80 (Z.land (Z.shiftr c 6) 0x3F));
          byte_of_Z (Z.lor 0x80 (Z.land c 0x3F))]
  else
    Some [byte_of_Z (Z.lor 0xF0 (Z.shiftr c 18));
          byte_of_Z (Z.lor 0x80 (Z.land (Z.shiftr c 12) 0x3F));
          byte_of_Z (Z.lor 0x80 (Z.land (Z.shiftr c 6) 0x3F));
          byte_of_Z (Z.lor 0x80 (Z.land c 0x3F))].

(** [s.encode('utf-8')]. *)
Fixpoint encode_utf8 (s : str) : option bytes :=
  match s with
  | [] => Some []
  | c :: s' =>
      b ← utf8_char c;
      r ← encode_utf8 s';
      Some (b ++ r)
  end.

(** The literals [': '], ['\r\n'] and ['#']. *)
Definition colon_space : str := [58; 32].
Definition crlf : str := [13; 10].
Definition hash : Z := 35.

(** The [for k, v in http_headers_items] loop, on the bytearray built so
    far and the flag [updatedHeaderEnrichment]. *)
Fixpoint modify_http_header_loop (http_headers_items : list (str * str))
    (key_enrich value_enrich : str) (num_chars_separator : nat)
    (return_http_header : bytes) (updatedHeaderEnrichment : bool)
  : option (bytes * bool) :=
  match http_headers_items with
  | [] => Some (return_http_header, updatedHeaderEnrichment)
  | (k, v) :: items =>
      let '(v, updatedHeaderEnrichment) :=
        if bool_decide (k = key_enrich)
        then
          let separator := repeat hash num_chars_separator in
          (v ++ separator ++ value_enrich, true)
        else (v, updatedHeaderEnrichment) in
      let line_text := k ++ colon_space ++ v ++ crlf in
      line ← encode_utf8 line_text;
      modify_http_header_loop items key_enrich value_enrich
        num_chars_separator (return_http_header ++ line)
        updatedHeaderEnrichment
  end.

(** The [bytearray] returned is given as the bytes it holds. *)
Definition modify_http_header (http_headers_items : list (str * str))
    (key_enrich value_enrich : str) : option bytes :=
  let return_http_header := [] in
  let updatedHeaderEnrichment := false in
  let hhe_key := key_enrich ++ colon_space in
  let num_chars_separator := (length hhe_key + length crlf)%nat in
  '(return_http_header, updatedHeaderEnrichment) ←
    modify_http_header_loop http_headers_items key_enrich value_enrich
      num_chars_separator return_http_header updatedHeaderEnrichment;
  return_http_header ←
    (if negb updatedHeaderEnrichment
     then
       let line_text := hhe_key ++ value_enrich ++ crlf in
       line ← encode_utf8 line_text;
       Some (return_http_header ++ line)
     else Some return_http_header);
  line ← encode_utf8 crlf;
  Some (return_http_header ++ line).

(** A code point that UTF-8 encodes: any but a surrogate. *)
Definition encodable (c : Z) : Prop :=
  0 <= c < 0xD800 \/ 0xE000 <= c <= 0x10FFFF.

(** The number of bytes of [s.encode('utf-8')]. *)
Definition encoded_length (s : str) : nat :=
  from_option length 0%nat (encode_utf8 s).

(** The number of headers named [key_enrich]. *)
Definition occurrences (key_enrich : str) (items : list (str * str)) : nat :=
  length (filter (fun kv => kv.1 = key_enrich) items).

(** [Host: a.example] and [X-Id: 7]. *)
Definition sample_headers : list (str * str) :=
  [([72; 111; 115; 116], [97; 46; 101; 120; 97; 109; 112; 108; 101]);
   ([88; 45; 73; 100], [55])].

(** The text of one header line as the loop builds it, and of the whole
    block. *)
Definition header_line (key_enrich value_enrich : str) (kv : str * str)
  : str :=
  kv.1 ++ colon_space
  ++ (if bool_decide (kv.1 = key_enrich)
      then kv.2 ++ repeat hash (length key_enrich + 4) ++ value_enrich
      else kv.2)
  ++ crlf.

Definition enriched_text (items : list (str * str))
    (key_enrich value_enrich : str) : str :=
  concat (map (header_line key_enrich value_enrich) items)
  ++ (if (occurrences key_enrich items =? 0)%nat
      then key_enrich ++ colon_space ++ value_enrich ++ crlf
      else [])
  ++ crlf.

(** * Properties *)

(** ** Bytes and big-endian integers *)

Lemma byte_to_Z_range (b : byte) : 0 <= byte_to_Z b < 256.
Proof.
  unfold byte_to_Z. pose proof (Byte.to_N_bounded b). lia.
Qed.

Lemma byte_of_to_Z (b : byte) : byte_of_Z (byte_to_Z b) = b.
Proof.
  unfold byte_of_Z. pose proof (byte_to_Z_range b) as Hr.
  rewrite Z.mod_small by lia. unfold byte_to_Z.
  rewrite N2Z.id, Byte.of_to_N. reflexivity.
Qed.

Lemma byte_to_of_Z (z : Z) : byte_to_Z (byte_of_Z z) = z mod 256.
Proof.
  unfold byte_of_Z, byte_to_Z.
  pose proof (Z.mod_pos_bound z 256 ltac:(lia)) as Hm.
  destruct (Byte.of_N (Z.to_N (z mod 256))) as [b|] eqn:E.
  - apply Byte.to_of_N in E. rewrite E. lia.
  - apply Byte.of_N_None_iff in E. lia.
Qed.

Lemma byte_of_Z_mod (z : Z) : byte_of_Z (z mod 256) = byte_of_Z z.
Proof. unfold byte_of_Z. rewrite Z.mod_mod by lia. reflexivity. Qed.

Lemma be_decode_snoc (l : bytes) (b : byte) :
  be_decode (l ++ [b]) = be_decode l * 256 + byte_to_Z b.
Proof. unfold be_decode. rewrite fold_left_app. reflexivity. Qed.

Lemma be_decode_range (l : bytes) :
  0 <= be_decode l < 256 ^ Z.of_nat (length l).
Proof.
  induction l as [|b l IH] using rev_ind.
  - cbn. lia.
  - rewrite be_decode_snoc, length_app, Nat2Z.inj_add, Z.pow_add_r by lia.
    pose proof (byte_to_Z_range b). cbn [length Z.of_nat]. lia.
Qed.

Lemma length_be_encode (n : nat) (v : Z) : length (be_encode n v) = n.
Proof.
  revert v. induction n as [|n IH]; intros v; cbn [be_encode].
  - reflexivity.
  - rewrite length_app, IH. cbn. lia.
Qed.

Lemma be_decode_encode (n : nat) (v : Z) :
  0 <= v < 256 ^ Z.of_nat n -> be_decode (be_encode n v) = v.
Proof.
  revert v. induction n as [|n IH]; intros v Hv.
  - cbn in *. lia.
  - cbn [be_encode]. rewrite be_decode_snoc, byte_to_of_Z.
    rewrite Nat2Z.inj_succ, Z.pow_succ_r in Hv by lia.
    rewrite IH.
    + pose proof (Z.div_mod v 256 ltac:(lia)). lia.
    + split; [apply Z.div_pos; lia | apply Z.div_lt_upper_bound; lia].
Qed.

Lemma be_encode_decode (l : bytes) : be_encode (length l) (be_decode l) = l.
Proof.
  induction l as [|b l IH] using rev_ind.
  - reflexivity.
  - rewrite length_app, Nat.add_comm. cbn [length Nat.add be_encode].
    rewrite be_decode_snoc. pose proof (byte_to_Z_range b) as Hb.
    replace ((be_decode l * 256 + byte_to_Z b) / 256) with (be_decode l).
    + rewrite IH. f_equal. f_equal.
      rewrite <- byte_of_Z_mod.
      replace ((be_decode l * 256 + byte_to_Z b) mod 256) with (byte_to_Z b).
      * apply byte_of_to_Z.
      * rewrite Z.add_comm, Z.mod_add by lia. rewrite Z.mod_small; lia.
    + rewrite Z.add_comm, Z.div_add by lia. rewrite Z.div_small; lia.
Qed.

Lemma pack_uint_decode (n : nat) (l : bytes) :
  length l = n -> pack_uint n (be_decode l) = Ok l.
Proof.
  intros <-. unfold pack_uint. pose proof (be_decode_range l) as Hr.
  destruct (Z.leb_spec 0 (be_decode l)); [|lia].
  destruct (Z.ltb_spec (be_decode l) (256 ^ Z.of_nat (length l))); [|lia].
  cbn. rewrite be_encode_decode. reflexivity.
Qed.

Lemma pack_uint_ok (n : nat) (v : Z) :
  0 <= v < 256 ^ Z.of_nat n -> pack_uint n v = Ok (be_encode n v).
Proof.
  intros Hv. unfold pack_uint.
  destruct (Z.leb_spec 0 v); [|lia].
  destruct (Z.ltb_spec v (256 ^ Z.of_nat n)); [|lia]. reflexivity.
Qed.

Lemma pack_uint_length (n : nat) (v : Z) (b : bytes) :
  pack_uint n v = Ok b -> length b = n.
Proof.
  unfold pack_uint. destruct (_ && _); [|discriminate].
  intros [= <-]. apply length_be_encode.
Qed.

Lemma pack_uint_decr_last (l : bytes) (b : byte) :
  1 <= byte_to_Z b ->
  pack_uint (S (length l)) (be_decode (l ++ [b]) - 1)
  = Ok (l ++ [byte_of_Z (byte_to_Z b - 1)]).
Proof.
  intros Hb. pose proof (byte_to_Z_range b) as Rb.
  pose proof (be_decode_range l) as Rl.
  rewrite be_decode_snoc. rewrite pack_uint_ok.
  - cbn [be_encode]. f_equal.
    replace ((be_decode l * 256 + byte_to_Z b - 1) / 256) with (be_decode l).
    + rewrite be_encode_decode. f_equal. f_equal.
      rewrite <- byte_of_Z_mod. f_equal.
      replace (be_decode l * 256 + byte_to_Z b - 1)
        with (byte_to_Z b - 1 + be_decode l * 256) by lia.
      rewrite Z.mod_add by lia. apply Z.mod_small. lia.
    + replace (be_decode l * 256 + byte_to_Z b - 1)
        with (byte_to_Z b - 1 + be_decode l * 256) by lia.
      rewrite Z.div_add by lia. rewrite Z.div_small; lia.
  - rewrite Nat2Z.inj_succ, Z.pow_succ_r by lia. lia.
Qed.

Lemma be_encode_2 (v : Z) :
  be_encode 2 v = [byte_of_Z (v / 256); byte_of_Z v].
Proof. reflexivity. Qed.

Lemma pack_s_exact (n : nat) (s : bytes) : length s = n -> pack_s n s = s.
Proof. intros <-. unfold pack_s. apply take_app_length. Qed.

(** ** [struct.pack] and [struct.unpack] are inverse *)

Lemma pack_code_unpack (c : fmt_code) (b : bytes) :
  length b = code_size c -> pack_code c (unpack_code c b) = Ok b.
Proof.
  destruct c; cbn [pack_code unpack_code code_size]; intros Hl;
    try (apply pack_uint_decode; exact Hl).
  f_equal. apply pack_s_exact. exact Hl.
Qed.

Lemma unpack_code_ok (c : fmt_code) (b : bytes) :
  length b = code_size c -> code_ok c (unpack_code c b).
Proof.
  destruct c; cbn [code_ok unpack_code code_size]; intros Hl;
    first [ exact Hl
          | pose proof (be_decode_range b) as Hr; rewrite Hl in Hr;
            cbn in Hr; lia ].
Qed.

Lemma pack_code_ok (c : fmt_code) (v : code_val c) :
  code_ok c v ->
  exists b, pack_code c v = Ok b /\ length b = code_size c
            /\ unpack_code c b = v.
Proof.
  destruct c; cbn [code_ok pack_code code_size unpack_code code_val] in *;
    intros Hv.
  1-3: eexists; split; [apply pack_uint_ok; cbn; lia|];
       split; [apply length_be_encode | apply be_decode_encode; cbn; lia].
  exists v. rewrite pack_s_exact by exact Hv. auto.
Qed.

Lemma struct_pack_unpack_fields (fmt : list fmt_code) (b : bytes) :
  length b = calcsize fmt -> struct_pack fmt (unpack_fields fmt b) = Ok b.
Proof.
  revert b. induction fmt as [|c fmt IH]; intros b Hl.
  - destruct b; [reflexivity | discriminate].
  - cbn [calcsize fold_right] in Hl. fold (calcsize fmt) in Hl.
    cbn [struct_pack unpack_fields fst snd].
    rewrite pack_code_unpack by (rewrite length_take; lia).
    cbn [mbind result_bind].
    rewrite IH by (rewrite length_drop; lia).
    cbn [mbind result_bind]. rewrite take_drop. reflexivity.
Qed.

Lemma unpack_fields_ok (fmt : list fmt_code) (b : bytes) :
  length b = calcsize fmt -> fields_ok fmt (unpack_fields fmt b).
Proof.
  revert b. induction fmt as [|c fmt IH]; intros b Hl.
  - exact I.
  - cbn [calcsize fold_right] in Hl. fold (calcsize fmt) in Hl.
    cbn [fields_ok unpack_fields fst snd]. split.
    + apply unpack_code_ok. rewrite length_take. lia.
    + apply IH. rewrite length_drop. lia.
Qed.

Lemma struct_pack_ok (fmt : list fmt_code) (vs : fields fmt) :
  fields_ok fmt vs ->
  exists b, struct_pack fmt vs = Ok b /\ length b = calcsize fmt
            /\ unpack_fields fmt b = vs.
Proof.
  induction fmt as [|c fmt IH].
  - intros _. exists []. destruct vs. auto.
  - destruct vs as [v vs]. cbn [fields_ok fst snd]. intros [Hv Hvs].
    destruct (pack_code_ok c v Hv) as (b1 & E1 & L1 & U1).
    destruct (IH vs Hvs) as (b2 & E2 & L2 & U2).
    exists (b1 ++ b2). cbn [struct_pack fst snd]. rewrite E1.
    cbn [mbind result_bind]. rewrite E2. cbn [mbind result_bind].
    split; [reflexivity|]. split.
    + rewrite length_app. cbn [calcsize fold_right]. fold (calcsize fmt). lia.
    + cbn [unpack_fields]. rewrite <- L1, take_app_length, drop_app_length.
      congruence.
Qed.

Lemma struct_pack_length (fmt : list fmt_code) (vs : fields fmt) (b : bytes) :
  struct_pack fmt vs = Ok b -> length b = calcsize fmt.
Proof.
  revert b. induction fmt as [|c fmt IH]; intros b.
  - cbn. intros [= <-]. reflexivity.
  - destruct vs as [v vs]. cbn [struct_pack fst snd].
    destruct (pack_code c v) as [b1|] eqn:E1; [|discriminate].
    cbn [mbind result_bind].
    destruct (struct_pack fmt vs) as [b2|] eqn:E2; [|discriminate].
    cbn [mbind result_bind]. intros [= <-].
    rewrite length_app, (IH vs b2 E2). cbn [calcsize fold_right].
    fold (calcsize fmt). f_equal.
    destruct c; cbn [pack_code code_size] in *;
      try (eapply pack_uint_length; exact E1).
    injection E1 as <-. unfold pack_s.
    rewrite length_take, length_app, repeat_length. lia.
Qed.

Lemma struct_unpack_ok (fmt : list fmt_code) (record : bytes) :
  length record = calcsize fmt ->
  struct_unpack fmt record = Ok (unpack_fields fmt record).
Proof.
  intros Hl. unfold struct_unpack. rewrite Hl, Nat.eqb_refl. reflexivity.
Qed.

Lemma struct_unpack_inv (fmt : list fmt_code) (record : bytes) vs :
  struct_unpack fmt record = Ok vs ->
  length record = calcsize fmt /\ vs = unpack_fields fmt record.
Proof.
  unfold struct_unpack.
  destruct (Nat.eqb_spec (length record) (calcsize fmt)); [|discriminate].
  intros [= <-]. auto.
Qed.

Lemma struct_unpack_short (fmt : list fmt_code) (record : bytes) :
  length record <> calcsize fmt -> struct_unpack fmt record = Raise StructError.
Proof.
  intros Hl. unfold struct_unpack.
  destruct (Nat.eqb_spec (length record) (calcsize fmt)); [lia|reflexivity].
Qed.

Ltac struct_laws :=
  split;
  [ intros []; reflexivity
  | intros vs; cbn in vs;
    repeat match goal with
           | x : (_ * _)%type |- _ => destruct x
           | x : unit |- _ => destruct x
           end; reflexivity ].

#[global] Instance StructEthHeader_laws : MetaStructLaws StructEthHeader.
Proof. struct_laws. Qed.
#[global] Instance StructNshHeader_laws : MetaStructLaws StructNshHeader.
Proof. struct_laws. Qed.
#[global] Instance StructUdpHeader_laws : MetaStructLaws StructUdpHeader.
Proof. struct_laws. Qed.
#[global] Instance StructIpHeader_laws : MetaStructLaws StructIpHeader.
Proof. struct_laws. Qed.
#[global] Instance StructTcpHeaderWithoutOptions_laws
  : MetaStructLaws StructTcpHeaderWithoutOptions.
Proof. struct_laws. Qed.
#[global] Instance StructPseudoHeader_laws : MetaStructLaws StructPseudoHeader.
Proof. struct_laws. Qed.
#[global] Instance StructVxLanGPEHeader_laws
  : MetaStructLaws StructVxLanGPEHeader.
Proof. struct_laws. Qed.

Section Codec.
Context {T : Type} `{MetaStructLaws T}.

Lemma new_pack (nt : T) :
  well_formed nt -> exists b, pack nt = Ok b /\ new T b = Ok nt.
Proof.
  unfold well_formed, pack, new. intros Hok.
  destruct (struct_pack_ok _ _ Hok) as (b & E & L & U).
  exists b. split; [exact E|].
  rewrite struct_unpack_ok by exact L. cbn [fmap result_fmap].
  rewrite U, of_to_fields. reflexivity.
Qed.

Lemma pack_new (record : bytes) (nt : T) :
  new T record = Ok nt -> pack nt = Ok record.
Proof.
  unfold new, pack.
  destruct (struct_unpack struct_fmt record) as [vs|] eqn:E; [|discriminate].
  cbn [fmap result_fmap]. intros [= <-].
  apply struct_unpack_inv in E as [L ->].
  rewrite to_of_fields. apply struct_pack_unpack_fields. exact L.
Qed.

Lemma new_length (record : bytes) (nt : T) :
  new T record = Ok nt -> length record = calcsize struct_fmt.
Proof.
  unfold new.
  destruct (struct_unpack struct_fmt record) as [vs|] eqn:E; [|discriminate].
  intros _. apply struct_unpack_inv in E as [L _]. exact L.
Qed.

Lemma new_ok (record : bytes) :
  length record = calcsize struct_fmt -> exists nt, new T record = Ok nt.
Proof.
  intros L. unfold new. rewrite struct_unpack_ok by exact L.
  eexists. reflexivity.
Qed.

Lemma new_error (record : bytes) :
  length record <> calcsize struct_fmt -> new T record = Raise StructError.
Proof.
  intros L. unfold new. rewrite struct_unpack_short by exact L.
  reflexivity.
Qed.

Lemma new_well_formed (record : bytes) (nt : T) :
  new T record = Ok nt -> well_formed nt.
Proof.
  unfold new, well_formed.
  destruct (struct_unpack struct_fmt record) as [vs|] eqn:E; [|discriminate].
  cbn [fmap result_fmap]. intros [= <-].
  apply struct_unpack_inv in E as [L ->].
  rewrite to_of_fields. apply unpack_fields_ok. exact L.
Qed.

Lemma pack_length (nt : T) (b : bytes) :
  pack nt = Ok b -> length b = calcsize struct_fmt.
Proof. apply struct_pack_length. Qed.
End Codec.

(** C9.  For every well-formed header record of each of the seven codec
    types (address fields of the declared width, integer fields in the
    range of their format), packing succeeds and parsing the packed bytes
    gives the record back: [parse(pack(x)) == x]. *)
Theorem header_codec_round_trip :
  (forall x : StructEthHeader, well_formed x ->
     pack x ≫= new StructEthHeader = Ok x) /\
  (forall x : StructIpHeader, well_formed x ->
     pack x ≫= new StructIpHeader = Ok x) /\
  (forall x : StructUdpHeader, well_formed x ->
     pack x ≫= new StructUdpHeader = Ok x) /\
  (forall x : StructVxLanGPEHeader, well_formed x ->
     pack x ≫= new StructVxLanGPEHeader = Ok x) /\
  (forall x : StructNshHeader, well_formed x ->
     pack x ≫= new StructNshHeader = Ok x) /\
  (forall x : StructTcpHeaderWithoutOptions, well_formed x ->
     pack x ≫= new StructTcpHeaderWithoutOptions = Ok x) /\
  (forall x : StructPseudoHeader, well_formed x ->
     pack x ≫= new StructPseudoHeader = Ok x).
Proof.
  repeat split; intros x Hx;
    destruct (new_pack x Hx) as (b & -> & E); exact E.
Qed.

Lemma header_codec_round_trip_witness :
  pack {| eth_dst := sample_mac_a; eth_src := sample_mac_b;
          eth_type := 0x0800 |} ≫= new StructEthHeader
  = Ok {| eth_dst := sample_mac_a; eth_src := sample_mac_b;
          eth_type := 0x0800 |}.
Proof.
  apply (proj1 header_codec_round_trip).
  cbn. repeat split; lia.
Defined.

(** ** Rewriting helpers, byte for byte *)

#[local] Arguments be_decode : simpl never.
#[local] Arguments be_encode : simpl never.
#[local] Arguments pack_uint : simpl never.
#[local] Arguments pack_s : simpl never.
#[local] Arguments byte_to_Z : simpl never.
#[local] Arguments byte_of_Z : simpl never.

(** Names the bytes of a buffer whose length is a known numeral. *)
Ltac explode h H :=
  repeat (destruct h as [|? h]; [discriminate H|]);
  destruct h; [|discriminate H]; clear H.

Ltac run_pack :=
  cbn;
  repeat first
    [ rewrite pack_uint_decode by reflexivity
    | rewrite pack_s_exact by reflexivity
    | progress cbn ].

Lemma make_ethernet_header_swap_bytes (header : bytes) :
  length header = 14%nat ->
  make_ethernet_header_swap header
  = Ok (slice 6 12 header ++ slice 0 6 header ++ slice 12 14 header).
Proof.
  intros H. explode header H. unfold make_ethernet_header_swap.
  run_pack. reflexivity.
Qed.

Lemma make_ip_header_swap_bytes (header : bytes) :
  length header = 20%nat ->
  make_ip_header_swap header
  = Ok (firstn 12 header ++ slice 16 20 header ++ slice 12 16 header).
Proof.
  intros H. explode header H. unfold make_ip_header_swap.
  run_pack. reflexivity.
Qed.

(** ** NSH service index *)

Lemma sph_split (sph : Z) :
  0 <= sph < 4294967296 ->
  Z.shiftr (Z.land sph 0xFFFFFF00) 8 = sph / 256
  /\ Z.land sph 0x000000FF = sph mod 256.
Proof.
  intros Hs. split.
  - rewrite Z.shiftr_land. change (Z.shiftr 0xFFFFFF00 8) with (Z.ones 24).
    rewrite Z.land_ones, Z.shiftr_div_pow2 by lia.
    change (2 ^ 8) with 256. apply Z.mod_small.
    split; [apply Z.div_pos; lia | apply Z.div_lt_upper_bound; lia].
  - change 0x000000FF with (Z.ones 8). rewrite Z.land_ones by lia.
    reflexivity.
Qed.

Lemma nsh_sph_range (record : bytes) (nt : StructNshHeader) :
  new StructNshHeader record = Ok nt -> 0 <= nsh_sph nt < 4294967296.
Proof.
  intros E. apply new_well_formed in E. cbn in E. tauto.
Qed.

Lemma get_nsh_si_range (record : bytes) (nt : StructNshHeader) :
  new StructNshHeader record = Ok nt -> 0 <= get_nsh_si nt < 256.
Proof.
  intros E. apply nsh_sph_range in E. unfold get_nsh_si.
  rewrite (proj2 (sph_split _ E)). apply Z.mod_pos_bound. lia.
Qed.

Lemma make_nsh_sph_decr (nt : StructNshHeader) :
  0 <= nsh_sph nt < 4294967296 ->
  make_nsh_sph_with_si nt (get_nsh_si nt - 1) = nsh_sph nt - 1.
Proof.
  intros Hs. unfold make_nsh_sph_with_si, get_nsh_spi, get_nsh_si.
  destruct (sph_split _ Hs) as [-> ->].
  rewrite Z.shiftl_mul_pow2 by lia. change (2 ^ 8) with 256.
  pose proof (Z.div_mod (nsh_sph nt) 256 ltac:(lia)). lia.
Qed.

Lemma be_decode4_low (a b c d : byte) :
  be_decode [a; b; c; d] mod 256 = byte_to_Z d.
Proof.
  change [a; b; c; d] with ([a; b; c] ++ [d]).
  rewrite be_decode_snoc, Z.add_comm, Z.mod_add by lia.
  apply Z.mod_small, byte_to_Z_range.
Qed.

Lemma pack_uint4_decr (a b c d : byte) :
  1 <= byte_to_Z d ->
  pack_uint 4 (be_decode [a; b; c; d] - 1)
  = Ok [a; b; c; byte_of_Z (byte_to_Z d - 1)].
Proof. exact (pack_uint_decr_last [a; b; c] d). Qed.

(** The decrement acts on the service path header as a whole. *)
Lemma make_nsh_decr_si_pack (nsh_header : bytes) (nt : StructNshHeader) :
  new StructNshHeader nsh_header = Ok nt ->
  make_nsh_decr_si nsh_header
  = pack {| nsh_flags_length := nsh_flags_length nt;
            nsh_md_type := nsh_md_type nt;
            nsh_np := nsh_np nt;
            nsh_sph := nsh_sph nt - 1;
            nsh_ctx1 := nsh_ctx1 nt;
            nsh_ctx2 := nsh_ctx2 nt;
            nsh_ctx3 := nsh_ctx3 nt;
            nsh_ctx4 := nsh_ctx4 nt |}.
Proof.
  intros Enew. unfold make_nsh_decr_si. rewrite Enew.
  cbn [mbind result_bind].
  rewrite (make_nsh_sph_decr nt (nsh_sph_range _ _ Enew)). reflexivity.
Qed.

Lemma make_nsh_decr_si_bytes (nsh_header : bytes) (nt : StructNshHeader) :
  new StructNshHeader nsh_header = Ok nt ->
  1 <= get_nsh_si nt ->
  make_nsh_decr_si nsh_header
  = Ok (firstn 7 nsh_header ++ [byte_of_Z (get_nsh_si nt - 1)]
        ++ skipn 8 nsh_header).
Proof.
  intros Enew Hsi. rewrite (make_nsh_decr_si_pack _ _ Enew).
  pose proof (nsh_sph_range _ _ Enew) as Hsph.
  destruct (sph_split _ Hsph) as [_ Hlow].
  unfold get_nsh_si in *. rewrite Hlow in *. clear Hlow Hsph.
  pose proof (new_length _ _ Enew) as L. cbn in L.
  explode nsh_header L. cbn in Enew. injection Enew as <-.
  cbn [nsh_sph nsh_flags_length nsh_md_type nsh_np nsh_ctx1 nsh_ctx2
       nsh_ctx3 nsh_ctx4] in *.
  rewrite be_decode4_low in *.
  unfold pack. cbn.
  repeat first
    [ rewrite pack_uint_decode by reflexivity
    | rewrite pack_uint4_decr by lia
    | progress cbn ].
  reflexivity.
Qed.

(** C6.  On a 24-byte NSH whose Service Index is at least 1,
    [make_nsh_decr_si] returns a 24-byte NSH that differs from the input in
    the Service Index only, which is one less: byte 7 is replaced, the
    service path header as a whole drops by one, and the SPI, the
    flags/length, MD type, next protocol and the four context words are
    those of the input. *)
Theorem make_nsh_decr_si_decrements
    (nsh_header : bytes) (nt : StructNshHeader) :
  new StructNshHeader nsh_header = Ok nt ->
  1 <= get_nsh_si nt ->
  exists out nt',
    make_nsh_decr_si nsh_header = Ok out
    /\ length out = 24%nat
    /\ out = firstn 7 nsh_header ++ [byte_of_Z (get_nsh_si nt - 1)]
             ++ skipn 8 nsh_header
    /\ new StructNshHeader out = Ok nt'
    /\ get_nsh_si nt' = get_nsh_si nt - 1
    /\ get_nsh_spi nt' = get_nsh_spi nt
    /\ nsh_flags_length nt' = nsh_flags_length nt
    /\ nsh_md_type nt' = nsh_md_type nt
    /\ nsh_np nt' = nsh_np nt
    /\ nsh_ctx1 nt' = nsh_ctx1 nt
    /\ nsh_ctx2 nt' = nsh_ctx2 nt
    /\ nsh_ctx3 nt' = nsh_ctx3 nt
    /\ nsh_ctx4 nt' = nsh_ctx4 nt.
Proof.
  intros Enew Hsi.
  pose proof (nsh_sph_range _ _ Enew) as Hsph.
  pose proof (new_well_formed _ _ Enew) as Hwf.
  destruct (sph_split _ Hsph) as [Hspi Hlow].
  assert (Hsi' : 1 <= nsh_sph nt mod 256)
    by (unfold get_nsh_si in Hsi; rewrite Hlow in Hsi; exact Hsi).
  pose proof (Z.mod_pos_bound (nsh_sph nt) 256 ltac:(lia)) as Hmod.
  pose proof (Z.div_mod (nsh_sph nt) 256 ltac:(lia)) as Hdm.
  assert (Hwf' : well_formed
                   {| nsh_flags_length := nsh_flags_length nt;
                      nsh_md_type := nsh_md_type nt;
                      nsh_np := nsh_np nt;
                      nsh_sph := nsh_sph nt - 1;
                      nsh_ctx1 := nsh_ctx1 nt;
                      nsh_ctx2 := nsh_ctx2 nt;
                      nsh_ctx3 := nsh_ctx3 nt;
                      nsh_ctx4 := nsh_ctx4 nt |}).
  { cbn in Hwf |- *. repeat split; try tauto; lia. }
  destruct (new_pack _ Hwf') as (out & Epack & Eout).
  assert (Erun : make_nsh_decr_si nsh_header = Ok out)
    by (rewrite (make_nsh_decr_si_pack _ _ Enew); exact Epack).
  assert (Hsph' : 0 <= nsh_sph nt - 1 < 4294967296) by lia.
  destruct (sph_split _ Hsph') as [Hspi' Hlow'].
  eexists out, _. split; [exact Erun|].
  split; [exact (pack_length _ out Epack)|].
  split.
  { pose proof (make_nsh_decr_si_bytes _ _ Enew Hsi) as Eb.
    rewrite Erun in Eb. injection Eb as ->. reflexivity. }
  split; [exact Eout|].
  unfold get_nsh_si, get_nsh_spi.
  cbn [nsh_sph nsh_flags_length nsh_md_type nsh_np nsh_ctx1 nsh_ctx2
       nsh_ctx3 nsh_ctx4].
  rewrite Hspi', Hlow', Hspi, Hlow.
  repeat split.
  - replace (nsh_sph nt - 1)
      with (nsh_sph nt mod 256 - 1 + nsh_sph nt / 256 * 256) by lia.
    rewrite Z.mod_add by lia. apply Z.mod_small. lia.
  - replace (nsh_sph nt - 1)
      with (nsh_sph nt mod 256 - 1 + nsh_sph nt / 256 * 256) by lia.
    rewrite Z.div_add by lia. rewrite Z.div_small; lia.
Qed.

Lemma make_nsh_decr_si_decrements_witness :
  exists out,
    make_nsh_decr_si (sample_nsh x64 x05) = Ok out
    /\ out = sample_nsh x64 x04.
Proof.
  destruct (make_nsh_decr_si_decrements (sample_nsh x64 x05)
              {| nsh_flags_length := 6; nsh_md_type := 1; nsh_np := 3;
                 nsh_sph := 25605; nsh_ctx1 := 0; nsh_ctx2 := 0;
                 nsh_ctx3 := 0; nsh_ctx4 := 0 |} eq_refl
              ltac:(vm_compute; discriminate))
    as (out & nt' & E & _ & Eb & _).
  exists out. split; [exact E | exact Eb].
Defined.

(** ** Internet checksum arithmetic *)

Lemma land_low_shiftl (a b : Z) :
  0 <= a < 256 -> Z.land a (Z.shiftl b 8) = 0.
Proof.
  intros Ha. apply Z.bits_inj'. intros n Hn.
  rewrite Z.land_spec, Z.bits_0.
  destruct (Z.lt_ge_cases n 8) as [Hlt|Hge].
  - rewrite Z.shiftl_spec_low by lia. apply andb_false_r.
  - assert (Hp : 2 ^ 8 <= 2 ^ n) by (apply Z.pow_le_mono_r; lia).
    change (2 ^ 8) with 256 in Hp.
    assert (Z.testbit a n = false) as ->; [|reflexivity].
    apply Z.testbit_false; [lia|].
    rewrite Z.div_small by lia. reflexivity.
Qed.

Lemma land_ffff (x : Z) : Z.land x 0xffff = x mod 65536.
Proof. exact (Z.land_ones x 16 ltac:(lia)). Qed.

Lemma land_ff (x : Z) : Z.land x 0xff = x mod 256.
Proof. exact (Z.land_ones x 8 ltac:(lia)). Qed.

(** The last line of [calculate_checksum] exchanges the two bytes of the
    low 16 bits of its argument, of either sign. *)
Lemma swap_bytes_tail (s : Z) :
  Z.land (Z.lor (Z.land (Z.shiftr s 8) 0xff) (Z.shiftl s 8)) 0xffff
  = (s mod 65536) mod 256 * 256 + (s mod 65536) / 256.
Proof.
  rewrite land_ffff, land_ff, Z.shiftr_div_pow2 by lia.
  change (2 ^ 8) with 256.
  pose proof (Z.mod_pos_bound (s / 256) 256 ltac:(lia)) as Hb.
  rewrite <- Z.lxor_lor, <- Z.add_nocarry_lxor
    by (apply land_low_shiftl; exact Hb).
  rewrite Z.shiftl_mul_pow2 by lia.
  change (2 ^ 8) with 256.
  Z.div_mod_to_equations. lia.
Qed.

(** What the fold, complement and byte exchange of [calculate_checksum]
    compute from the sum [s] of the words: with [f] the end-around-carry
    fold of [s] (congruent to [s] modulo [65535], and [0] only for
    [s = 0]), the result is [65535 - f] with its bytes exchanged. *)
Lemma checksum_tail (s : Z) :
  0 <= s < 4294967296 ->
  exists f k,
    0 <= f <= 65535 /\ 0 <= k /\ s = f + 65535 * k /\ (f = 0 <-> s = 0)
    /\ (let s1 := Z.shiftr s 16 + Z.land s 0xffff in
        let s2 := s1 + Z.shiftr s1 16 in
        let s3 := Z.lnot s2 in
        Z.land (Z.lor (Z.land (Z.shiftr s3 8) 0xff) (Z.shiftl s3 8)) 0xffff)
       = (65535 - f) mod 256 * 256 + (65535 - f) / 256.
Proof.
  intros Hs. cbv zeta. rewrite swap_bytes_tail.
  rewrite land_ffff, !Z.shiftr_div_pow2 by lia.
  change (2 ^ 16) with 65536.
  set (s1 := s / 65536 + s mod 65536).
  assert (H1 : 0 <= s1 <= 131070)
    by (subst s1; Z.div_mod_to_equations; lia).
  assert (E1 : exists q, 0 <= q /\ s = s1 + 65535 * q /\ (s1 = 0 <-> s = 0)).
  { exists (s / 65536). subst s1. Z.div_mod_to_equations. lia. }
  destruct E1 as (q & Hq & Es & Hz).
  rewrite Z.lnot_eq_pred_opp.
  destruct (Z.lt_ge_cases s1 65536) as [Hlt|Hge].
  - exists s1, q. rewrite (Z.div_small s1) by lia.
    replace ((- (s1 + 0) - 1) mod 65536) with (65535 - s1)
      by (Z.div_mod_to_equations; lia).
    repeat split; first [lia | reflexivity | tauto].
  - exists (s1 - 65535), (q + 1).
    replace (s1 / 65536) with 1 by (Z.div_mod_to_equations; lia).
    replace ((- (s1 + 1) - 1) mod 65536) with (65535 - (s1 - 65535))
      by (Z.div_mod_to_equations; lia).
    repeat split; first [lia | reflexivity].
Qed.

Lemma fold16_multiple (t m : Z) :
  0 < t < 4294967296 -> t = 65535 * m -> fold16 (fold16 t) = 65535.
Proof.
  intros Ht Hm. unfold fold16.
  rewrite !land_ffff, !Z.shiftr_div_pow2 by lia.
  change (2 ^ 16) with 65536.
  set (t1 := t / 65536 + t mod 65536).
  assert (H1 : t1 = 65535 \/ t1 = 131070).
  { assert (exists m', t1 = 65535 * m' /\ 0 < t1 <= 131070) as (m' & E & B).
    { exists (m - t / 65536). subst t1. Z.div_mod_to_equations. lia. }
    lia. }
  destruct H1 as [-> | ->]; reflexivity.
Qed.

Lemma calculate_checksum_range (host : byteorder) (pkt : bytes) :
  0 <= calculate_checksum host pkt < 65536.
Proof.
  unfold calculate_checksum, bytes_eq_str. cbv zeta.
  rewrite land_ffff. apply Z.mod_pos_bound. lia.
Qed.

Lemma sum_cons (x : Z) (l : list Z) : sum (x :: l) = x + sum l.
Proof.
  unfold sum. cbn [fold_left].
  assert (G : forall l a, fold_left Z.add l a = a + fold_left Z.add l 0).
  { clear. induction l as [|y l IH]; intros a; cbn [fold_left].
    - lia.
    - rewrite (IH (a + y)), (IH (0 + y)). lia. }
  rewrite (G l (0 + x)). lia.
Qed.

Lemma sum_nil : sum [] = 0.
Proof. reflexivity. Qed.

Lemma word16_swap (a b : byte) :
  word16 big a b = 256 * word16 little a b - 65535 * byte_to_Z b.
Proof. unfold word16. lia. Qed.

Lemma word16_range (host : byteorder) (a b : byte) :
  0 <= word16 host a b <= 65535.
Proof.
  pose proof (byte_to_Z_range a). pose proof (byte_to_Z_range b).
  destruct host; unfold word16; lia.
Qed.

Lemma word16_big_bytes (v : Z) :
  0 <= v < 65536 -> word16 big (byte_of_Z (v / 256)) (byte_of_Z v) = v.
Proof.
  intros Hv. unfold word16. rewrite !byte_to_of_Z.
  Z.div_mod_to_equations. lia.
Qed.

#[local] Arguments sum : simpl never.
#[local] Arguments word16 : simpl never.

Ltac same_sum :=
  match goal with
  | |- ?L = ?R =>
      match L with
      | context [sum ?A] =>
          match R with
          | context [sum ?B] =>
              replace (sum A) with (sum B)
                by (rewrite !sum_cons, !sum_nil; lia)
          end
      end
  end; reflexivity.

(** C8.  Exchanging [ip_src] and [ip_dst] in a 20-byte IPv4 header leaves
    the checksum field as it is and does not change what
    [calculate_ip_checksum] computes, on a host of either byte order; the
    one's-complement sum a receiver verifies is the same before and after,
    so a header that verifies still verifies. *)
Theorem ip_swap_preserves_checksum (host : byteorder) (header : bytes) :
  length header = 20%nat ->
  exists swapped,
    make_ip_header_swap header = Ok swapped
    /\ slice 10 12 swapped = slice 10 12 header
    /\ calculate_ip_checksum host swapped = calculate_ip_checksum host header
    /\ ones_complement_sum swapped = ones_complement_sum header
    /\ (ones_complement_sum header = 0xFFFF ->
        ones_complement_sum swapped = 0xFFFF).
Proof.
  intros H. rewrite make_ip_header_swap_bytes by exact H.
  eexists. split; [reflexivity|].
  explode header H.
  assert (Hsum : ones_complement_sum
                   (firstn 12 [b; b0; b1; b2; b3; b4; b5; b6; b7; b8; b9; b10;
                               b11; b12; b13; b14; b15; b16; b17; b18]
                    ++ slice 16 20 [b; b0; b1; b2; b3; b4; b5; b6; b7; b8; b9;
                                    b10; b11; b12; b13; b14; b15; b16; b17; b18]
                    ++ slice 12 16 [b; b0; b1; b2; b3; b4; b5; b6; b7; b8; b9;
                                    b10; b11; b12; b13; b14; b15; b16; b17; b18])
                 = ones_complement_sum
                     [b; b0; b1; b2; b3; b4; b5; b6; b7; b8; b9; b10; b11; b12;
                      b13; b14; b15; b16; b17; b18]).
  { unfold ones_complement_sum. cbn -[fold16]. same_sum. }
  split; [reflexivity|]. split; [|split; [exact Hsum | congruence]].
  unfold calculate_ip_checksum, calculate_checksum, bytes_eq_str.
  cbn -[Z.shiftr Z.shiftl Z.land Z.lor Z.lnot Z.add]. same_sum.
Qed.

Lemma ip_swap_preserves_checksum_witness :
  exists swapped,
    make_ip_header_swap sample_outer_ip = Ok swapped
    /\ slice 10 12 swapped = slice 10 12 sample_outer_ip
    /\ calculate_ip_checksum little swapped
       = calculate_ip_checksum little sample_outer_ip
    /\ ones_complement_sum swapped = ones_complement_sum sample_outer_ip
    /\ (ones_complement_sum sample_outer_ip = 0xFFFF ->
        ones_complement_sum swapped = 0xFFFF).
Proof.
  apply (ip_swap_preserves_checksum little sample_outer_ip). reflexivity.
Defined.

Lemma calculate_checksum_even (host : byteorder) (pkt : bytes) :
  (length pkt mod 2 =? 1)%nat = false ->
  0 <= sum (array_H host pkt) < 4294967296 ->
  exists f k,
    0 <= f <= 65535 /\ 0 <= k
    /\ sum (array_H host pkt) = f + 65535 * k
    /\ (f = 0 <-> sum (array_H host pkt) = 0)
    /\ calculate_checksum host pkt
       = (65535 - f) mod 256 * 256 + (65535 - f) / 256.
Proof.
  intros Heven Hs. unfold calculate_checksum, bytes_eq_str.
  rewrite Heven. exact (checksum_tail _ Hs).
Qed.

(** The arithmetic behind the round trip: [b0] and [l] are the sums of
    the words of the header with a zero checksum field, read in network
    order and in little-endian order. *)
Lemma checksum_verifies_arith (b0 l hi c f k : Z) :
  b0 = 256 * l - 65535 * hi ->
  0 <= b0 <= 9 * 65535 ->
  (b0 = 0 -> l = 0) ->
  0 <= f <= 65535 -> 0 <= k -> l = f + 65535 * k -> (f = 0 <-> l = 0) ->
  c = (65535 - f) mod 256 * 256 + (65535 - f) / 256 ->
  fold16 (fold16 (b0 + c)) = 65535.
Proof.
  intros Hb Rb Hz Rf Rk El Hf0 Ec.
  set (y := 65535 - f) in *.
  assert (Ry : 0 <= y <= 65535) by lia.
  assert (Ey : y = 256 * (y / 256) + y mod 256)
    by (Z.div_mod_to_equations; lia).
  assert (Rlo : 0 <= y mod 256 < 256) by (apply Z.mod_pos_bound; lia).
  assert (Rhi : 0 <= y / 256 < 256) by (Z.div_mod_to_equations; lia).
  apply (fold16_multiple _ (256 + 256 * k - hi - y / 256)); [|lia].
  split; [|lia].
  destruct (Z.eq_dec b0 0) as [E0|N0]; [|lia].
  assert (f = 0) by (apply Hf0, Hz, E0).
  assert (y = 65535) by lia.
  assert (y mod 256 = 255 /\ y / 256 = 255) as [E1 E2]
    by (Z.div_mod_to_equations; lia).
  lia.
Qed.

Lemma pack_ip_bytes (v0 v1 v2 v3 v4 v5 v6 : Z) (s d : bytes) :
  0 <= v0 < 65536 -> 0 <= v1 < 65536 -> 0 <= v2 < 65536 ->
  0 <= v3 < 65536 -> 0 <= v4 < 256 -> 0 <= v5 < 256 -> 0 <= v6 < 65536 ->
  length s = 4%nat -> length d = 4%nat ->
  pack {| ip_ver_ihl_type := v0; ip_total_length := v1; ip_id := v2;
          ip_flags_frag_offset := v3; ip_time2live := v4;
          ip_protocol := v5; ip_hdr_checksum := v6;
          ip_src := s; ip_dst := d |}
  = Ok ([byte_of_Z (v0 / 256); byte_of_Z v0;
         byte_of_Z (v1 / 256); byte_of_Z v1;
         byte_of_Z (v2 / 256); byte_of_Z v2;
         byte_of_Z (v3 / 256); byte_of_Z v3;
         byte_of_Z v4; byte_of_Z v5;
         byte_of_Z (v6 / 256); byte_of_Z v6] ++ s ++ d).
Proof.
  intros H0 H1 H2 H3 H4 H5 H6 Hs Hd. unfold pack.
  cbn [struct_fmt StructIpHeader_struct to_fields struct_pack pack_code
       fst snd ip_ver_ihl_type ip_total_length ip_id ip_flags_frag_offset
       ip_time2live ip_protocol ip_hdr_checksum ip_src ip_dst].
  rewrite !pack_uint_ok by (cbn; lia).
  rewrite !pack_s_exact by assumption.
  cbn [mbind result_bind]. rewrite app_nil_r. reflexivity.
Qed.

Lemma word16_little_le (a b : byte) :
  word16 little a b <= 256 * word16 big a b.
Proof.
  pose proof (byte_to_Z_range a). pose proof (byte_to_Z_range b).
  unfold word16. lia.
Qed.

Ltac abstract_word a b B L h :=
  pose proof (word16_swap a b);
  pose proof (word16_range big a b);
  pose proof (word16_little_le a b);
  pose proof (byte_to_Z_range b);
  set (B := word16 big a b) in *;
  set (L := word16 little a b) in *;
  set (h := byte_to_Z b) in *;
  clearbody B L h.

(** A 20-byte header whose bytes 10 and 11 hold what [calculate_checksum]
    returns, on a little-endian host, for the same header with these two
    bytes zero, has one's-complement sum [0xFFFF]. *)
Lemma ip_header_sum_verifies
    (a0 a1 a2 a3 a4 a5 a6 a7 a8 a9 a12 a13 a14 a15 a16 a17 a18 a19 : byte)
    (c : Z) :
  c = calculate_checksum little
        [a0; a1; a2; a3; a4; a5; a6; a7; a8; a9; x00; x00;
         a12; a13; a14; a15; a16; a17; a18; a19] ->
  ones_complement_sum
    [a0; a1; a2; a3; a4; a5; a6; a7; a8; a9;
     byte_of_Z (c / 256); byte_of_Z c;
     a12; a13; a14; a15; a16; a17; a18; a19] = 0xFFFF.
Proof.
  intros Ec0.
  assert (Hc : 0 <= c < 65536)
    by (rewrite Ec0; apply calculate_checksum_range).
  destruct (calculate_checksum_even little
              [a0; a1; a2; a3; a4; a5; a6; a7; a8; a9; x00; x00;
               a12; a13; a14; a15; a16; a17; a18; a19] eq_refl)
    as (f & k & Rf & Rk & El & Hf0 & Ec).
  { cbn. rewrite !sum_cons, sum_nil.
    pose proof (word16_range little a0 a1).
    pose proof (word16_range little a2 a3).
    pose proof (word16_range little a4 a5).
    pose proof (word16_range little a6 a7).
    pose proof (word16_range little a8 a9).
    pose proof (word16_range little x00 x00).
    pose proof (word16_range little a12 a13).
    pose proof (word16_range little a14 a15).
    pose proof (word16_range little a16 a17).
    pose proof (word16_range little a18 a19).
    lia. }
  rewrite <- Ec0 in Ec. clear Ec0.
  unfold ones_complement_sum. cbn -[fold16].
  rewrite (word16_big_bytes c Hc).
  cbn in El, Hf0.
  rewrite !sum_cons, sum_nil in El, Hf0 |- *.
  change (word16 little x00 x00) with 0 in El, Hf0.
  abstract_word a0 a1 B0 L0 h0.
  abstract_word a2 a3 B1 L1 h1.
  abstract_word a4 a5 B2 L2 h2.
  abstract_word a6 a7 B3 L3 h3.
  abstract_word a8 a9 B4 L4 h4.
  abstract_word a12 a13 B6 L6 h6.
  abstract_word a14 a15 B7 L7 h7.
  abstract_word a16 a17 B8 L8 h8.
  abstract_word a18 a19 B9 L9 h9.
  clear a0 a1 a2 a3 a4 a5 a6 a7 a8 a9 a12 a13 a14 a15 a16 a17 a18 a19.
  apply (checksum_verifies_arith
           (B0 + B1 + B2 + B3 + B4 + B6 + B7 + B8 + B9)
           (L0 + L1 + L2 + L3 + L4 + L6 + L7 + L8 + L9)
           (h0 + h1 + h2 + h3 + h4 + h6 + h7 + h8 + h9)
           c f k) in Ec; try lia.
  rewrite <- Ec. f_equal. f_equal. lia.
Qed.

Lemma calculate_ip_checksum_20
    (a0 a1 a2 a3 a4 a5 a6 a7 a8 a9 a10 a11 a12 a13 a14 a15 a16 a17 a18 a19
     : byte) (host : byteorder) :
  calculate_ip_checksum host
    [a0; a1; a2; a3; a4; a5; a6; a7; a8; a9; a10; a11;
     a12; a13; a14; a15; a16; a17; a18; a19]
  = calculate_checksum host
      [a0; a1; a2; a3; a4; a5; a6; a7; a8; a9; x00; x00;
       a12; a13; a14; a15; a16; a17; a18; a19].
Proof. reflexivity. Qed.

Lemma ip_header_sum_verifies_app
    (a0 a1 a2 a3 a4 a5 a6 a7 a8 a9 a10 a11 : byte) (s d : bytes) (c : Z) :
  length s = 4%nat -> length d = 4%nat ->
  c = calculate_ip_checksum little
        ([a0; a1; a2; a3; a4; a5; a6; a7; a8; a9; a10; a11] ++ s ++ d) ->
  ones_complement_sum
    ([a0; a1; a2; a3; a4; a5; a6; a7; a8; a9;
      byte_of_Z (c / 256); byte_of_Z c] ++ s ++ d) = 0xFFFF.
Proof.
  intros Hs Hd. explode s Hs. explode d Hd. cbn [app].
  rewrite calculate_ip_checksum_20. apply ip_header_sum_verifies.
Qed.

(** The header rewrite on a host whose native 16-bit words are
    little-endian: [make_ip_header] applied to a 20-byte IPv4 header and
    a 16-bit length
    returns a header whose [ip_total_length] is that length, whose fields
    other than the total length and the checksum are those of the input,
    and whose one's-complement sum, checksum included, is [0xFFFF]. *)
Theorem make_ip_header_checksum_verifies
    (header : bytes) (nt : StructIpHeader) (n : Z) :
  new StructIpHeader header = Ok nt ->
  0 <= n < 65536 ->
  exists out nt',
    make_ip_header little header n = Ok out
    /\ length out = 20%nat
    /\ new StructIpHeader out = Ok nt'
    /\ ip_total_length nt' = n
    /\ ip_ver_ihl_type nt' = ip_ver_ihl_type nt
    /\ ip_id nt' = ip_id nt
    /\ ip_flags_frag_offset nt' = ip_flags_frag_offset nt
    /\ ip_time2live nt' = ip_time2live nt
    /\ ip_protocol nt' = ip_protocol nt
    /\ ip_src nt' = ip_src nt
    /\ ip_dst nt' = ip_dst nt
    /\ ones_complement_sum out = 0xFFFF.
Proof.
  intros Enew Hn.
  pose proof (new_well_formed _ _ Enew) as Hwf.
  destruct nt as [v0 v1 v2 v3 v4 v5 v6 s d].
  cbn in Hwf. destruct Hwf as (H0 & H1 & H2 & H3 & H4 & H5 & H6 & Hs & Hd & _).
  cbn [ip_ver_ihl_type ip_total_length ip_id ip_flags_frag_offset
       ip_time2live ip_protocol ip_hdr_checksum ip_src ip_dst].
  unfold make_ip_header. rewrite Enew. cbn [mbind result_bind].
  cbn [ip_ver_ihl_type ip_total_length ip_id ip_flags_frag_offset
       ip_time2live ip_protocol ip_hdr_checksum ip_src ip_dst].
  rewrite (pack_ip_bytes v0 n v2 v3 v4 v5 v6 s d) by assumption.
  cbn [mbind result_bind].
  match goal with
  | |- context [calculate_ip_checksum little ?p] =>
      remember (calculate_ip_checksum little p) as c eqn:Ec
  end.
  assert (Hc : 0 <= c < 65536)
    by (rewrite Ec; apply calculate_checksum_range).
  assert (Hwf2 : well_formed
                   {| ip_ver_ihl_type := v0; ip_total_length := n;
                      ip_id := v2; ip_flags_frag_offset := v3;
                      ip_time2live := v4; ip_protocol := v5;
                      ip_hdr_checksum := c; ip_src := s; ip_dst := d |})
    by (cbn; tauto).
  destruct (new_pack _ Hwf2) as (out & Eout & Enew2).
  rewrite Eout. eexists. eexists.
  split; [reflexivity|].
  split; [exact (pack_length _ out Eout)|].
  split; [exact Enew2|].
  do 8 (split; [reflexivity|]).
  rewrite (pack_ip_bytes v0 n v2 v3 v4 v5 c s d) in Eout by assumption.
  injection Eout as <-.
  exact (ip_header_sum_verifies_app _ _ _ _ _ _ _ _ _ _ _ _ s d c Hs Hd Ec).
Qed.

Lemma make_ip_header_checksum_verifies_witness :
  exists out nt',
    make_ip_header little sample_outer_ip 40 = Ok out
    /\ new StructIpHeader out = Ok nt'
    /\ ip_total_length nt' = 40
    /\ ones_complement_sum out = 0xFFFF.
Proof.
  destruct (make_ip_header_checksum_verifies sample_outer_ip
              {| ip_ver_ihl_type := 0x4500; ip_total_length := 0x8a;
                 ip_id := 1; ip_flags_frag_offset := 0; ip_time2live := 64;
                 ip_protocol := 17; ip_hdr_checksum := 0xf70e;
                 ip_src := [xc0; xa8; x01; x01];
                 ip_dst := [xc0; xa8; x01; x02] |} 40 eq_refl
              ltac:(lia))
    as (out & nt' & E & _ & En & Et & _ & _ & _ & _ & _ & _ & _ & Es).
  exists out, nt'. auto.
Defined.

(** C7.  The checksum of the rewritten header does not verify on a host
    whose native 16-bit words are big-endian.  The branch of
    [calculate_checksum] commented [# big endian] compares
    [struct.pack("H", 1)], a [bytes], with a [str] and is never taken, so
    the byte swap meant for little-endian hosts is applied to a value
    that is already in network order.  For the sample header and a total
    length of 40 the checksum field is written as 70 f7, where f7 70
    verifies, and the one's-complement sum of the header folds to 31110
    instead of 0xFFFF. *)
Remark make_ip_header_big_endian_host :
  (exists out,
     make_ip_header big sample_outer_ip 40 = Ok out
     /\ slice 10 12 out = [x70; xf7]
     /\ ones_complement_sum out = 31110)
  /\ (exists out,
        make_ip_header little sample_outer_ip 40 = Ok out
        /\ slice 10 12 out = [xf7; x70]
        /\ ones_complement_sum out = 0xFFFF).
Proof.
  split; eexists; (split; [vm_compute; reflexivity|]);
    split; vm_compute; reflexivity.
Qed.

(** ** The write-until-drained loop *)

Lemma drain_ok (results : list nat) (new_pkt : bytes) :
  Forall (fun r => (1 <= r)%nat) results ->
  (length new_pkt <= length results)%nat ->
  exists chunks unused,
    drain results new_pkt = (chunks, unused, [])
    /\ concat chunks = new_pkt
    /\ Forall (fun c => c <> []) chunks
    /\ (length chunks <= length new_pkt)%nat
    /\ results = firstn (length chunks) results ++ unused.
Proof.
  revert new_pkt. induction results as [|sent results IH];
    intros new_pkt Hpos Hlen.
  - destruct new_pkt; [|cbn in Hlen; lia].
    exists [], []. cbn. auto.
  - destruct new_pkt as [|b new_pkt].
    + exists [], (sent :: results). cbn. auto.
    + apply Forall_cons in Hpos as [Hsent Hpos].
      destruct (IH (skipn sent (b :: new_pkt)) Hpos)
        as (chunks & unused & E & Hcat & Hne & Hn & Hr).
      { rewrite length_drop. cbn [length] in *. lia. }
      exists (firstn sent (b :: new_pkt) :: chunks), unused.
      cbn [drain]. rewrite E. split; [reflexivity|].
      split; [cbn [concat]; rewrite Hcat; apply take_drop|].
      split.
      { constructor; [|exact Hne]. destruct sent; [lia|]. discriminate. }
      split.
      { rewrite length_drop in Hn. cbn [length] in *. lia. }
      cbn [length firstn app]. f_equal. exact Hr.
Qed.

Lemma send_all_ok (sckt : Socket) (new_pkt : bytes) (w : World) :
  Forall (fun r => (1 <= r)%nat) (send_results w) ->
  (length new_pkt <= length (send_results w))%nat ->
  exists chunks unused,
    send_all sckt new_pkt w
    = Returned {| sessions := sessions w;
                  sessions_reply_info := sessions_reply_info w;
                  wire := wire w ++ map (fun c => (sckt, c)) chunks;
                  send_results := unused |}
    /\ concat chunks = new_pkt
    /\ Forall (fun c => c <> []) chunks
    /\ (length chunks <= length new_pkt)%nat
    /\ send_results w = firstn (length chunks) (send_results w) ++ unused.
Proof.
  intros Hpos Hlen.
  destruct (drain_ok _ _ Hpos Hlen) as (chunks & unused & E & H).
  exists chunks, unused. unfold send_all. rewrite E. split; [reflexivity|].
  exact H.
Qed.

(** C10.  For a non-empty packet and send results that are each at least
    one byte, as many of them supplied as the packet has bytes, the send
    loop returns: every call took a non-empty chunk, the chunks put on the
    socket, in order, concatenate to the packet, at most one call per byte
    was made, and the session tables are untouched.  (A result larger than
    what remains cannot come from [send]; the slices clip it.) *)
Theorem write_until_drained (sckt : Socket) (new_pkt : bytes) (w : World) :
  new_pkt <> [] ->
  Forall (fun r => (1 <= r)%nat) (send_results w) ->
  (length new_pkt <= length (send_results w))%nat ->
  exists chunks w',
    send_all sckt new_pkt w = Returned w'
    /\ wire w' = wire w ++ map (fun c => (sckt, c)) chunks
    /\ concat chunks = new_pkt
    /\ Forall (fun c => c <> []) chunks
    /\ (1 <= length chunks <= length new_pkt)%nat
    /\ send_results w
       = firstn (length chunks) (send_results w) ++ send_results w'
    /\ sessions w' = sessions w
    /\ sessions_reply_info w' = sessions_reply_info w.
Proof.
  intros Hne Hpos Hlen.
  destruct (send_all_ok sckt new_pkt w Hpos Hlen)
    as (chunks & unused & E & Hcat & Hch & Hn & Hr).
  eexists chunks, _. split; [exact E|]. cbn.
  repeat split; try assumption.
  destruct chunks; [cbn in Hcat; congruence | cbn; lia].
Qed.

Lemma write_until_drained_witness :
  exists chunks w',
    send_all sckt_encap [x01; x02; x03; x04; x05]
      (empty_world [2; 1; 7; 1; 1; 1]%nat) = Returned w'
    /\ wire w' = map (fun c => (sckt_encap, c)) chunks
    /\ concat chunks = [x01; x02; x03; x04; x05].
Proof.
  destruct (write_until_drained sckt_encap [x01; x02; x03; x04; x05]
              (empty_world [2; 1; 7; 1; 1; 1]%nat))
    as (chunks & w' & E & Hw & Hc & _).
  - discriminate.
  - cbn. repeat constructor.
  - cbn. lia.
  - exists chunks, w'. auto.
Defined.

(** ** Inversion of the parsing stages *)

Lemma bind_Ok {A B : Type} (m : result A) (f : A -> result B) (b : B) :
  m ≫= f = Ok b -> exists a, m = Ok a /\ f a = Ok b.
Proof. destruct m as [a|e]; [|discriminate]. intros H. exists a. auto. Qed.

Lemma parse_ip_app (packet header payload : bytes) :
  parse_ip packet = Ok (header, payload) -> header ++ payload = packet.
Proof.
  unfold parse_ip. destruct packet as [|b0 packet]; [discriminate|].
  intros [= <- <-]. apply take_drop.
Qed.

Ltac bind_step H x E :=
  apply bind_Ok in H as (x & E & H); cbv beta iota in H.

Lemma decap_headers_Some (frame : bytes) (d : Decapsulated) :
  decap_headers frame = Ok (Some d) ->
  outer_eth_header d ++ ip_header d ++ udp_header d ++ vxlan_header d
    ++ eth_nsh_header d ++ nsh_header d ++ nsh_payload d = frame
  /\ bundle_wf (decap_bundle d)
  /\ (exists eth ip udp,
        new StructEthHeader (outer_eth_header d) = Ok eth
        /\ eth_type eth = 0x0800
        /\ new StructIpHeader (ip_header d) = Ok ip
        /\ ip_protocol ip = 17
        /\ new StructUdpHeader (udp_header d) = Ok udp
        /\ udp_dst_port udp = 4790)
  /\ new StructEthHeader (firstn 14 (nsh_payload d))
     = Ok (inner_eth_header_nt d)
  /\ (14 <= length (nsh_payload d))%nat.
Proof.
  unfold decap_headers, parse_ethernet, parse_udp, parse_vxlan_gpe,
    parse_nsh. cbv zeta. intros H.
  bind_step H oe E1.
  destruct (Z.eqb_spec (eth_type oe) 0x0800) as [T1|]; [|discriminate].
  bind_step H ipp E2. destruct ipp as [iph ipp]. cbv beta iota in H.
  bind_step H ip E3.
  destruct (Z.eqb_spec (ip_protocol ip) 17) as [T2|]; [|discriminate].
  bind_step H udp E4.
  destruct (Z.eqb_spec (udp_dst_port udp) 4790) as [T3|]; [|discriminate].
  bind_step H vx E5. bind_step H en E6. bind_step H nsh E7.
  bind_step H ie E8.
  bind_step H iipp E9. destruct iipp as [iiph iipp]. cbv beta iota in H.
  bind_step H iip E10.
  bind_step H tcpp E11. destruct tcpp as [[tcph tcpo] tcpl].
  cbv beta iota in H.
  bind_step H tcp E12.
  injection H as <-.
  cbn [outer_eth_header ip_header udp_header vxlan_header eth_nsh_header
       nsh_header nsh_payload inner_eth_header_nt decap_bundle bundle_wf].
  pose proof (new_length _ _ E1) as L1. pose proof (new_length _ _ E3) as L3.
  pose proof (new_length _ _ E4) as L4. pose proof (new_length _ _ E5) as L5.
  pose proof (new_length _ _ E6) as L6. pose proof (new_length _ _ E7) as L7.
  pose proof (new_length _ _ E8) as L8.
  cbn in L1, L3, L4, L5, L6, L7, L8.
  apply parse_ip_app in E2.
  split.
  { rewrite !take_drop. rewrite E2. apply take_drop. }
  split; [tauto|].
  split; [exists oe, ip, udp; tauto|].
  split; [exact E8|].
  rewrite length_take in L8. lia.
Qed.

Lemma swapped_key_is_swap (eth : StructEthHeader) (ip : StructIpHeader)
    (tcp : StructTcpHeaderWithoutOptions) :
  flow_swapped_key eth ip tcp = swap_key (flow_key eth ip tcp).
Proof. reflexivity. Qed.

Lemma swap_key_involutive (k : Key) : swap_key (swap_key k) = k.
Proof. destruct k as [[[[[[? ?] ?] ?] ?] ?] ?]. reflexivity. Qed.

(** ** The decap pipeline *)

Lemma send_all_tables (sckt : Socket) (new_pkt : bytes) (w : World) :
  sessions (outcome_world (send_all sckt new_pkt w)) = sessions w
  /\ sessions_reply_info (outcome_world (send_all sckt new_pkt w))
     = sessions_reply_info w.
Proof.
  unfold send_all. destruct (drain (send_results w) new_pkt) as [[? ?] u].
  destruct u; cbn; auto.
Qed.

(** ** Where the headers lie in a frame *)

Lemma slice_take (i j n : nat) (b : bytes) :
  (j <= n)%nat -> slice i j (firstn n b) = slice i j b.
Proof.
  intros H. unfold slice. rewrite skipn_firstn_comm, take_take.
  f_equal. lia.
Qed.

Lemma slice_drop (i j n : nat) (b : bytes) :
  slice i j (skipn n b) = slice (n + i) (n + j) b.
Proof.
  unfold slice. rewrite drop_drop. f_equal. lia.
Qed.

Lemma eth_header_fields (h : bytes) (nt : StructEthHeader) :
  new StructEthHeader h = Ok nt ->
  eth_dst nt = slice 0 6 h /\ eth_src nt = slice 6 12 h
  /\ eth_type nt = be_decode (slice 12 14 h).
Proof.
  intros E. pose proof (new_length _ _ E) as L. cbn in L.
  revert E. explode h L. intros E.
  cbn in E. injection E as <-. cbn. repeat split; reflexivity.
Qed.

Lemma ip_header_fields (h : bytes) (nt : StructIpHeader) :
  new StructIpHeader h = Ok nt ->
  ip_protocol nt = be_decode (slice 9 10 h)
  /\ ip_src nt = slice 12 16 h /\ ip_dst nt = slice 16 20 h.
Proof.
  intros E. pose proof (new_length _ _ E) as L. cbn in L.
  revert E. explode h L. intros E.
  cbn in E. injection E as <-. cbn. repeat split; reflexivity.
Qed.

Lemma udp_header_fields (h : bytes) (nt : StructUdpHeader) :
  new StructUdpHeader h = Ok nt ->
  udp_dst_port nt = be_decode (slice 2 4 h).
Proof.
  intros E. pose proof (new_length _ _ E) as L. cbn in L.
  revert E. explode h L. intros E.
  cbn in E. injection E as <-. reflexivity.
Qed.

Lemma tcp_header_ports (h : bytes) (nt : StructTcpHeaderWithoutOptions) :
  new StructTcpHeaderWithoutOptions h = Ok nt ->
  tcp_src_port nt = be_decode (slice 0 2 h)
  /\ tcp_dst_port nt = be_decode (slice 2 4 h).
Proof.
  intros E. pose proof (new_length _ _ E) as L. cbn in L.
  revert E. explode h L. intros E.
  cbn in E. injection E as <-. cbn. split; reflexivity.
Qed.

(** The length of the header [parse_ip] cuts: four times the low nibble
    of the first byte, clipped to the packet. *)
Lemma parse_ip_Ok (packet header payload : bytes) :
  parse_ip packet = Ok (header, payload) ->
  let n := Z.to_nat (Z.land (byte_to_Z (nth 0 packet x00)) 0x0F * 4) in
  packet <> [] /\ header = firstn n packet /\ payload = skipn n packet.
Proof.
  unfold parse_ip. destruct packet as [|b0 packet]; [discriminate|].
  intros [= <- <-]. cbn [nth]. split; [discriminate|]. split; reflexivity.
Qed.

Lemma parse_ip_20 (packet header payload : bytes) :
  parse_ip packet = Ok (header, payload) ->
  length header = 20%nat -> payload <> [] ->
  header = firstn 20 packet /\ payload = skipn 20 packet
  /\ Z.land (byte_to_Z (nth 0 packet x00)) 0x0F = 5.
Proof.
  intros E L Hp. apply parse_ip_Ok in E as (_ & -> & ->). cbv zeta in *.
  set (n := Z.to_nat _) in *.
  assert (Hn : (n < length packet)%nat).
  { destruct (Nat.lt_ge_cases n (length packet)) as [H|H]; [exact H|].
    rewrite drop_ge in Hp by exact H. contradiction. }
  rewrite length_take in L.
  assert (n = 20%nat) as Hn20 by lia.
  rewrite Hn20. split; [reflexivity|]. split; [reflexivity|].
  subst n.
  pose proof (Z.land_nonneg (byte_to_Z (nth 0 packet x00)) 0x0F) as H0.
  assert (0 <= Z.land (byte_to_Z (nth 0 packet x00)) 15) by (apply H0; lia).
  lia.
Qed.

Lemma new_take_nonempty (T : Type) `{MetaStructLaws T} (n : nat)
    (packet : bytes) (nt : T) :
  new T (firstn n packet) = Ok nt ->
  (0 < calcsize struct_fmt)%nat ->
  (calcsize struct_fmt <= length packet)%nat /\ packet <> [].
Proof.
  intros E Hpos. pose proof (new_length _ _ E) as L.
  rewrite length_take in L. split; [lia|].
  intros ->. cbn in L. lia.
Qed.

(** The inner frame of a bare frame that parsed: its three headers lie at
    fixed offsets and the flow key is read from them. *)
Lemma inner_headers_at (inner : bytes) (eth : StructEthHeader)
    (iph ipp tcph tcpo tcpl : bytes) (ip : StructIpHeader)
    (tcp : StructTcpHeaderWithoutOptions) :
  new StructEthHeader (firstn 14 inner) = Ok eth ->
  parse_ip (skipn 14 inner) = Ok (iph, ipp) ->
  new StructIpHeader iph = Ok ip ->
  parse_tcp ipp = Ok (tcph, tcpo, tcpl) ->
  new StructTcpHeaderWithoutOptions tcph = Ok tcp ->
  (54 <= length inner)%nat
  /\ Z.land (byte_to_Z (nth 14 inner x00)) 0x0F = 5
  /\ ip_protocol ip = be_decode (slice 23 24 inner)
  /\ flow_key eth ip tcp
     = (slice 0 6 inner, slice 6 12 inner, be_decode (slice 12 14 inner),
        slice 30 34 inner, slice 26 30 inner,
        be_decode (slice 36 38 inner), be_decode (slice 34 36 inner)).
Proof.
  intros E1 E2 E3 E4 E5.
  unfold parse_tcp in E4. cbv zeta in E4.
  bind_step E4 nt E6. injection E4 as <- _ _.
  destruct (new_take_nonempty _ _ _ _ E6 ltac:(cbn; lia)) as [L6 Hne].
  cbn in L6.
  pose proof (new_length _ _ E3) as L3. cbn in L3.
  destruct (parse_ip_20 _ _ _ E2 L3 Hne) as (-> & -> & Hihl).
  rewrite length_drop, length_drop in L6.
  assert (nth 0 (skipn 14 inner) x00 = nth 14 inner x00) as Hnth.
  { rewrite <- (take_drop 14 inner) at 2.
    rewrite app_nth2 by (rewrite length_take; lia).
    rewrite length_take. f_equal. lia. }
  rewrite Hnth in Hihl.
  destruct (eth_header_fields _ _ E1) as (F1 & F2 & F3).
  destruct (ip_header_fields _ _ E3) as (F4 & F5 & F6).
  destruct (tcp_header_ports _ _ E5) as (F7 & F8).
  rewrite slice_take in F1, F2, F3 by lia.
  rewrite slice_take, slice_drop in F4, F5, F6 by lia.
  rewrite slice_take, !slice_drop in F7, F8 by lia.
  cbn [Nat.add] in F4, F5, F6, F7, F8.
  split; [lia|]. split; [exact Hihl|]. split; [exact F4|].
  unfold flow_key. rewrite F1, F2, F3, F5, F6, F7, F8. reflexivity.
Qed.

(** What a frame that parses through the whole stack looks like: the six
    slices of the bundle, the inner frame and the flow key are at fixed
    offsets; both IPv4 headers have no options. *)
Lemma decap_headers_frame (frame : bytes) (d : Decapsulated) :
  decap_headers frame = Ok (Some d) ->
  (142 <= length frame)%nat
  /\ decap_bundle d
     = (slice 0 14 frame, slice 14 34 frame, slice 34 42 frame,
        slice 42 50 frame, slice 50 64 frame, slice 64 88 frame)
  /\ nsh_payload d = skipn 88 frame
  /\ decap_key d
     = (slice 0 6 (skipn 88 frame), slice 6 12 (skipn 88 frame),
        be_decode (slice 12 14 (skipn 88 frame)),
        slice 30 34 (skipn 88 frame), slice 26 30 (skipn 88 frame),
        be_decode (slice 36 38 (skipn 88 frame)),
        be_decode (slice 34 36 (skipn 88 frame)))
  /\ be_decode (slice 12 14 frame) = 0x0800
  /\ Z.land (byte_to_Z (nth 14 frame x00)) 0x0F = 5
  /\ be_decode (slice 23 24 frame) = 17
  /\ be_decode (slice 36 38 frame) = 4790
  /\ Z.land (byte_to_Z (nth 102 frame x00)) 0x0F = 5.
Proof.
  unfold decap_headers, parse_ethernet, parse_udp, parse_vxlan_gpe,
    parse_nsh. cbv zeta. intros H.
  bind_step H oe E1.
  destruct (Z.eqb_spec (eth_type oe) 0x0800) as [T1|]; [|discriminate].
  bind_step H ipp E2. destruct ipp as [iph ipp]. cbv beta iota in H.
  bind_step H ip E3.
  destruct (Z.eqb_spec (ip_protocol ip) 17) as [T2|]; [|discriminate].
  bind_step H udp E4.
  destruct (Z.eqb_spec (udp_dst_port udp) 4790) as [T3|]; [|discriminate].
  bind_step H vx E5. bind_step H en E6. bind_step H nsh E7.
  bind_step H ie E8.
  bind_step H iipp E9. destruct iipp as [iiph iipp]. cbv beta iota in H.
  bind_step H iip E10.
  bind_step H tcpp E11. destruct tcpp as [[tcph tcpo] tcpl].
  cbv beta iota in H.
  bind_step H tcp E12.
  injection H as <-.
  unfold decap_key, decap_bundle.
  cbn [outer_eth_header ip_header udp_header vxlan_header eth_nsh_header
       nsh_header nsh_payload inner_eth_header_nt inner_ip_header_nt
       inner_tcp_header_nt].
  destruct (new_take_nonempty _ _ _ _ E4 ltac:(cbn; lia)) as [_ Hne].
  pose proof (new_length _ _ E3) as L3. cbn in L3.
  destruct (parse_ip_20 _ _ _ E2 L3 Hne) as (-> & -> & Hihl).
  assert (nth 0 (skipn 14 frame) x00 = nth 14 frame x00) as Hnth.
  { pose proof (new_length _ _ E1) as L1. cbn in L1.
    rewrite length_take in L1.
    rewrite <- (take_drop 14 frame) at 2.
    rewrite app_nth2 by (rewrite length_take; lia).
    rewrite length_take. f_equal. lia. }
  rewrite Hnth in Hihl.
  destruct (eth_header_fields _ _ E1) as (_ & _ & F1).
  destruct (ip_header_fields _ _ E3) as (F2 & _ & _).
  pose proof (udp_header_fields _ _ E4) as F3.
  rewrite slice_take in F1 by lia.
  rewrite slice_take, slice_drop in F2 by lia.
  rewrite slice_take, !slice_drop in F3 by lia.
  cbn [Nat.add] in F2, F3.
  destruct (inner_headers_at _ _ _ _ _ _ _ _ _ E8 E9 E10 E11 E12)
    as (Li & Hihl' & _ & Hk).
  rewrite !drop_drop in *. cbn [Nat.add] in *.
  rewrite length_drop in Li.
  assert (nth 14 (skipn 88 frame) x00 = nth 102 frame x00) as Hnth'.
  { rewrite <- (take_drop 88 frame) at 2.
    rewrite app_nth2 by (rewrite length_take; lia).
    rewrite length_take. f_equal. lia. }
  rewrite Hnth' in Hihl'.
  split; [lia|]. split; [reflexivity|]. split; [reflexivity|].
  split; [exact Hk|]. split; [congruence|]. split; [exact Hihl|].
  split; [congruence|]. split; [congruence|]. exact Hihl'.
Qed.

(** C1.  Let a frame read from the encap interface parse through the
    whole stack.  Then it has at least 142 bytes, its outer ethertype is
    0x0800, its outer protocol 17, its UDP destination port 4790 and
    neither IPv4 header has options.  Let [B] be its first 88 bytes cut
    at 14, 34, 42, 50 and 64 (outer Ethernet, outer IPv4, UDP, VXLAN-GPE,
    NSH-carrying Ethernet, NSH), let the inner frame be the bytes from 88
    on, and let [k] be (destination MAC, source MAC, ethertype,
    destination IP, source IP, destination port, source port) read from
    the inner frame.  If [swap k] is a key of [sessions], processing the
    frame sets [sessions_reply_info[swap k]] to [B], leaves [sessions]
    alone and sends the inner frame on unencap-in; otherwise it sets
    [sessions[k]] to [B], leaves [sessions_reply_info] alone and sends
    the inner frame on unencap-out.  The sends are assumed to take at
    least a byte each. *)
Theorem decap_records_and_forwards
    (frame : bytes) (d : Decapsulated) (w : World) :
  decap_headers frame = Ok (Some d) ->
  Forall (fun r => (1 <= r)%nat) (send_results w) ->
  (length frame <= 88 + length (send_results w))%nat ->
  let inner := skipn 88 frame in
  let k : Key :=
    (slice 0 6 inner, slice 6 12 inner, be_decode (slice 12 14 inner),
     slice 30 34 inner, slice 26 30 inner,
     be_decode (slice 36 38 inner), be_decode (slice 34 36 inner)) in
  let B : Bundle :=
    (slice 0 14 frame, slice 14 34 frame, slice 34 42 frame,
     slice 42 50 frame, slice 50 64 frame, slice 64 88 frame) in
  ((142 <= length frame)%nat
   /\ be_decode (slice 12 14 frame) = 0x0800
   /\ Z.land (byte_to_Z (nth 14 frame x00)) 0x0F = 5
   /\ be_decode (slice 23 24 frame) = 17
   /\ be_decode (slice 36 38 frame) = 4790
   /\ Z.land (byte_to_Z (nth 102 frame x00)) 0x0F = 5)
  /\ exists chunks w',
       parse_frame_and_deencapsulate frame sckt_unencap_out w = Returned w'
       /\ concat chunks = inner
       /\ (is_Some (sessions w !! swap_key k) ->
           sessions_reply_info w' !! swap_key k = Some B
           /\ sessions_reply_info w'
              = <[swap_key k := B]> (sessions_reply_info w)
           /\ sessions w' = sessions w
           /\ wire w'
              = wire w ++ map (fun c => (sckt_unencap_in, c)) chunks)
       /\ (sessions w !! swap_key k = None ->
           sessions w' !! k = Some B
           /\ sessions w' = <[k := B]> (sessions w)
           /\ sessions_reply_info w' = sessions_reply_info w
           /\ wire w'
              = wire w ++ map (fun c => (sckt_unencap_out, c)) chunks).
Proof.
  intros Hd Hpos Hlen inner k B.
  destruct (decap_headers_frame _ _ Hd)
    as (L & HB & Hin & Hk & T1 & I1 & T2 & T3 & I2).
  split; [tauto|].
  assert (Hlen' : (length inner <= length (send_results w))%nat)
    by (subst inner; rewrite length_drop; lia).
  unfold parse_frame_and_deencapsulate. rewrite Hd. cbv zeta.
  change (decap_swapped_key d) with (swap_key (decap_key d)).
  rewrite HB, Hk, Hin. fold inner. fold k. fold B.
  destruct (sessions w !! swap_key k) as [B0|] eqn:Ek.
  - rewrite bool_decide_eq_true_2 by eauto. cbn [negb].
    match goal with
    | |- context [send_all ?s ?p ?w0] =>
        destruct (send_all_ok s p w0 Hpos Hlen')
          as (chunks & unused & E & Hcat & _)
    end.
    rewrite E. eexists chunks, _. split; [reflexivity|].
    split; [exact Hcat|]. cbn. split.
    + intros _. rewrite lookup_insert_eq. auto.
    + intros [=].
  - rewrite bool_decide_eq_false_2 by (intros [? [=]]). cbn [negb].
    match goal with
    | |- context [send_all ?s ?p ?w0] =>
        destruct (send_all_ok s p w0 Hpos Hlen')
          as (chunks & unused & E & Hcat & _)
    end.
    rewrite E. eexists chunks, _. split; [reflexivity|].
    split; [exact Hcat|]. cbn. split.
    + intros [? [=]].
    + intros _. rewrite lookup_insert_eq. auto.
Qed.

Lemma decap_records_and_forwards_witness :
  exists chunks w',
    parse_frame_and_deencapsulate
      (sample_encapsulated x64 x05 sample_forward) sckt_unencap_out
      (empty_world (repeat 1%nat 54)) = Returned w'
    /\ concat chunks = sample_forward
    /\ sessions w'
       !! (sample_mac_b, sample_mac_a, 0x0800, sample_ip_b, sample_ip_a,
           80, 40000)
       = Some (sample_outer_eth, sample_outer_ip, sample_udp, sample_vxlan,
               sample_eth_nsh, sample_nsh x64 x05)
    /\ wire w' = map (fun c => (sckt_unencap_out, c)) chunks.
Proof.
  destruct (decap_records_and_forwards
              (sample_encapsulated x64 x05 sample_forward)
              (sample_decapsulated x64 x05) (empty_world (repeat 1%nat 54)))
    as (_ & chunks & w' & E & Hc & _ & Hfwd).
  - vm_compute. reflexivity.
  - cbn. repeat constructor.
  - cbn. lia.
  - destruct (Hfwd eq_refl) as (Hl & _ & _ & Hw).
    exists chunks, w'. repeat split; assumption.
Defined.

(** ** The encap pipelines *)

Lemma bare_headers_Some (frame : bytes) (eth : StructEthHeader)
    (ip : StructIpHeader) (tcp : StructTcpHeaderWithoutOptions) :
  bare_headers frame = Ok (Some (eth, ip, tcp)) ->
  new StructEthHeader (firstn 14 frame) = Ok eth
  /\ eth_type eth = 0x0800
  /\ ip_protocol ip = 6
  /\ (14 <= length frame)%nat.
Proof.
  unfold bare_headers, parse_ethernet. cbv zeta. intros H.
  bind_step H oe E1.
  destruct (Z.eqb_spec (eth_type oe) 0x0800) as [T1|]; [|discriminate].
  bind_step H ipp E2. destruct ipp as [iph ipp]. cbv beta iota in H.
  bind_step H ipnt E3.
  destruct (Z.eqb_spec (ip_protocol ipnt) 6) as [T2|]; [|discriminate].
  bind_step H tcpp E4. destruct tcpp as [[tcph tcpo] tcpl].
  cbv beta iota in H.
  bind_step H tcpnt E5.
  injection H as <- <- <-.
  pose proof (new_length _ _ E1) as L1. cbn in L1.
  split; [exact E1|]. split; [exact T1|]. split; [exact T2|].
  rewrite length_take in L1. lia.
Qed.

Lemma worker_returned (body : bytes -> World -> Outcome) (frame : bytes)
    (frames : list bytes) (w w' : World) :
  body frame w = Returned w' ->
  worker body (frame :: frames) w = worker body frames w'.
Proof. intros E. cbn [worker]. rewrite E. reflexivity. Qed.

Lemma worker_raised (body : bytes -> World -> Outcome) (frame : bytes)
    (frames : list bytes) (e : exn) (w w' : World) :
  body frame w = Raised e w' ->
  worker body (frame :: frames) w = Raised e w'.
Proof. intros E. cbn [worker]. rewrite E. reflexivity. Qed.

(** C5.  A bare frame on unencap-in that parses as Ethernet 0x0800, IPv4
    protocol 6 and TCP, with a key that [sessions] does not hold, makes
    [parse_frame_and_encapsulate] return with the state as it was: both
    tables and the log of sent bytes are unchanged, and the loop goes on
    to the next frame. *)
Theorem unknown_flow_dropped (frame : bytes) (eth : StructEthHeader)
    (ip : StructIpHeader) (tcp : StructTcpHeaderWithoutOptions) (w : World) :
  bare_headers frame = Ok (Some (eth, ip, tcp)) ->
  sessions w !! flow_key eth ip tcp = None ->
  eth_type eth = 0x0800 /\ ip_protocol ip = 6
  /\ parse_frame_and_encapsulate frame sckt_encap w = Returned w
  /\ (forall w', parse_frame_and_encapsulate frame sckt_encap w = Returned w' ->
        wire w' = wire w /\ sessions w' = sessions w
        /\ sessions_reply_info w' = sessions_reply_info w)
  /\ (forall frames,
        encapsulating_loop (frame :: frames) w = encapsulating_loop frames w).
Proof.
  intros Hb Hk.
  destruct (bare_headers_Some _ _ _ _ Hb) as (_ & T1 & T2 & _).
  assert (E : parse_frame_and_encapsulate frame sckt_encap w = Returned w).
  { unfold parse_frame_and_encapsulate. rewrite Hb. cbv beta iota zeta.
    unfold Bundle in *. rewrite Hk. reflexivity. }
  repeat split; try assumption.
  - rewrite E in H. injection H as <-. reflexivity.
  - rewrite E in H. injection H as <-. reflexivity.
  - rewrite E in H. injection H as <-. reflexivity.
  - intros frames. unfold encapsulating_loop.
    apply worker_returned. exact E.
Qed.

Lemma unknown_flow_dropped_witness :
  parse_frame_and_encapsulate sample_forward sckt_encap (empty_world [])
  = Returned (empty_world [])
  /\ encapsulating_loop [sample_forward; sample_reply] (empty_world [])
     = encapsulating_loop [sample_reply] (empty_world []).
Proof.
  destruct (unknown_flow_dropped sample_forward sample_forward_eth
              sample_forward_ip sample_forward_tcp (empty_world []))
    as (_ & _ & E & _ & Hloop).
  - vm_compute. reflexivity.
  - vm_compute. reflexivity.
  - split; [exact E | exact (Hloop [sample_reply])].
Defined.

(** C4.  A frame on unencap-out that parses as Ethernet 0x0800, IPv4
    protocol 6 and TCP, whose swapped key is a key of [sessions] but not
    of [sessions_reply_info], makes [parse_frame_and_encapsulate_test]
    raise [KeyError] at the [sessions_reply_info[swapped_key]] lookup:
    nothing is sent, the tables are as they were, and [test_loop] ends
    with that exception without reading another frame. *)
Theorem reverse_encap_key_error (frame : bytes) (eth : StructEthHeader)
    (ip : StructIpHeader) (tcp : StructTcpHeaderWithoutOptions) (w : World) :
  bare_headers frame = Ok (Some (eth, ip, tcp)) ->
  is_Some (sessions w !! flow_swapped_key eth ip tcp) ->
  sessions_reply_info w !! flow_swapped_key eth ip tcp = None ->
  flow_swapped_key eth ip tcp = swap_key (flow_key eth ip tcp)
  /\ eth_type eth = 0x0800 /\ ip_protocol ip = 6
  /\ parse_frame_and_encapsulate_test frame sckt_encap w
     = Raised KeyError w
  /\ (forall frames, test_loop (frame :: frames) w = Raised KeyError w).
Proof.
  intros Hb [B HB] Hr.
  destruct (bare_headers_Some _ _ _ _ Hb) as (_ & T1 & T2 & _).
  assert (E : parse_frame_and_encapsulate_test frame sckt_encap w
              = Raised KeyError w).
  { unfold parse_frame_and_encapsulate_test. rewrite Hb. cbv beta iota zeta.
    unfold Bundle in *. rewrite HB, Hr. reflexivity. }
  split; [reflexivity|]. split; [exact T1|]. split; [exact T2|].
  split; [exact E|].
  intros frames. unfold test_loop. apply worker_raised. exact E.
Qed.

Lemma reverse_encap_key_error_witness :
  parse_frame_and_encapsulate_test sample_reply sckt_encap
    (primed_world x64 x05 [])
  = Raised KeyError (primed_world x64 x05 [])
  /\ test_loop [sample_reply; sample_forward] (primed_world x64 x05 [])
     = Raised KeyError (primed_world x64 x05 []).
Proof.
  destruct (reverse_encap_key_error sample_reply sample_reply_eth
              sample_reply_ip sample_reply_tcp (primed_world x64 x05 []))
    as (_ & _ & _ & E & Hloop).
  - vm_compute. reflexivity.
  - exists (sample_bundle x64 x05). vm_compute. reflexivity.
  - vm_compute. reflexivity.
  - split; [exact E | exact (Hloop [sample_forward])].
Defined.

(** ** Frames the decap pipeline does not forward *)

Ltac run_bind E := rewrite E; cbn [mbind result_bind]; cbv beta iota zeta.

Lemma decap_headers_ethertype (frame : bytes) :
  ethertype_mismatch frame -> decap_headers frame = Ok None.
Proof.
  intros (eth & E1 & T1).
  unfold decap_headers. unfold parse_ethernet in *. cbn [fst snd] in E1.
  cbv zeta. run_bind E1.
  destruct (Z.eqb_spec (eth_type eth) 0x0800); [contradiction|reflexivity].
Qed.

Lemma decap_headers_ip_protocol (frame : bytes) :
  ip_protocol_mismatch frame -> decap_headers frame = Ok None.
Proof.
  intros (eth & iph & ipp & ip & E1 & T1 & E2 & E3 & T2).
  unfold decap_headers. unfold parse_ethernet in *. cbn [fst snd] in E1, E2.
  cbv zeta. run_bind E1. rewrite T1. cbn [Z.eqb Pos.eqb].
  run_bind E2. run_bind E3.
  destruct (Z.eqb_spec (ip_protocol ip) 17); [contradiction|reflexivity].
Qed.

Lemma decap_headers_udp_port (frame : bytes) :
  udp_port_mismatch frame -> decap_headers frame = Ok None.
Proof.
  intros (eth & iph & ipp & ip & udp & E1 & T1 & E2 & E3 & T2 & E4 & T3).
  unfold decap_headers. unfold parse_ethernet, parse_udp in *.
  cbn [fst snd] in E1, E2, E4.
  cbv zeta. run_bind E1. rewrite T1. cbn [Z.eqb Pos.eqb].
  run_bind E2. run_bind E3. rewrite T2. cbn [Z.eqb Pos.eqb].
  run_bind E4.
  destruct (Z.eqb_spec (udp_dst_port udp) 4790); [contradiction|reflexivity].
Qed.

Lemma decap_headers_length (frame : bytes) :
  header_length_unexpected frame -> decap_headers frame = Raise StructError.
Proof.
  intros [L | [(eth & iph & ipp & E1 & T1 & E2 & L)
              | (eth & iph & ipp & ip & E1 & T1 & E2 & E3 & T2 & L)]];
    unfold decap_headers; unfold parse_ethernet, parse_udp in *;
    cbn [fst snd] in *; cbv zeta.
  - rewrite (new_error (T := StructEthHeader)); [reflexivity|].
    cbn. rewrite length_take. lia.
  - run_bind E1. rewrite T1. cbn [Z.eqb Pos.eqb]. run_bind E2.
    rewrite (new_error (T := StructIpHeader)); [reflexivity|].
    cbn. exact L.
  - run_bind E1. rewrite T1. cbn [Z.eqb Pos.eqb]. run_bind E2.
    run_bind E3. rewrite T2. cbn [Z.eqb Pos.eqb].
    rewrite (new_error (T := StructUdpHeader)); [reflexivity|].
    cbn. rewrite length_take. lia.
Qed.

Lemma decap_headers_no_ip (frame : bytes) :
  ip_packet_missing frame -> decap_headers frame = Raise IndexError.
Proof.
  intros (eth & E1 & T1 & E2).
  unfold decap_headers. unfold parse_ethernet in *. cbn [fst snd] in E1, E2.
  cbv zeta. run_bind E1. rewrite T1. cbn [Z.eqb Pos.eqb].
  rewrite E2. reflexivity.
Qed.

Lemma send_all_not_raised (sckt : Socket) (new_pkt : bytes) (w : World)
    (e : exn) (w' : World) :
  send_all sckt new_pkt w <> Raised e w'.
Proof.
  unfold send_all. destruct (drain (send_results w) new_pkt) as [[? ?] u].
  destruct u; discriminate.
Qed.

Lemma decap_raised (frame : bytes) (sckt : Socket) (w : World) (e : exn)
    (w' : World) :
  parse_frame_and_deencapsulate frame sckt w = Raised e w' ->
  decap_headers frame = Raise e /\ w' = w.
Proof.
  unfold parse_frame_and_deencapsulate.
  destruct (decap_headers frame) as [[d|]|e0].
  - cbv zeta. intros H. exfalso. exact (send_all_not_raised _ _ _ _ _ H).
  - discriminate.
  - intros [= <- <-]. auto.
Qed.

(** The value checks and the length failures of the decap parser.  With
    headers of the expected length up to the check, an outer ethertype
    other than 0x0800, an IP protocol other than 17 or a UDP destination
    port other than 4790 makes [parse_frame_and_deencapsulate] return with
    the state as it was.  A frame shorter than an Ethernet header, an
    IPv4 header that is not 20 bytes long or a truncated UDP header
    raises [struct.error], and an IPv4 ethertype with nothing after the
    Ethernet header raises [IndexError]; the exception leaves the
    pipeline with the state as it was and ends the worker loop. *)
Theorem parse_mismatch_outcomes (frame : bytes) (sckt : Socket) (w : World) :
  (ethertype_mismatch frame \/ ip_protocol_mismatch frame
   \/ udp_port_mismatch frame ->
   parse_frame_and_deencapsulate frame sckt w = Returned w
   /\ forall frames,
        unencapsulating_loop (frame :: frames) w
        = unencapsulating_loop frames w)
  /\ (header_length_unexpected frame ->
      parse_frame_and_deencapsulate frame sckt w = Raised StructError w
      /\ forall frames,
           unencapsulating_loop (frame :: frames) w = Raised StructError w)
  /\ (ip_packet_missing frame ->
      parse_frame_and_deencapsulate frame sckt w = Raised IndexError w
      /\ forall frames,
           unencapsulating_loop (frame :: frames) w = Raised IndexError w).
Proof.
  assert (Hret : decap_headers frame = Ok None ->
                 forall s, parse_frame_and_deencapsulate frame s w
                           = Returned w).
  { intros E s. unfold parse_frame_and_deencapsulate. rewrite E.
    reflexivity. }
  assert (Hraise : forall e, decap_headers frame = Raise e ->
                   forall s, parse_frame_and_deencapsulate frame s w
                             = Raised e w).
  { intros e E s. unfold parse_frame_and_deencapsulate. rewrite E.
    reflexivity. }
  split; [|split].
  - intros H.
    assert (E : decap_headers frame = Ok None).
    { destruct H as [H | [H | H]];
        auto using decap_headers_ethertype, decap_headers_ip_protocol,
                   decap_headers_udp_port. }
    split; [exact (Hret E sckt)|].
    intros frames. unfold unencapsulating_loop.
    apply worker_returned. exact (Hret E sckt_unencap_out).
  - intros H. apply decap_headers_length in H.
    split; [exact (Hraise _ H sckt)|].
    intros frames. unfold unencapsulating_loop.
    apply worker_raised. exact (Hraise _ H sckt_unencap_out).
  - intros H. apply decap_headers_no_ip in H.
    split; [exact (Hraise _ H sckt)|].
    intros frames. unfold unencapsulating_loop.
    apply worker_raised. exact (Hraise _ H sckt_unencap_out).
Qed.

Lemma parse_mismatch_outcomes_witness :
  parse_frame_and_deencapsulate sample_arp sckt_unencap_out
    (primed_world x64 x05 [])
  = Returned (primed_world x64 x05 [])
  /\ parse_frame_and_deencapsulate (firstn 10 sample_arp) sckt_unencap_out
       (primed_world x64 x05 [])
     = Raised StructError (primed_world x64 x05 [])
  /\ parse_frame_and_deencapsulate sample_outer_eth sckt_unencap_out
       (primed_world x64 x05 [])
     = Raised IndexError (primed_world x64 x05 []).
Proof.
  split; [|split].
  - apply (parse_mismatch_outcomes sample_arp sckt_unencap_out
             (primed_world x64 x05 [])).
    left.
    exists {| eth_dst := repeat xff 6; eth_src := sample_mac_c;
              eth_type := 0x0806 |}.
    split; [vm_compute; reflexivity | vm_compute; discriminate].
  - apply (parse_mismatch_outcomes (firstn 10 sample_arp) sckt_unencap_out
             (primed_world x64 x05 [])).
    left. cbn. lia.
  - apply (parse_mismatch_outcomes sample_outer_eth sckt_unencap_out
             (primed_world x64 x05 [])).
    exists {| eth_dst := sample_mac_d; eth_src := sample_mac_c;
              eth_type := 0x0800 |}.
    split; [vm_compute; reflexivity|].
    split; [reflexivity | vm_compute; reflexivity].
Defined.

(** C3.  A frame with an unexpected header length is not dropped
    silently.  The 46-byte frame [sample_ip_options] is an Ethernet frame
    of type 0x0800 that carries an IPv4 datagram with four bytes of
    options (IHL 6), protocol 17, and a UDP header to port 4790.
    [parse_ip] honours the IHL and returns the 24-byte header;
    [StructIpHeader] unpacks exactly 20 bytes and raises [struct.error].
    The exception leaves [parse_frame_and_deencapsulate] and ends
    [unencapsulating_loop] before the next frame is read. *)
Lemma ip_options_frame_raises :
  length sample_ip_options = 46%nat
  /\ be_decode (slice 12 14 sample_ip_options) = 0x0800
  /\ Z.land (byte_to_Z (nth 14 sample_ip_options x00)) 0x0F = 6
  /\ be_decode (slice 23 24 sample_ip_options) = 17
  /\ be_decode (slice 40 42 sample_ip_options) = 4790
  /\ parse_ip (skipn 14 sample_ip_options)
     = Ok (slice 14 38 sample_ip_options, skipn 38 sample_ip_options)
  /\ new StructIpHeader (slice 14 38 sample_ip_options) = Raise StructError
  /\ parse_frame_and_deencapsulate sample_ip_options sckt_unencap_out
       (empty_world [])
     = Raised StructError (empty_world [])
  /\ unencapsulating_loop [sample_ip_options; sample_arp] (empty_world [])
     = Raised StructError (empty_world []).
Proof.
  repeat match goal with |- _ /\ _ => split end; vm_compute; reflexivity.
Qed.

(** ** What the tables hold *)

Lemma tables_wf_empty (results : list nat) : tables_wf (empty_world results).
Proof. split; apply map_Forall_empty. Qed.

Lemma decap_tables_wf (frame : bytes) (sckt : Socket) (w : World) :
  tables_wf w ->
  tables_wf (outcome_world (parse_frame_and_deencapsulate frame sckt w)).
Proof.
  intros [Hs Hr]. unfold parse_frame_and_deencapsulate.
  destruct (decap_headers frame) as [[d|]|e] eqn:Hd; try (split; assumption).
  cbv zeta.
  destruct (decap_headers_Some _ _ Hd) as (_ & Hwf & _).
  unfold tables_wf.
  destruct (bool_decide _); cbn [negb];
    match goal with
    | |- context [send_all ?s ?p ?w0] =>
        destruct (send_all_tables s p w0) as [-> ->]
    end;
    cbn [sessions sessions_reply_info].
  - split; [exact Hs|]. apply map_Forall_insert_2; assumption.
  - split; [|exact Hr]. apply map_Forall_insert_2; assumption.
Qed.

Lemma unencapsulating_loop_tables_wf (frames : list bytes) (w : World) :
  tables_wf w -> tables_wf (outcome_world (unencapsulating_loop frames w)).
Proof.
  unfold unencapsulating_loop. revert w.
  induction frames as [|frame frames IH]; intros w Hw; [exact Hw|].
  cbn [worker]. pose proof (decap_tables_wf frame sckt_unencap_out w Hw) as H.
  destruct (parse_frame_and_deencapsulate frame sckt_unencap_out w);
    cbn [outcome_world] in *; auto.
Qed.

Lemma send_all_whole (sckt : Socket) (new_pkt : bytes) (w : World)
    (results : list nat) :
  new_pkt <> [] ->
  send_results w = length new_pkt :: results ->
  send_all sckt new_pkt w
  = Returned {| sessions := sessions w;
                sessions_reply_info := sessions_reply_info w;
                wire := wire w ++ [(sckt, new_pkt)];
                send_results := results |}.
Proof.
  intros Hne Hr. unfold send_all. rewrite Hr.
  destruct new_pkt as [|b new_pkt]; [contradiction|].
  cbn [drain]. rewrite drop_all, firstn_all.
  destruct results; reflexivity.
Qed.

Lemma decap_forward (frame : bytes) (d : Decapsulated) (sckt : Socket)
    (w : World) :
  decap_headers frame = Ok (Some d) ->
  sessions w !! decap_swapped_key d = None ->
  parse_frame_and_deencapsulate frame sckt w
  = send_all sckt (nsh_payload d)
      {| sessions := <[decap_key d := decap_bundle d]> (sessions w);
         sessions_reply_info := sessions_reply_info w;
         wire := wire w;
         send_results := send_results w |}.
Proof.
  intros Hd Hk. unfold parse_frame_and_deencapsulate. rewrite Hd.
  cbv zeta. rewrite bool_decide_eq_false_2; [reflexivity|].
  rewrite Hk. intros [? [=]].
Qed.

Lemma encap_found_sends (frame : bytes) (eth : StructEthHeader)
    (ip : StructIpHeader) (tcp : StructTcpHeaderWithoutOptions)
    (outer_eth outer_ip udp vxlan eth_nsh nsh : bytes)
    (eth_swapped ip_swapped nsh_decremented : bytes)
    (sckt : Socket) (w : World) :
  bare_headers frame = Ok (Some (eth, ip, tcp)) ->
  sessions w !! flow_key eth ip tcp
  = Some (outer_eth, outer_ip, udp, vxlan, eth_nsh, nsh) ->
  make_ethernet_header_swap outer_eth = Ok eth_swapped ->
  make_ip_header_swap outer_ip = Ok ip_swapped ->
  make_nsh_decr_si nsh = Ok nsh_decremented ->
  parse_frame_and_encapsulate frame sckt w
  = send_all sckt
      (eth_swapped ++ ip_swapped ++ udp ++ vxlan ++ eth_nsh
       ++ nsh_decremented ++ frame) w.
Proof.
  intros Hb Hk E1 E2 E3.
  unfold parse_frame_and_encapsulate. rewrite Hb. cbv beta iota zeta.
  unfold Bundle in *. rewrite Hk. cbv beta iota.
  rewrite E1, E2, E3. reflexivity.
Qed.

Lemma encap_found_raises (frame : bytes) (eth : StructEthHeader)
    (ip : StructIpHeader) (tcp : StructTcpHeaderWithoutOptions)
    (outer_eth outer_ip udp vxlan eth_nsh nsh : bytes)
    (eth_swapped ip_swapped : bytes) (e : exn)
    (sckt : Socket) (w : World) :
  bare_headers frame = Ok (Some (eth, ip, tcp)) ->
  sessions w !! flow_key eth ip tcp
  = Some (outer_eth, outer_ip, udp, vxlan, eth_nsh, nsh) ->
  make_ethernet_header_swap outer_eth = Ok eth_swapped ->
  make_ip_header_swap outer_ip = Ok ip_swapped ->
  make_nsh_decr_si nsh = Raise e ->
  parse_frame_and_encapsulate frame sckt w = Raised e w.
Proof.
  intros Hb Hk E1 E2 E3.
  unfold parse_frame_and_encapsulate. rewrite Hb. cbv beta iota zeta.
  unfold Bundle in *. rewrite Hk. cbv beta iota.
  rewrite E1, E2, E3. reflexivity.
Qed.

(** C2.  Let the tables hold bundles as the decap pipeline
    stores them, let a bare frame on unencap-in parse as Ethernet 0x0800,
    IPv4 protocol 6 and TCP, and let its key be in [sessions] with a
    bundle whose NSH has a Service Index of at least 1.  Then
    [parse_frame_and_encapsulate] sends on the encap socket exactly: the
    stored outer Ethernet header with its two addresses exchanged, the
    stored outer IPv4 header with its two addresses exchanged and every
    other byte, the checksum included, as stored, the stored UDP,
    VXLAN-GPE and NSH-carrying Ethernet headers as they are, the stored
    NSH with its Service Index byte one less and every other byte as
    stored, and the input frame; both tables are unchanged.  The sends
    are assumed to take at least a byte each. *)
Theorem encap_rebuilds_frame
    (frame : bytes) (eth : StructEthHeader) (ip : StructIpHeader)
    (tcp : StructTcpHeaderWithoutOptions)
    (outer_eth outer_ip udp vxlan eth_nsh nsh : bytes)
    (nt : StructNshHeader) (w : World) :
  tables_wf w ->
  bare_headers frame = Ok (Some (eth, ip, tcp)) ->
  sessions w !! flow_key eth ip tcp
  = Some (outer_eth, outer_ip, udp, vxlan, eth_nsh, nsh) ->
  new StructNshHeader nsh = Ok nt ->
  1 <= get_nsh_si nt ->
  Forall (fun r => (1 <= r)%nat) (send_results w) ->
  (88 + length frame <= length (send_results w))%nat ->
  exists chunks w' eth_swapped ip_swapped nsh_decremented,
    make_ethernet_header_swap outer_eth = Ok eth_swapped
    /\ eth_swapped
       = slice 6 12 outer_eth ++ slice 0 6 outer_eth ++ slice 12 14 outer_eth
    /\ make_ip_header_swap outer_ip = Ok ip_swapped
    /\ ip_swapped
       = firstn 12 outer_ip ++ slice 16 20 outer_ip ++ slice 12 16 outer_ip
    /\ make_nsh_decr_si nsh = Ok nsh_decremented
    /\ nsh_decremented
       = firstn 7 nsh ++ [byte_of_Z (get_nsh_si nt - 1)] ++ skipn 8 nsh
    /\ parse_frame_and_encapsulate frame sckt_encap w = Returned w'
    /\ wire w' = wire w ++ map (fun c => (sckt_encap, c)) chunks
    /\ concat chunks
       = eth_swapped ++ ip_swapped ++ udp ++ vxlan ++ eth_nsh
         ++ nsh_decremented ++ frame
    /\ sessions w' = sessions w
    /\ sessions_reply_info w' = sessions_reply_info w.
Proof.
  intros [Hs _] Hb Hk Hnt Hsi Hpos Hlen.
  pose proof (Hs _ _ Hk) as Hwf. cbn in Hwf.
  destruct Hwf as (L1 & L2 & L3 & L4 & L5 & L6).
  pose proof (make_ethernet_header_swap_bytes _ L1) as E1.
  pose proof (make_ip_header_swap_bytes _ L2) as E2.
  pose proof (make_nsh_decr_si_bytes _ _ Hnt Hsi) as E3.
  set (eth_swapped :=
         slice 6 12 outer_eth ++ slice 0 6 outer_eth ++ slice 12 14 outer_eth)
    in *.
  set (ip_swapped :=
         firstn 12 outer_ip ++ slice 16 20 outer_ip ++ slice 12 16 outer_ip)
    in *.
  set (nsh_decremented :=
         firstn 7 nsh ++ [byte_of_Z (get_nsh_si nt - 1)] ++ skipn 8 nsh) in *.
  assert (M1 : length eth_swapped = 14%nat).
  { subst eth_swapped. unfold slice.
    rewrite !length_app, !length_take, !length_drop. lia. }
  assert (M2 : length ip_swapped = 20%nat).
  { subst ip_swapped. unfold slice.
    rewrite !length_app, !length_take, !length_drop. lia. }
  assert (M3 : length nsh_decremented = 24%nat).
  { subst nsh_decremented.
    rewrite !length_app, length_take, length_drop. cbn [length]. lia. }
  set (new_pkt := eth_swapped ++ ip_swapped ++ udp ++ vxlan ++ eth_nsh
                  ++ nsh_decremented ++ frame).
  assert (Hn : (length new_pkt <= length (send_results w))%nat).
  { subst new_pkt. rewrite !length_app. lia. }
  destruct (send_all_ok sckt_encap new_pkt w Hpos Hn)
    as (chunks & unused & E & Hcat & _).
  exists chunks. eexists. exists eth_swapped, ip_swapped, nsh_decremented.
  split; [exact E1|]. split; [reflexivity|].
  split; [exact E2|]. split; [reflexivity|].
  split; [exact E3|]. split; [reflexivity|].
  split.
  { rewrite (encap_found_sends _ _ _ _ _ _ _ _ _ _ _ _ _ _ _ Hb Hk E1 E2 E3).
    exact E. }
  cbn [wire sessions sessions_reply_info]. auto.
Qed.

Lemma encap_rebuilds_frame_witness :
  exists chunks w',
    parse_frame_and_encapsulate sample_forward sckt_encap
      (primed_world x64 x05 (repeat 1%nat 142)) = Returned w'
    /\ wire w'
       = (sckt_unencap_out, sample_forward)
         :: map (fun c => (sckt_encap, c)) chunks
    /\ concat chunks
       = (sample_mac_c ++ sample_mac_d ++ [x08; x00])
         ++ (firstn 12 sample_outer_ip
             ++ [xc0; xa8; x01; x02] ++ [xc0; xa8; x01; x01])
         ++ sample_udp ++ sample_vxlan ++ sample_eth_nsh
         ++ sample_nsh x64 x04 ++ sample_forward.
Proof.
  destruct (encap_rebuilds_frame sample_forward sample_forward_eth
              sample_forward_ip sample_forward_tcp
              sample_outer_eth sample_outer_ip sample_udp sample_vxlan
              sample_eth_nsh (sample_nsh x64 x05)
              {| nsh_flags_length := 6; nsh_md_type := 1; nsh_np := 3;
                 nsh_sph := 0x6405; nsh_ctx1 := 0; nsh_ctx2 := 0;
                 nsh_ctx3 := 0; nsh_ctx4 := 0 |}
              (primed_world x64 x05 (repeat 1%nat 142)))
    as (chunks & w' & e & i & n & _ & -> & _ & -> & _ & -> & E & Hw & Hc & _).
  - split; [|apply map_Forall_empty].
    apply map_Forall_singleton. vm_compute. repeat split; reflexivity.
  - vm_compute. reflexivity.
  - vm_compute. reflexivity.
  - vm_compute. reflexivity.
  - vm_compute. discriminate.
  - cbn. repeat constructor.
  - cbn. lia.
  - exists chunks, w'. split; [exact E|]. split; [exact Hw|].
    rewrite Hc. vm_compute. reflexivity.
Defined.

(** C2, counterexample on a stored bundle whose NSH has Service
    Index 0: the frame sent is not always the stored bundle with the
    Service Index one less.  With Service Path Identifier 0 the decrement packs
    -1 and raises [struct.error]: nothing is sent.  With Service Path
    Identifier 1 the frame sent carries Service Path Identifier 0 and
    Service Index 255. *)
Lemma encap_service_index_zero :
  parse_frame_and_deencapsulate
    (sample_encapsulated x00 x00 sample_forward) sckt_unencap_out
    (empty_world [54%nat])
  = Returned (primed_world x00 x00 [])
  /\ bare_headers sample_forward
     = Ok (Some (sample_forward_eth, sample_forward_ip, sample_forward_tcp))
  /\ sessions (primed_world x00 x00 [])
     !! flow_key sample_forward_eth sample_forward_ip sample_forward_tcp
     = Some (sample_bundle x00 x00)
  /\ parse_frame_and_encapsulate sample_forward sckt_encap
       (primed_world x00 x00 [])
     = Raised StructError (primed_world x00 x00 [])
  /\ parse_frame_and_encapsulate sample_forward sckt_encap
       (primed_world x01 x00 [142%nat])
     = Returned
         {| sessions := sessions (primed_world x01 x00 []);
            sessions_reply_info := ∅;
            wire :=
              [(sckt_unencap_out, sample_forward);
               (sckt_encap,
                (sample_mac_c ++ sample_mac_d ++ [x08; x00])
                ++ (firstn 12 sample_outer_ip
                    ++ [xc0; xa8; x01; x02] ++ [xc0; xa8; x01; x01])
                ++ sample_udp ++ sample_vxlan ++ sample_eth_nsh
                ++ sample_nsh x00 xff ++ sample_forward)];
            send_results := [] |}.
Proof.
  assert (Hb : bare_headers sample_forward
               = Ok (Some (sample_forward_eth, sample_forward_ip,
                           sample_forward_tcp)))
    by (vm_compute; reflexivity).
  split; [|split; [exact Hb|split; [apply lookup_singleton_eq|split]]].
  - rewrite (decap_forward _ (sample_decapsulated x00 x00));
      [|vm_compute; reflexivity|apply lookup_empty].
    rewrite (send_all_whole _ _ _ []);
      [|discriminate|reflexivity].
    unfold primed_world, empty_world.
    cbn [sessions sessions_reply_info wire app].
    rewrite insert_empty. reflexivity.
  - eapply encap_found_raises;
      [ exact Hb
      | apply lookup_singleton_eq
      | apply make_ethernet_header_swap_bytes; reflexivity
      | apply make_ip_header_swap_bytes; reflexivity
      | vm_compute; reflexivity ].
  - erewrite encap_found_sends;
      [ | exact Hb
        | apply lookup_singleton_eq
        | apply make_ethernet_header_swap_bytes; reflexivity
        | apply make_ip_header_swap_bytes; reflexivity
        | vm_compute; reflexivity ].
    rewrite (send_all_whole _ _ _ []);
      [|discriminate|reflexivity].
    reflexivity.
Qed.

(** * More properties of the helpers *)

(** ** Header records *)

(** X1.  For each of the seven header classes, packing the record parsed
    from a buffer gives the buffer back: [cls(b).pack() == b]. *)
Theorem header_pack_after_parse :
  (forall b x, new StructEthHeader b = Ok x -> pack x = Ok b) /\
  (forall b x, new StructNshHeader b = Ok x -> pack x = Ok b) /\
  (forall b x, new StructUdpHeader b = Ok x -> pack x = Ok b) /\
  (forall b x, new StructIpHeader b = Ok x -> pack x = Ok b) /\
  (forall b x, new StructTcpHeaderWithoutOptions b = Ok x ->
     pack x = Ok b) /\
  (forall b x, new StructPseudoHeader b = Ok x -> pack x = Ok b) /\
  (forall b x, new StructVxLanGPEHeader b = Ok x -> pack x = Ok b).
Proof. repeat split; intros b x E; exact (pack_new b x E). Qed.

Lemma header_pack_after_parse_witness :
  pack {| eth_dst := sample_mac_d; eth_src := sample_mac_c;
          eth_type := 0x0800 |} = Ok sample_outer_eth.
Proof.
  apply (proj1 header_pack_after_parse). vm_compute. reflexivity.
Defined.

Lemma new_iff_length (T : Type) `{MetaStructLaws T} (record : bytes) :
  ((exists nt, new T record = Ok nt) <-> length record = calcsize struct_fmt)
  /\ (new T record = Raise StructError
      <-> length record <> calcsize struct_fmt).
Proof.
  destruct (Nat.eq_dec (length record) (calcsize struct_fmt)) as [L|L].
  - destruct (new_ok record L) as [nt E]. rewrite E.
    split; split; intros; try congruence; eauto.
  - rewrite (new_error record L).
    split; split; intros; try congruence; try tauto.
    destruct H1; discriminate.
Qed.

(** X2.  Building a header record from a buffer succeeds exactly when the
    buffer has the size of the class's format: 14 bytes for Ethernet, 24
    for NSH, 8 for UDP, 20 for IPv4, 20 for the TCP base header, 12 for
    the pseudo-header and 8 for VXLAN-GPE.  On any other length
    [struct.error] is raised. *)
Theorem header_new_length (record : bytes) :
  (new StructEthHeader record = Raise StructError
   <-> length record <> 14%nat) /\
  (new StructNshHeader record = Raise StructError
   <-> length record <> 24%nat) /\
  (new StructUdpHeader record = Raise StructError
   <-> length record <> 8%nat) /\
  (new StructIpHeader record = Raise StructError
   <-> length record <> 20%nat) /\
  (new StructTcpHeaderWithoutOptions record = Raise StructError
   <-> length record <> 20%nat) /\
  (new StructPseudoHeader record = Raise StructError
   <-> length record <> 12%nat) /\
  (new StructVxLanGPEHeader record = Raise StructError
   <-> length record <> 8%nat) /\
  ((exists nt, new StructEthHeader record = Ok nt)
   <-> length record = 14%nat) /\
  ((exists nt, new StructNshHeader record = Ok nt)
   <-> length record = 24%nat) /\
  ((exists nt, new StructUdpHeader record = Ok nt)
   <-> length record = 8%nat) /\
  ((exists nt, new StructIpHeader record = Ok nt)
   <-> length record = 20%nat) /\
  ((exists nt, new StructTcpHeaderWithoutOptions record = Ok nt)
   <-> length record = 20%nat) /\
  ((exists nt, new StructPseudoHeader record = Ok nt)
   <-> length record = 12%nat) /\
  ((exists nt, new StructVxLanGPEHeader record = Ok nt)
   <-> length record = 8%nat).
Proof.
  repeat match goal with |- _ /\ _ => split end;
    first [ exact (proj2 (new_iff_length StructEthHeader record))
          | exact (proj2 (new_iff_length StructNshHeader record))
          | exact (proj2 (new_iff_length StructUdpHeader record))
          | exact (proj2 (new_iff_length StructIpHeader record))
          | exact (proj2 (new_iff_length StructTcpHeaderWithoutOptions
                            record))
          | exact (proj2 (new_iff_length StructPseudoHeader record))
          | exact (proj2 (new_iff_length StructVxLanGPEHeader record))
          | exact (proj1 (new_iff_length StructEthHeader record))
          | exact (proj1 (new_iff_length StructNshHeader record))
          | exact (proj1 (new_iff_length StructUdpHeader record))
          | exact (proj1 (new_iff_length StructIpHeader record))
          | exact (proj1 (new_iff_length StructTcpHeaderWithoutOptions
                            record))
          | exact (proj1 (new_iff_length StructPseudoHeader record))
          | exact (proj1 (new_iff_length StructVxLanGPEHeader record)) ].
Qed.

Lemma round_trip_iff (T : Type) `{MetaStructLaws T} (x : T) :
  pack x ≫= new T = Ok x <-> well_formed x.
Proof.
  split.
  - intros E. apply bind_Ok in E as (b & _ & E).
    exact (new_well_formed b x E).
  - intros Hx. destruct (new_pack x Hx) as (b & -> & E). exact E.
Qed.

(** X3.  For each of the seven header classes the round trip
    [cls(x.pack()) == x] holds exactly for the well-formed records
    (address fields of the declared width, integer fields in the range of
    their format): for any other record [pack] raises or the record
    parsed back differs. *)
Theorem header_round_trip_only_well_formed :
  (forall x : StructEthHeader,
     pack x ≫= new StructEthHeader = Ok x <-> well_formed x) /\
  (forall x : StructNshHeader,
     pack x ≫= new StructNshHeader = Ok x <-> well_formed x) /\
  (forall x : StructUdpHeader,
     pack x ≫= new StructUdpHeader = Ok x <-> well_formed x) /\
  (forall x : StructIpHeader,
     pack x ≫= new StructIpHeader = Ok x <-> well_formed x) /\
  (forall x : StructTcpHeaderWithoutOptions,
     pack x ≫= new StructTcpHeaderWithoutOptions = Ok x
     <-> well_formed x) /\
  (forall x : StructPseudoHeader,
     pack x ≫= new StructPseudoHeader = Ok x <-> well_formed x) /\
  (forall x : StructVxLanGPEHeader,
     pack x ≫= new StructVxLanGPEHeader = Ok x <-> well_formed x).
Proof.
  repeat match goal with |- _ /\ _ => split end;
    intros x; exact (round_trip_iff _ x).
Qed.

(** ** The slicing parsers *)

Lemma new_after_take (T : Type) `{MetaStructLaws T} (packet : bytes) :
  (exists nt, new T (firstn (calcsize struct_fmt) packet) = Ok nt)
  <-> (calcsize struct_fmt <= length packet)%nat.
Proof.
  rewrite (proj1 (new_iff_length T _)), length_take. lia.
Qed.

(** X4.  The four fixed-length slicers never raise and lose nothing:
    header and payload concatenate to the packet.  The header a slicer
    returns is accepted by its header class exactly when the packet has at
    least 14 (Ethernet), 24 (NSH), 8 (UDP) or 8 (VXLAN-GPE) bytes; on a
    shorter packet the class raises [struct.error]. *)
Theorem fixed_slicers_split (packet : bytes) :
  ((parse_ethernet packet).1 ++ (parse_ethernet packet).2 = packet
   /\ ((exists nt, new StructEthHeader (parse_ethernet packet).1 = Ok nt)
       <-> (14 <= length packet)%nat)
   /\ ((length packet < 14)%nat ->
       new StructEthHeader (parse_ethernet packet).1 = Raise StructError))
  /\ ((parse_nsh packet).1 ++ (parse_nsh packet).2 = packet
      /\ ((exists nt, new StructNshHeader (parse_nsh packet).1 = Ok nt)
          <-> (24 <= length packet)%nat)
      /\ ((length packet < 24)%nat ->
          new StructNshHeader (parse_nsh packet).1 = Raise StructError))
  /\ ((parse_udp packet).1 ++ (parse_udp packet).2 = packet
      /\ ((exists nt, new StructUdpHeader (parse_udp packet).1 = Ok nt)
          <-> (8 <= length packet)%nat)
      /\ ((length packet < 8)%nat ->
          new StructUdpHeader (parse_udp packet).1 = Raise StructError))
  /\ ((parse_vxlan_gpe packet).1 ++ (parse_vxlan_gpe packet).2 = packet
      /\ ((exists nt,
             new StructVxLanGPEHeader (parse_vxlan_gpe packet).1 = Ok nt)
          <-> (8 <= length packet)%nat)
      /\ ((length packet < 8)%nat ->
          new StructVxLanGPEHeader (parse_vxlan_gpe packet).1
          = Raise StructError)).
Proof.
  unfold parse_ethernet, parse_nsh, parse_udp, parse_vxlan_gpe.
  cbn [fst snd Nat.add].
  repeat match goal with |- _ /\ _ => split end;
    try apply take_drop;
    try (intros L; apply new_error; cbn; rewrite length_take; lia).
  - exact (new_after_take StructEthHeader packet).
  - exact (new_after_take StructNshHeader packet).
  - exact (new_after_take StructUdpHeader packet).
  - exact (new_after_take StructVxLanGPEHeader packet).
Qed.

Lemma fixed_slicers_split_witness :
  new StructEthHeader (parse_ethernet (firstn 10 sample_arp)).1
  = Raise StructError.
Proof.
  apply (fixed_slicers_split (firstn 10 sample_arp)). cbn. lia.
Defined.

(** X5.  [parse_ip] raises [IndexError] on an empty packet.  On any other
    packet it cuts at four times the low nibble of the first byte, losing
    nothing; the header it returns is accepted by [StructIpHeader] exactly
    when that nibble is 5 and the packet has at least 20 bytes, or the
    nibble is above 5 and the packet has exactly 20 bytes. *)
Theorem parse_ip_split (packet : bytes) :
  (packet = [] -> parse_ip packet = Raise IndexError)
  /\ (forall b0 rest, packet = b0 :: rest ->
      let ihl := Z.land (byte_to_Z b0) 0x0F in
      exists header payload,
        parse_ip packet = Ok (header, payload)
        /\ header ++ payload = packet
        /\ length header = Nat.min (Z.to_nat (ihl * 4)) (length packet)
        /\ 0 <= ihl <= 15
        /\ ((exists nt, new StructIpHeader header = Ok nt)
            <-> (ihl = 5 /\ (20 <= length packet)%nat)
                \/ (5 < ihl /\ length packet = 20%nat))).
Proof.
  split; [intros ->; reflexivity|].
  intros b0 rest -> ihl.
  assert (Hihl : 0 <= ihl <= 15).
  { subst ihl. rewrite (Z.land_ones _ 4) by lia.
    pose proof (Z.mod_pos_bound (byte_to_Z b0) (2 ^ 4) ltac:(lia)). lia. }
  exists (firstn (Z.to_nat (ihl * 4)) (b0 :: rest)),
         (skipn (Z.to_nat (ihl * 4)) (b0 :: rest)).
  split; [reflexivity|]. split; [apply take_drop|].
  split; [apply length_take|]. split; [exact Hihl|].
  rewrite (proj1 (new_iff_length StructIpHeader _)), length_take.
  change (calcsize struct_fmt) with 20%nat. lia.
Qed.

Lemma parse_ip_split_witness :
  exists header payload,
    parse_ip (skipn 14 sample_ip_options) = Ok (header, payload)
    /\ length header = 24%nat
    /\ ~ (exists nt, new StructIpHeader header = Ok nt).
Proof.
  destruct (proj2 (parse_ip_split (skipn 14 sample_ip_options))
              x46 _ eq_refl)
    as (header & payload & E & _ & L & _ & Hnew).
  exists header, payload. split; [exact E|]. split; [exact L|].
  intros Hnt. apply Hnew in Hnt. vm_compute in Hnt.
  destruct Hnt as [[? _] | [_ ?]]; discriminate.
Defined.

(** X6.  [parse_tcp] raises [struct.error] on a packet shorter than 20
    bytes.  Otherwise it returns the first 20 bytes, the options and the
    payload, cut at four times the data offset.  With a data offset of at
    least 5 the three parts concatenate to the packet.  With a data offset
    below 5 the options are empty and the payload starts inside the base
    header, so the parts together are longer than the packet. *)
Theorem parse_tcp_split (packet : bytes) (nt : StructTcpHeaderWithoutOptions) :
  ((length packet < 20)%nat -> parse_tcp packet = Raise StructError)
  /\ (new StructTcpHeaderWithoutOptions (firstn 20 packet) = Ok nt ->
      let header_length :=
        Z.to_nat (Z.shiftr (tcp_byte_data_offset nt) 4 * 4) in
      exists options payload,
        parse_tcp packet = Ok (firstn 20 packet, options, payload)
        /\ payload = skipn header_length packet
        /\ ((20 <= header_length)%nat ->
            firstn 20 packet ++ options ++ payload = packet
            /\ length options
               = (Nat.min header_length (length packet) - 20)%nat)
        /\ ((header_length < 20)%nat ->
            options = []
            /\ length (firstn 20 packet ++ options ++ payload)
               = (length packet + (20 - header_length))%nat)).
Proof.
  split.
  - intros L. unfold parse_tcp. cbv zeta.
    rewrite (new_error (T := StructTcpHeaderWithoutOptions));
      [reflexivity|].
    cbn. rewrite length_take. lia.
  - intros E hl.
    pose proof (new_length _ _ E) as L20. cbn in L20.
    rewrite length_take in L20.
    exists (slice 20 hl packet), (skipn hl packet).
    split.
    { unfold parse_tcp. cbv zeta. rewrite E. reflexivity. }
    split; [reflexivity|].
    unfold slice. split.
    + intros Hhl. split.
      * rewrite <- (take_drop 20 packet) at 4.
        f_equal. rewrite <- (take_drop (hl - 20) (drop 20 packet)) at 2.
        f_equal. rewrite drop_drop. f_equal. lia.
      * rewrite length_take, length_drop. lia.
    + intros Hhl. replace (hl - 20)%nat with 0%nat by lia.
      split; [reflexivity|].
      rewrite take_0, app_nil_l, length_app, length_take, length_drop. lia.
Qed.

Lemma parse_tcp_split_witness :
  parse_tcp (firstn 19 (skipn 34 sample_forward)) = Raise StructError
  /\ exists options payload,
       parse_tcp (skipn 34 sample_forward)
       = Ok (firstn 20 (skipn 34 sample_forward), options, payload)
       /\ firstn 20 (skipn 34 sample_forward) ++ options ++ payload
          = skipn 34 sample_forward.
Proof.
  split.
  - apply (proj1 (parse_tcp_split (firstn 19 (skipn 34 sample_forward))
                    sample_forward_tcp)).
    cbn. lia.
  - destruct (proj2 (parse_tcp_split (skipn 34 sample_forward)
                       sample_forward_tcp))
      as (options & payload & E & _ & Hge & _).
    + vm_compute. reflexivity.
    + exists options, payload. split; [exact E|].
      apply Hge. vm_compute. lia.
Defined.

(** ** Address swaps *)

(** X7.  [make_ethernet_header_swap] raises [struct.error] unless the
    header has 14 bytes.  On a 14-byte header it returns 14 bytes with the
    two addresses exchanged and the ethertype kept, and applying it twice
    gives the header back. *)
Theorem make_ethernet_header_swap_involutive (header : bytes) :
  (length header <> 14%nat ->
   make_ethernet_header_swap header = Raise StructError)
  /\ (forall nt, new StructEthHeader header = Ok nt ->
      exists swapped,
        make_ethernet_header_swap header = Ok swapped
        /\ length swapped = 14%nat
        /\ new StructEthHeader swapped
           = Ok {| eth_dst := eth_src nt; eth_src := eth_dst nt;
                   eth_type := eth_type nt |}
        /\ make_ethernet_header_swap swapped = Ok header).
Proof.
  split.
  - intros L. unfold make_ethernet_header_swap.
    rewrite (new_error (T := StructEthHeader)) by exact L. reflexivity.
  - intros nt E. pose proof (new_length _ _ E) as L. cbn in L.
    exists (slice 6 12 header ++ slice 0 6 header ++ slice 12 14 header).
    split; [apply make_ethernet_header_swap_bytes; exact L|].
    revert E. explode header L. intros E.
    split; [reflexivity|]. split.
    + cbn in E. injection E as <-. reflexivity.
    + rewrite make_ethernet_header_swap_bytes by reflexivity. reflexivity.
Qed.

Lemma make_ethernet_header_swap_involutive_witness :
  exists swapped,
    make_ethernet_header_swap sample_outer_eth = Ok swapped
    /\ make_ethernet_header_swap swapped = Ok sample_outer_eth.
Proof.
  destruct (proj2 (make_ethernet_header_swap_involutive sample_outer_eth)
              {| eth_dst := sample_mac_d; eth_src := sample_mac_c;
                 eth_type := 0x0800 |})
    as (swapped & E & _ & _ & E').
  - vm_compute. reflexivity.
  - exists swapped. split; assumption.
Defined.

(** X8.  [make_ip_header_swap] raises [struct.error] unless the header has
    20 bytes.  On a 20-byte header it returns 20 bytes with [ip_src] and
    [ip_dst] exchanged and every other field, the checksum included, as
    it was, and applying it twice gives the header back. *)
Theorem make_ip_header_swap_involutive (header : bytes) :
  (length header <> 20%nat ->
   make_ip_header_swap header = Raise StructError)
  /\ (forall nt, new StructIpHeader header = Ok nt ->
      exists swapped,
        make_ip_header_swap header = Ok swapped
        /\ length swapped = 20%nat
        /\ new StructIpHeader swapped
           = Ok {| ip_ver_ihl_type := ip_ver_ihl_type nt;
                   ip_total_length := ip_total_length nt;
                   ip_id := ip_id nt;
                   ip_flags_frag_offset := ip_flags_frag_offset nt;
                   ip_time2live := ip_time2live nt;
                   ip_protocol := ip_protocol nt;
                   ip_hdr_checksum := ip_hdr_checksum nt;
                   ip_src := ip_dst nt;
                   ip_dst := ip_src nt |}
        /\ make_ip_header_swap swapped = Ok header).
Proof.
  split.
  - intros L. unfold make_ip_header_swap.
    rewrite (new_error (T := StructIpHeader)) by exact L. reflexivity.
  - intros nt E. pose proof (new_length _ _ E) as L. cbn in L.
    exists (firstn 12 header ++ slice 16 20 header ++ slice 12 16 header).
    split; [apply make_ip_header_swap_bytes; exact L|].
    revert E. explode header L. intros E.
    split; [reflexivity|]. split.
    + cbn in E. injection E as <-. reflexivity.
    + rewrite make_ip_header_swap_bytes by reflexivity. reflexivity.
Qed.

Lemma make_ip_header_swap_involutive_witness :
  exists swapped,
    make_ip_header_swap sample_outer_ip = Ok swapped
    /\ make_ip_header_swap swapped = Ok sample_outer_ip.
Proof.
  destruct (new_ok (T := StructIpHeader) sample_outer_ip) as [nt Ent];
    [reflexivity|].
  destruct (proj2 (make_ip_header_swap_involutive sample_outer_ip) nt Ent)
    as (swapped & E & _ & _ & E').
  exists swapped. split; assumption.
Defined.

(** ** NSH service path header *)

Lemma shiftl8_add_split (hi lo : Z) :
  0 <= lo < 256 ->
  (Z.shiftl hi 8 + lo) / 256 = hi /\ (Z.shiftl hi 8 + lo) mod 256 = lo.
Proof.
  intros Hlo. rewrite Z.shiftl_mul_pow2 by lia. change (2 ^ 8) with 256.
  split.
  - rewrite Z.add_comm, Z.div_add by lia. rewrite Z.div_small by lia. lia.
  - rewrite Z.add_comm, Z.mod_add by lia. apply Z.mod_small. lia.
Qed.

Lemma shiftl8_add_range (hi lo : Z) :
  0 <= hi < 16777216 -> 0 <= lo < 256 ->
  0 <= Z.shiftl hi 8 + lo < 4294967296.
Proof.
  intros Hhi Hlo. rewrite Z.shiftl_mul_pow2 by lia.
  change (2 ^ 8) with 256. lia.
Qed.

(** X9.  The three service path header builders and the two getters agree
    on the layout (24-bit SPI above an 8-bit SI) for values in range: what
    [make_nsh_sph_with_spi_si] builds reads back as the SPI and SI given,
    [make_nsh_sph_with_spi] changes the SPI and keeps the SI, and
    [make_nsh_sph_with_si] changes the SI and keeps the SPI. *)
Theorem nsh_sph_accessors (nt : StructNshHeader) (spi si : Z) :
  0 <= nsh_sph nt < 4294967296 ->
  0 <= spi < 16777216 ->
  0 <= si < 256 ->
  (let nt' := replace_nsh_sph nt (make_nsh_sph_with_spi_si nt spi si) in
   0 <= nsh_sph nt' < 4294967296
   /\ get_nsh_spi nt' = spi /\ get_nsh_si nt' = si)
  /\ (let nt' := replace_nsh_sph nt (make_nsh_sph_with_spi nt spi) in
      0 <= nsh_sph nt' < 4294967296
      /\ get_nsh_spi nt' = spi /\ get_nsh_si nt' = get_nsh_si nt)
  /\ (let nt' := replace_nsh_sph nt (make_nsh_sph_with_si nt si) in
      0 <= nsh_sph nt' < 4294967296
      /\ get_nsh_spi nt' = get_nsh_spi nt /\ get_nsh_si nt' = si).
Proof.
  intros Hsph Hspi Hsi.
  destruct (sph_split _ Hsph) as [Ehi Elo].
  assert (Hsi0 : 0 <= get_nsh_si nt < 256).
  { unfold get_nsh_si. rewrite Elo. apply Z.mod_pos_bound. lia. }
  assert (Hspi0 : 0 <= get_nsh_spi nt < 16777216).
  { unfold get_nsh_spi. rewrite Ehi.
    split; [apply Z.div_pos; lia | apply Z.div_lt_upper_bound; lia]. }
  assert (G : forall hi lo, 0 <= hi < 16777216 -> 0 <= lo < 256 ->
              let nt' := replace_nsh_sph nt (Z.shiftl hi 8 + lo) in
              0 <= nsh_sph nt' < 4294967296
              /\ get_nsh_spi nt' = hi /\ get_nsh_si nt' = lo).
  { intros hi lo Hhi Hlo nt'.
    pose proof (shiftl8_add_range hi lo Hhi Hlo) as R.
    destruct (sph_split _ R) as [E1 E2].
    destruct (shiftl8_add_split hi lo Hlo) as [D1 D2].
    subst nt'. unfold get_nsh_spi, get_nsh_si.
    cbn [replace_nsh_sph nsh_sph]. rewrite E1, E2. auto. }
  split; [|split].
  - exact (G spi si Hspi Hsi).
  - exact (G spi (get_nsh_si nt) Hspi Hsi0).
  - exact (G (get_nsh_spi nt) si Hspi0 Hsi).
Qed.

Lemma nsh_sph_accessors_witness :
  let nt := {| nsh_flags_length := 6; nsh_md_type := 1; nsh_np := 3;
               nsh_sph := 0x6405; nsh_ctx1 := 0; nsh_ctx2 := 0;
               nsh_ctx3 := 0; nsh_ctx4 := 0 |} in
  get_nsh_spi (replace_nsh_sph nt (make_nsh_sph_with_spi nt 7)) = 7
  /\ get_nsh_si (replace_nsh_sph nt (make_nsh_sph_with_spi nt 7)) = 5.
Proof.
  intros nt.
  destruct (nsh_sph_accessors nt 7 9) as (_ & (_ & E1 & E2) & _);
    [cbn; lia | lia | lia |].
  split; [exact E1 | exact E2].
Defined.

Lemma pack_uint_cases (n : nat) (v : Z) :
  (0 <= v < 256 ^ Z.of_nat n /\ pack_uint n v = Ok (be_encode n v))
  \/ (~ 0 <= v < 256 ^ Z.of_nat n /\ pack_uint n v = Raise StructError).
Proof.
  unfold pack_uint.
  destruct (Z.leb_spec 0 v); destruct (Z.ltb_spec v (256 ^ Z.of_nat n));
    cbn [andb]; first [left; split; [lia|reflexivity]
                      | right; split; [lia|reflexivity]].
Qed.

Lemma make_nsh_mdtype1_pack (nsh_spi nsh_si : Z) :
  make_nsh_mdtype1 nsh_spi nsh_si
  = b ← pack_uint 4 (Z.shiftl nsh_spi 8 + nsh_si);
    Ok ([x00; x06; x01; x03] ++ b ++ repeat x00 16).
Proof.
  unfold make_nsh_mdtype1. cbv zeta.
  change (new StructNshHeader (repeat x00 (8 + 16)))
    with (Ok {| nsh_flags_length := 0; nsh_md_type := 0; nsh_np := 0;
                nsh_sph := 0; nsh_ctx1 := 0; nsh_ctx2 := 0; nsh_ctx3 := 0;
                nsh_ctx4 := 0 |}).
  cbn [mbind result_bind]. unfold make_nsh_sph_with_spi_si.
  unfold pack. cbn [struct_fmt to_fields StructNshHeader_struct struct_pack
                    pack_code fst snd nsh_flags_length nsh_md_type nsh_np
                    nsh_sph nsh_ctx1 nsh_ctx2 nsh_ctx3 nsh_ctx4].
  change (pack_uint 2 6) with (Ok [x00; x06]).
  change (pack_uint 1 1) with (Ok [x01]).
  change (pack_uint 1 3) with (Ok [x03]).
  change (pack_uint 4 0) with (Ok [x00; x00; x00; x00]).
  cbn [mbind result_bind].
  destruct (pack_uint 4 (Z.shiftl nsh_spi 8 + nsh_si)); reflexivity.
Qed.

Lemma new_nsh_bytes (a b c d : byte) (sph ctx : bytes) :
  length sph = 4%nat -> length ctx = 16%nat ->
  new StructNshHeader ([a; b; c; d] ++ sph ++ ctx)
  = Ok {| nsh_flags_length := be_decode [a; b];
          nsh_md_type := be_decode [c];
          nsh_np := be_decode [d];
          nsh_sph := be_decode sph;
          nsh_ctx1 := be_decode (firstn 4 ctx);
          nsh_ctx2 := be_decode (firstn 4 (skipn 4 ctx));
          nsh_ctx3 := be_decode (firstn 4 (skipn 8 ctx));
          nsh_ctx4 := be_decode (firstn 4 (skipn 12 ctx)) |}.
Proof.
  intros L1 L2. explode sph L1. explode ctx L2. reflexivity.
Qed.

(** X10.  [make_nsh_mdtype1(spi, si)] returns a header exactly when
    [(spi << 8) + si] is a 32-bit value and raises [struct.error]
    otherwise.  For a 24-bit SPI and an 8-bit SI the header has 24 bytes
    and parses to flags/length 6, MD type 1, next protocol 3, the SPI and
    SI given and four null context words. *)
Theorem make_nsh_mdtype1_header (nsh_spi nsh_si : Z) :
  ((exists h, make_nsh_mdtype1 nsh_spi nsh_si = Ok h)
   <-> 0 <= Z.shiftl nsh_spi 8 + nsh_si < 4294967296)
  /\ (~ 0 <= Z.shiftl nsh_spi 8 + nsh_si < 4294967296 ->
      make_nsh_mdtype1 nsh_spi nsh_si = Raise StructError)
  /\ (0 <= nsh_spi < 16777216 -> 0 <= nsh_si < 256 ->
      exists h nt,
        make_nsh_mdtype1 nsh_spi nsh_si = Ok h
        /\ length h = 24%nat
        /\ new StructNshHeader h = Ok nt
        /\ get_nsh_spi nt = nsh_spi /\ get_nsh_si nt = nsh_si
        /\ nsh_flags_length nt = 6 /\ nsh_md_type nt = 1 /\ nsh_np nt = 3
        /\ nsh_ctx1 nt = 0 /\ nsh_ctx2 nt = 0 /\ nsh_ctx3 nt = 0
        /\ nsh_ctx4 nt = 0).
Proof.
  rewrite make_nsh_mdtype1_pack.
  destruct (pack_uint_cases 4 (Z.shiftl nsh_spi 8 + nsh_si))
    as [[R E] | [R E]]; rewrite E; cbn [mbind result_bind];
    change (256 ^ Z.of_nat 4) with 4294967296 in R.
  - split; [split; [intros _; exact R | intros _; eauto]|].
    split; [intros N; contradiction|].
    intros Hspi Hsi.
    eexists _, _. split; [reflexivity|].
    split.
    { rewrite !length_app, length_be_encode. reflexivity. }
    split.
    { apply new_nsh_bytes; [apply length_be_encode | reflexivity]. }
    destruct (sph_split _ R) as [E1 E2].
    destruct (shiftl8_add_split nsh_spi nsh_si Hsi) as [D1 D2].
    unfold get_nsh_spi, get_nsh_si. cbn [nsh_sph nsh_flags_length
      nsh_md_type nsh_np nsh_ctx1 nsh_ctx2 nsh_ctx3 nsh_ctx4].
    rewrite be_decode_encode
      by (change (256 ^ Z.of_nat 4) with 4294967296; exact R).
    rewrite E1, E2. repeat split; try assumption; reflexivity.
  - split; [split; [intros [h [=]] | intros N; contradiction]|].
    split; [reflexivity|].
    intros Hspi Hsi. exfalso. apply R.
    apply shiftl8_add_range; assumption.
Qed.

Lemma make_nsh_mdtype1_header_witness :
  make_nsh_mdtype1 100 5 = Ok (sample_nsh x64 x05)
  /\ make_nsh_mdtype1 16777216 0 = Raise StructError.
Proof.
  split.
  - destruct (proj2 (proj2 (make_nsh_mdtype1_header 100 5)))
      as (h & nt & E & _); [lia | lia |].
    rewrite E. vm_compute in E. injection E as <-. reflexivity.
  - apply (proj1 (proj2 (make_nsh_mdtype1_header 16777216 0))).
    vm_compute. intros [_ H]. discriminate H.
Defined.

Lemma pack_nsh_cases (nt : StructNshHeader) (v : Z) :
  well_formed nt ->
  pack (replace_nsh_sph nt v)
  = b ← pack_uint 4 v;
    Ok (be_encode 2 (nsh_flags_length nt) ++ be_encode 1 (nsh_md_type nt)
        ++ be_encode 1 (nsh_np nt) ++ b ++ be_encode 4 (nsh_ctx1 nt)
        ++ be_encode 4 (nsh_ctx2 nt) ++ be_encode 4 (nsh_ctx3 nt)
        ++ be_encode 4 (nsh_ctx4 nt)).
Proof.
  destruct nt as [f m n s c1 c2 c3 c4]. unfold well_formed. cbn.
  intros (Hf & Hm & Hn & Hs & H1 & H2 & H3 & H4 & _).
  unfold pack. cbn.
  rewrite (pack_uint_ok 2 f), (pack_uint_ok 1 m), (pack_uint_ok 1 n),
    (pack_uint_ok 4 c1), (pack_uint_ok 4 c2), (pack_uint_ok 4 c3),
    (pack_uint_ok 4 c4) by (cbn; lia).
  cbn. destruct (pack_uint 4 v); cbn; [|reflexivity].
  rewrite app_nil_r. reflexivity.
Qed.

Lemma make_nsh_decr_si_replace (nsh_header : bytes) (nt : StructNshHeader) :
  new StructNshHeader nsh_header = Ok nt ->
  make_nsh_decr_si nsh_header = pack (replace_nsh_sph nt (nsh_sph nt - 1)).
Proof. intros E. rewrite (make_nsh_decr_si_pack _ _ E). reflexivity. Qed.

(** X11.  [make_nsh_decr_si] treats the service path header as one 32-bit
    counter.  It raises [struct.error] on a header that is not 24 bytes
    long, and on one whose SPI and SI are both 0.  Otherwise the header it
    returns parses to the input's service path header minus one: with SI
    0 and SPI at least 1 that is SPI - 1 with SI 255. *)
Theorem make_nsh_decr_si_borrows (nsh_header : bytes) :
  (length nsh_header <> 24%nat ->
   make_nsh_decr_si nsh_header = Raise StructError)
  /\ (forall nt, new StructNshHeader nsh_header = Ok nt ->
      (nsh_sph nt = 0 ->
       get_nsh_spi nt = 0 /\ get_nsh_si nt = 0
       /\ make_nsh_decr_si nsh_header = Raise StructError)
      /\ (1 <= nsh_sph nt ->
          exists out nt',
            make_nsh_decr_si nsh_header = Ok out
            /\ new StructNshHeader out = Ok nt'
            /\ nt' = replace_nsh_sph nt (nsh_sph nt - 1)
            /\ (get_nsh_si nt = 0 ->
                1 <= get_nsh_spi nt
                /\ get_nsh_spi nt' = get_nsh_spi nt - 1
                /\ get_nsh_si nt' = 255))).
Proof.
  split.
  - intros L. unfold make_nsh_decr_si.
    rewrite (new_error (T := StructNshHeader)) by exact L. reflexivity.
  - intros nt E.
    pose proof (nsh_sph_range _ _ E) as Hsph.
    pose proof (new_well_formed _ _ E) as Hwf.
    rewrite (make_nsh_decr_si_replace _ _ E).
    destruct (sph_split _ Hsph) as [Ehi Elo].
    split.
    + intros Z0. unfold get_nsh_spi, get_nsh_si. rewrite Ehi, Elo, Z0.
      split; [reflexivity|]. split; [reflexivity|].
      rewrite (pack_nsh_cases _ _ Hwf).
      destruct (pack_uint_cases 4 (0 - 1)) as [[R _] | [_ ->]];
        [lia | reflexivity].
    + intros Hpos.
      assert (Hwf' : well_formed (replace_nsh_sph nt (nsh_sph nt - 1))).
      { destruct nt as [f m n s c1 c2 c3 c4]. unfold well_formed in *.
        cbn in *. lia. }
      destruct (new_pack _ Hwf') as (out & Ep & En).
      exists out, (replace_nsh_sph nt (nsh_sph nt - 1)).
      split; [exact Ep|]. split; [exact En|]. split; [reflexivity|].
      intros Hsi0. unfold get_nsh_si in Hsi0. rewrite Elo in Hsi0.
      assert (R : 0 <= nsh_sph nt - 1 < 4294967296) by lia.
      destruct (sph_split _ R) as [Ehi' Elo'].
      unfold get_nsh_spi, get_nsh_si. cbn [replace_nsh_sph nsh_sph].
      rewrite Ehi, Ehi', Elo'.
      pose proof (Z.div_mod (nsh_sph nt) 256 ltac:(lia)) as D.
      pose proof (Z.div_mod (nsh_sph nt - 1) 256 ltac:(lia)) as D'.
      pose proof (Z.mod_pos_bound (nsh_sph nt - 1) 256 ltac:(lia)) as B'.
      lia.
Qed.

Lemma make_nsh_decr_si_borrows_witness :
  make_nsh_decr_si (sample_nsh x00 x00) = Raise StructError
  /\ make_nsh_decr_si (sample_nsh x01 x00) = Ok (sample_nsh x00 xff).
Proof.
  split.
  - apply (proj2 (make_nsh_decr_si_borrows (sample_nsh x00 x00))
             {| nsh_flags_length := 6; nsh_md_type := 1; nsh_np := 3;
                nsh_sph := 0; nsh_ctx1 := 0; nsh_ctx2 := 0;
                nsh_ctx3 := 0; nsh_ctx4 := 0 |} eq_refl).
    reflexivity.
  - destruct (proj2 (proj2 (make_nsh_decr_si_borrows (sample_nsh x01 x00))
                       {| nsh_flags_length := 6; nsh_md_type := 1;
                          nsh_np := 3; nsh_sph := 256; nsh_ctx1 := 0;
                          nsh_ctx2 := 0; nsh_ctx3 := 0; nsh_ctx4 := 0 |}
                       eq_refl) ltac:(cbn; lia))
      as (out & nt' & E & _).
    rewrite E. vm_compute in E. injection E as <-. reflexivity.
Defined.

(** X12.  Decrementing the header built for SPI [spi] and SI [si] gives
    the header built for [spi] and [si - 1], for a 24-bit SPI and an SI
    from 1 to 255. *)
Theorem make_nsh_decr_si_of_mdtype1 (nsh_spi nsh_si : Z) :
  0 <= nsh_spi < 16777216 ->
  1 <= nsh_si < 256 ->
  make_nsh_mdtype1 nsh_spi nsh_si ≫= make_nsh_decr_si
  = make_nsh_mdtype1 nsh_spi (nsh_si - 1)
  /\ exists h, make_nsh_mdtype1 nsh_spi (nsh_si - 1) = Ok h.
Proof.
  intros Hspi Hsi.
  pose proof (shiftl8_add_range nsh_spi nsh_si Hspi ltac:(lia)) as R.
  pose proof (shiftl8_add_range nsh_spi (nsh_si - 1) Hspi ltac:(lia)) as R'.
  rewrite !make_nsh_mdtype1_pack.
  rewrite (pack_uint_ok 4 (Z.shiftl nsh_spi 8 + nsh_si))
    by (change (256 ^ Z.of_nat 4) with 4294967296; exact R).
  rewrite (pack_uint_ok 4 (Z.shiftl nsh_spi 8 + (nsh_si - 1)))
    by (change (256 ^ Z.of_nat 4) with 4294967296; exact R').
  cbn [mbind result_bind]. split; [|eauto].
  erewrite make_nsh_decr_si_replace
    by (apply new_nsh_bytes; [apply length_be_encode | reflexivity]).
  rewrite pack_nsh_cases.
  - cbn [nsh_sph nsh_flags_length nsh_md_type nsh_np nsh_ctx1 nsh_ctx2
         nsh_ctx3 nsh_ctx4].
    rewrite be_decode_encode
      by (change (256 ^ Z.of_nat 4) with 4294967296; exact R).
    replace (Z.shiftl nsh_spi 8 + nsh_si - 1)
      with (Z.shiftl nsh_spi 8 + (nsh_si - 1)) by lia.
    rewrite (pack_uint_ok 4 (Z.shiftl nsh_spi 8 + (nsh_si - 1)))
      by (change (256 ^ Z.of_nat 4) with 4294967296; exact R').
    reflexivity.
  - unfold well_formed. cbn.
    rewrite be_decode_encode
      by (change (256 ^ Z.of_nat 4) with 4294967296; exact R).
    change (be_decode [x00; x06]) with 6.
    change (be_decode [x01]) with 1. change (be_decode [x03]) with 3.
    change (be_decode [x00; x00; x00; x00]) with 0. lia.
Qed.

Lemma make_nsh_decr_si_of_mdtype1_witness :
  make_nsh_mdtype1 100 5 ≫= make_nsh_decr_si = Ok (sample_nsh x64 x04).
Proof.
  destruct (make_nsh_decr_si_of_mdtype1 100 5) as [E [h Eh]];
    [lia | lia |].
  rewrite E. vm_compute. reflexivity.
Defined.

(** ** TCP flags *)

Lemma land_pow2 (a k : Z) :
  0 <= k -> Z.land a (2 ^ k) = if Z.testbit a k then 2 ^ k else 0.
Proof.
  intros Hk. apply Z.bits_inj'. intros n Hn.
  rewrite Z.land_spec, Z.pow2_bits_eqb by lia.
  destruct (Z.eqb_spec k n) as [->|Hne].
  - destruct (Z.testbit a n) eqn:E; cbn.
    + rewrite Z.pow2_bits_eqb, Z.eqb_refl by lia. reflexivity.
    + rewrite Z.bits_0. reflexivity.
  - rewrite andb_false_r. destruct (Z.testbit a k).
    + rewrite Z.pow2_bits_eqb by lia.
      symmetry. apply Z.eqb_neq. exact Hne.
    + rewrite Z.bits_0. reflexivity.
Qed.

Lemma flag_test (a k : Z) :
  0 <= k -> (Z.land a (2 ^ k) >? 0) = Z.testbit a k.
Proof.
  intros Hk. rewrite land_pow2 by exact Hk.
  pose proof (Z.pow_pos_nonneg 2 k ltac:(lia) Hk).
  destruct (Z.testbit a k); [apply Z.gtb_lt; lia | reflexivity].
Qed.

Lemma low_bits_eq (a b : Z) :
  (forall i, 0 <= i < 6 -> Z.testbit a i = Z.testbit b i) ->
  a mod 64 = b mod 64.
Proof.
  intros H. apply Z.bits_inj'. intros n Hn.
  change 64 with (2 ^ 6).
  destruct (Z.lt_ge_cases n 6).
  - rewrite !Z.mod_pow2_bits_low by lia. apply H. lia.
  - rewrite !Z.mod_pow2_bits_high by lia. reflexivity.
Qed.

Lemma parse_tcp_flags_testbits (flags : Z) :
  parse_tcp_flags flags
  = (Z.testbit flags 0, Z.testbit flags 1, Z.testbit flags 2,
     Z.testbit flags 3, Z.testbit flags 4, Z.testbit flags 5).
Proof.
  unfold parse_tcp_flags. cbv zeta.
  change (Z.shiftl 1 1) with (2 ^ 1). change (Z.shiftl 1 2) with (2 ^ 2).
  change (Z.shiftl 1 3) with (2 ^ 3). change (Z.shiftl 1 4) with (2 ^ 4).
  change (Z.shiftl 1 5) with (2 ^ 5). change 1 with (2 ^ 0) at 1.
  rewrite !flag_test by lia. reflexivity.
Qed.

(** X13.  [parse_tcp_flags] returns bits 0 to 5 of its argument, in the
    order FIN, SYN, RST, PSH, ACK, URG, for any integer; the higher bits
    do not matter, and two arguments give the same six flags exactly when
    they agree modulo 64. *)
Theorem parse_tcp_flags_bits (flags : Z) :
  parse_tcp_flags flags
  = (Z.testbit flags 0, Z.testbit flags 1, Z.testbit flags 2,
     Z.testbit flags 3, Z.testbit flags 4, Z.testbit flags 5)
  /\ parse_tcp_flags (flags mod 64) = parse_tcp_flags flags
  /\ (forall flags',
        parse_tcp_flags flags' = parse_tcp_flags flags
        <-> flags' mod 64 = flags mod 64).
Proof.
  pose proof parse_tcp_flags_testbits as E.
  assert (M : forall f i, 0 <= i < 6 ->
              Z.testbit (f mod 64) i = Z.testbit f i).
  { intros f i Hi. change 64 with (2 ^ 6).
    apply Z.mod_pow2_bits_low. lia. }
  split; [apply E|]. split.
  - rewrite !E, !M by lia. reflexivity.
  - intros flags'. rewrite !E. split.
    + intros [= H0 H1 H2 H3 H4 H5]. apply low_bits_eq. intros i Hi.
      assert (i = 0 \/ i = 1 \/ i = 2 \/ i = 3 \/ i = 4 \/ i = 5)
        as [->|[->|[->|[->|[->| ->]]]]] by lia; assumption.
    + intros H.
      rewrite <- (M flags' 0), <- (M flags' 1), <- (M flags' 2),
        <- (M flags' 3), <- (M flags' 4), <- (M flags' 5) by lia.
      rewrite H. rewrite !M by lia. reflexivity.
Qed.

(** X14.  [get_tcp_flags_str] writes six characters, one per flag in the
    order URG, ACK, PSH, RST, SYN, FIN, and different flag tuples give
    different strings. *)
Theorem get_tcp_flags_str_injective
    (fin syn rst psh ack urg fin' syn' rst' psh' ack' urg' : bool) :
  String.length (get_tcp_flags_str fin syn rst psh ack urg) = 6%nat
  /\ (get_tcp_flags_str fin syn rst psh ack urg
      = get_tcp_flags_str fin' syn' rst' psh' ack' urg'
      <-> (fin, syn, rst, psh, ack, urg)
          = (fin', syn', rst', psh', ack', urg')).
Proof.
  split; [destruct fin, syn, rst, psh, ack, urg; reflexivity|].
  split; [|intros [= -> -> -> -> -> ->]; reflexivity].
  destruct urg, urg'; try (intros [=]; fail).
  all: destruct ack, ack'; try (intros [=]; fail).
  all: destruct psh, psh'; try (intros [=]; fail).
  all: destruct rst, rst'; try (intros [=]; fail).
  all: destruct syn, syn'; try (intros [=]; fail).
  all: destruct fin, fin'; try (intros [=]; fail).
  all: reflexivity.
Qed.

(** ** Rewriting the TCP base header *)

Lemma tcp_header_bytes (h : bytes) (nt : StructTcpHeaderWithoutOptions) :
  new StructTcpHeaderWithoutOptions h = Ok nt ->
  length h = 20%nat
  /\ tcp_src_port nt = be_decode (firstn 2 h)
  /\ tcp_dst_port nt = be_decode (slice 2 4 h)
  /\ tcp_seq_number nt = be_decode (slice 4 8 h)
  /\ tcp_ack nt = be_decode (slice 8 12 h)
  /\ tcp_byte_data_offset nt = be_decode (slice 12 13 h)
  /\ tcp_flags nt = be_decode (slice 13 14 h)
  /\ tcp_win_size nt = be_decode (slice 14 16 h)
  /\ tcp_checksum nt = be_decode (slice 16 18 h)
  /\ tcp_urgent_ptr nt = be_decode (slice 18 20 h).
Proof.
  intros E. pose proof (new_length _ _ E) as L. cbn in L.
  split; [exact L|]. revert E. explode h L. intros E.
  cbn in E. injection E as <-. cbn. repeat split; reflexivity.
Qed.

Lemma pack_tcp_bytes (a b c d e f g h i : Z) :
  pack {| tcp_src_port := a; tcp_dst_port := b; tcp_seq_number := c;
          tcp_ack := d; tcp_byte_data_offset := e; tcp_flags := f;
          tcp_win_size := g; tcp_checksum := h; tcp_urgent_ptr := i |}
  = (ba ← pack_uint 2 a; bb ← pack_uint 2 b; bc ← pack_uint 4 c;
     bd ← pack_uint 4 d; be ← pack_uint 1 e; bf ← pack_uint 1 f;
     bg ← pack_uint 2 g; bh ← pack_uint 2 h; bi ← pack_uint 2 i;
     Ok (ba ++ bb ++ bc ++ bd ++ be ++ bf ++ bg ++ bh ++ bi)).
Proof.
  unfold pack. cbn.
  destruct (pack_uint 2 a); [|reflexivity].
  destruct (pack_uint 2 b); [|reflexivity].
  destruct (pack_uint 4 c); [|reflexivity].
  destruct (pack_uint 4 d); [|reflexivity].
  destruct (pack_uint 1 e); [|reflexivity].
  destruct (pack_uint 1 f); [|reflexivity].
  destruct (pack_uint 2 g); [|reflexivity].
  destruct (pack_uint 2 h); [|reflexivity].
  destruct (pack_uint 2 i); [|reflexivity].
  cbn. rewrite app_nil_r. reflexivity.
Qed.

Lemma pack_uint_Ok_inv (n : nat) (v : Z) (b : bytes) :
  pack_uint n v = Ok b -> 0 <= v < 256 ^ Z.of_nat n /\ b = be_encode n v.
Proof.
  destruct (pack_uint_cases n v) as [[R E] | [R E]]; rewrite E;
    [intros [= <-]; auto | discriminate].
Qed.

Lemma pack_replace_tcp_ack (nt : StructTcpHeaderWithoutOptions) (v : Z)
    (h out : bytes) :
  pack nt = Ok h -> pack (replace_tcp_ack nt v) = Ok out ->
  out = firstn 8 h ++ be_encode 4 v ++ skipn 12 h.
Proof.
  destruct nt as [a b c d e f g hh i]. unfold replace_tcp_ack.
  cbn [tcp_src_port tcp_dst_port tcp_seq_number tcp_ack
       tcp_byte_data_offset tcp_flags tcp_win_size tcp_checksum
       tcp_urgent_ptr].
  rewrite !pack_tcp_bytes. intros H1 H2.
  bind_step H1 ba Ea. bind_step H1 bb Eb. bind_step H1 bc Ec.
  bind_step H1 bd Ed. bind_step H1 be Ee. bind_step H1 bf Ef.
  bind_step H1 bg Eg. bind_step H1 bh Eh. bind_step H1 bi Ei.
  rewrite Ea, Eb, Ec, Ee, Ef, Eg, Eh, Ei in H2. cbn in H2.
  bind_step H2 bd' Ed'. injection H1 as <-. injection H2 as <-.
  apply pack_uint_Ok_inv in Ed' as [_ ->].
  apply pack_uint_length in Ea, Eb, Ec, Ed.
  explode ba Ea. explode bb Eb. explode bc Ec. explode bd Ed.
  reflexivity.
Qed.

Lemma pack_replace_tcp_seq_number (nt : StructTcpHeaderWithoutOptions)
    (v : Z) (h out : bytes) :
  pack nt = Ok h -> pack (replace_tcp_seq_number nt v) = Ok out ->
  out = firstn 4 h ++ be_encode 4 v ++ skipn 8 h.
Proof.
  destruct nt as [a b c d e f g hh i]. unfold replace_tcp_seq_number.
  cbn [tcp_src_port tcp_dst_port tcp_seq_number tcp_ack
       tcp_byte_data_offset tcp_flags tcp_win_size tcp_checksum
       tcp_urgent_ptr].
  rewrite !pack_tcp_bytes. intros H1 H2.
  bind_step H1 ba Ea. bind_step H1 bb Eb. bind_step H1 bc Ec.
  bind_step H1 bd Ed. bind_step H1 be Ee. bind_step H1 bf Ef.
  bind_step H1 bg Eg. bind_step H1 bh Eh. bind_step H1 bi Ei.
  rewrite Ea, Eb, Ed, Ee, Ef, Eg, Eh, Ei in H2. cbn in H2.
  bind_step H2 bc' Ec'. cbn in H2.
  injection H1 as <-. injection H2 as <-.
  apply pack_uint_Ok_inv in Ec' as [_ ->].
  apply pack_uint_length in Ea, Eb, Ec.
  explode ba Ea. explode bb Eb. explode bc Ec.
  reflexivity.
Qed.

Lemma replace_tcp_ack_well_formed (nt : StructTcpHeaderWithoutOptions)
    (v : Z) :
  well_formed nt ->
  (well_formed (replace_tcp_ack nt v) <-> 0 <= v < 4294967296).
Proof.
  destruct nt as [a b c d e f g hh i]. unfold well_formed. cbn. tauto.
Qed.

Lemma replace_tcp_seq_number_well_formed
    (nt : StructTcpHeaderWithoutOptions) (v : Z) :
  well_formed nt ->
  (well_formed (replace_tcp_seq_number nt v) <-> 0 <= v < 4294967296).
Proof.
  destruct nt as [a b c d e f g hh i]. unfold well_formed. cbn. tauto.
Qed.

Lemma pack_ill_formed (T : Type) `{MetaStructLaws T} (x : T) :
  ~ well_formed x ->
  forall b, pack x = Ok b -> new T b <> Ok x.
Proof.
  intros N b Ep En. apply N. exact (new_well_formed b x En).
Qed.

Lemma replace_tcp_ack_same (nt : StructTcpHeaderWithoutOptions) :
  replace_tcp_ack nt (tcp_ack nt) = nt.
Proof. destruct nt; reflexivity. Qed.

Lemma replace_tcp_seq_number_same (nt : StructTcpHeaderWithoutOptions) :
  replace_tcp_seq_number nt (tcp_seq_number nt) = nt.
Proof. destruct nt; reflexivity. Qed.

Lemma make_tpc_hdr_ack_pack (h : bytes) (port n : Z)
    (nt : StructTcpHeaderWithoutOptions) :
  new StructTcpHeaderWithoutOptions h = Ok nt ->
  make_tpc_hdr_ack h port n
  = pack (replace_tcp_ack nt
            (if Z.testbit (tcp_flags nt) 4 && negb (Z.testbit (tcp_flags nt) 1)
             then tcp_ack nt - n else tcp_ack nt)).
Proof.
  intros E. unfold make_tpc_hdr_ack. rewrite E. cbn [mbind result_bind].
  cbv zeta. rewrite parse_tcp_flags_testbits. cbv beta iota.
  destruct (Z.testbit (tcp_flags nt) 4), (Z.testbit (tcp_flags nt) 1);
    reflexivity.
Qed.

Lemma make_tpc_hdr_seq_pack (h : bytes) (port n : Z)
    (nt : StructTcpHeaderWithoutOptions) :
  new StructTcpHeaderWithoutOptions h = Ok nt ->
  make_tpc_hdr_seq h port n
  = pack (replace_tcp_seq_number nt
            (if Z.testbit (tcp_flags nt) 4 && negb (Z.testbit (tcp_flags nt) 1)
             then tcp_seq_number nt + n else tcp_seq_number nt)).
Proof.
  intros E. unfold make_tpc_hdr_seq. rewrite E. cbn [mbind result_bind].
  cbv zeta. rewrite parse_tcp_flags_testbits. cbv beta iota.
  destruct (Z.testbit (tcp_flags nt) 4), (Z.testbit (tcp_flags nt) 1);
    reflexivity.
Qed.

Lemma pack_raises_ill_formed_ack (nt : StructTcpHeaderWithoutOptions)
    (v : Z) :
  well_formed nt -> ~ 0 <= v < 4294967296 ->
  pack (replace_tcp_ack nt v) = Raise StructError.
Proof.
  destruct nt as [a b c d e f g hh i]. intros Hwf N.
  unfold well_formed in Hwf. cbn in Hwf.
  destruct Hwf as (Ha & Hb & Hc & Hd & He & Hf & Hg & Hh & Hi & _).
  unfold replace_tcp_ack.
  cbn [tcp_src_port tcp_dst_port tcp_seq_number tcp_ack
       tcp_byte_data_offset tcp_flags tcp_win_size tcp_checksum
       tcp_urgent_ptr].
  rewrite pack_tcp_bytes.
  rewrite (pack_uint_ok 2 a), (pack_uint_ok 2 b), (pack_uint_ok 4 c)
    by (cbn; lia).
  cbn [mbind result_bind].
  destruct (pack_uint_cases 4 v) as [[R _] | [_ ->]]; [|reflexivity].
  exfalso. apply N. exact R.
Qed.

Lemma pack_raises_ill_formed_seq (nt : StructTcpHeaderWithoutOptions)
    (v : Z) :
  well_formed nt -> ~ 0 <= v < 4294967296 ->
  pack (replace_tcp_seq_number nt v) = Raise StructError.
Proof.
  destruct nt as [a b c d e f g hh i]. intros Hwf N.
  unfold well_formed in Hwf. cbn in Hwf.
  destruct Hwf as (Ha & Hb & Hc & Hd & He & Hf & Hg & Hh & Hi & _).
  unfold replace_tcp_seq_number.
  cbn [tcp_src_port tcp_dst_port tcp_seq_number tcp_ack
       tcp_byte_data_offset tcp_flags tcp_win_size tcp_checksum
       tcp_urgent_ptr].
  rewrite pack_tcp_bytes.
  rewrite (pack_uint_ok 2 a), (pack_uint_ok 2 b) by (cbn; lia).
  cbn [mbind result_bind].
  destruct (pack_uint_cases 4 v) as [[R _] | [_ ->]]; [|reflexivity].
  exfalso. apply N. exact R.
Qed.

(** X15.  [make_tpc_hdr_ack] raises [struct.error] unless the header has
    20 bytes.  When the ACK flag is clear or the SYN flag is set it
    returns the header unchanged.  When ACK is set and SYN is clear it
    returns the header with bytes 8 to 11 replaced by the acknowledgment
    number minus [num_bytes_added], every other byte kept, provided the
    difference is a 32-bit value; when the difference is negative or above
    [2^32 - 1] it raises [struct.error]: the number does not wrap. *)
Theorem make_tpc_hdr_ack_rewrites (h : bytes) (port n : Z) :
  (length h <> 20%nat -> make_tpc_hdr_ack h port n = Raise StructError)
  /\ (forall nt, new StructTcpHeaderWithoutOptions h = Ok nt ->
      let ack_not_syn :=
        Z.testbit (tcp_flags nt) 4 && negb (Z.testbit (tcp_flags nt) 1) in
      (ack_not_syn = false -> make_tpc_hdr_ack h port n = Ok h)
      /\ (ack_not_syn = true -> 0 <= tcp_ack nt - n < 4294967296 ->
          make_tpc_hdr_ack h port n
          = Ok (firstn 8 h ++ be_encode 4 (tcp_ack nt - n) ++ skipn 12 h)
          /\ new StructTcpHeaderWithoutOptions
               (firstn 8 h ++ be_encode 4 (tcp_ack nt - n) ++ skipn 12 h)
             = Ok (replace_tcp_ack nt (tcp_ack nt - n)))
      /\ (ack_not_syn = true -> ~ 0 <= tcp_ack nt - n < 4294967296 ->
          make_tpc_hdr_ack h port n = Raise StructError)).
Proof.
  split.
  - intros L. unfold make_tpc_hdr_ack.
    rewrite (new_error (T := StructTcpHeaderWithoutOptions)) by exact L.
    reflexivity.
  - intros nt E b.
    pose proof (new_well_formed _ _ E) as Hwf.
    pose proof (pack_new _ _ E) as Eh.
    rewrite (make_tpc_hdr_ack_pack _ _ _ _ E). fold b.
    split; [|split].
    + intros ->. rewrite replace_tcp_ack_same. exact Eh.
    + intros -> R.
      destruct (new_pack _ (proj2 (replace_tcp_ack_well_formed nt _ Hwf) R))
        as (out & Ep & En).
      pose proof (pack_replace_tcp_ack _ _ _ _ Eh Ep) as Eo.
      rewrite <- Eo. split; assumption.
    + intros -> N. apply pack_raises_ill_formed_ack; assumption.
Qed.

Lemma make_tpc_hdr_ack_rewrites_witness :
  let h := [x00; x50; x9c; x40; x00; x00; x00; x07; x00; x00; x00; x02;
            x50; x10; xff; xff; x00; x00; x00; x00] in
  make_tpc_hdr_ack h 80 3 = Raise StructError
  /\ make_tpc_hdr_ack h 80 1
     = Ok [x00; x50; x9c; x40; x00; x00; x00; x07; x00; x00; x00; x01;
           x50; x10; xff; xff; x00; x00; x00; x00].
Proof.
  intros h.
  destruct (new_ok (T := StructTcpHeaderWithoutOptions) h) as [nt E];
    [reflexivity|].
  destruct (proj2 (make_tpc_hdr_ack_rewrites h 80 3) nt E) as (_ & _ & H3).
  destruct (proj2 (make_tpc_hdr_ack_rewrites h 80 1) nt E) as (_ & H1 & _).
  vm_compute in E. injection E as <-.
  split.
  - apply H3; [reflexivity | vm_compute; intros [H _]; apply H; reflexivity].
  - destruct H1 as [H1 _]; [reflexivity | vm_compute; split; congruence |].
    rewrite H1. vm_compute. reflexivity.
Defined.

(** X16.  [make_tpc_hdr_seq] raises [struct.error] unless the header has
    20 bytes.  When the ACK flag is clear or the SYN flag is set it
    returns the header unchanged.  When ACK is set and SYN is clear it
    returns the header with bytes 4 to 7 replaced by the sequence number
    plus [num_bytes_added], every other byte kept, provided the sum is a
    32-bit value; when the sum is negative or above [2^32 - 1] it raises
    [struct.error]: the number does not wrap. *)
Theorem make_tpc_hdr_seq_rewrites (h : bytes) (port n : Z) :
  (length h <> 20%nat -> make_tpc_hdr_seq h port n = Raise StructError)
  /\ (forall nt, new StructTcpHeaderWithoutOptions h = Ok nt ->
      let ack_not_syn :=
        Z.testbit (tcp_flags nt) 4 && negb (Z.testbit (tcp_flags nt) 1) in
      (ack_not_syn = false -> make_tpc_hdr_seq h port n = Ok h)
      /\ (ack_not_syn = true -> 0 <= tcp_seq_number nt + n < 4294967296 ->
          make_tpc_hdr_seq h port n
          = Ok (firstn 4 h ++ be_encode 4 (tcp_seq_number nt + n)
                ++ skipn 8 h)
          /\ new StructTcpHeaderWithoutOptions
               (firstn 4 h ++ be_encode 4 (tcp_seq_number nt + n)
                ++ skipn 8 h)
             = Ok (replace_tcp_seq_number nt (tcp_seq_number nt + n)))
      /\ (ack_not_syn = true ->
          ~ 0 <= tcp_seq_number nt + n < 4294967296 ->
          make_tpc_hdr_seq h port n = Raise StructError)).
Proof.
  split.
  - intros L. unfold make_tpc_hdr_seq.
    rewrite (new_error (T := StructTcpHeaderWithoutOptions)) by exact L.
    reflexivity.
  - intros nt E b.
    pose proof (new_well_formed _ _ E) as Hwf.
    pose proof (pack_new _ _ E) as Eh.
    rewrite (make_tpc_hdr_seq_pack _ _ _ _ E). fold b.
    split; [|split].
    + intros ->. rewrite replace_tcp_seq_number_same. exact Eh.
    + intros -> R.
      destruct (new_pack _
                  (proj2 (replace_tcp_seq_number_well_formed nt _ Hwf) R))
        as (out & Ep & En).
      pose proof (pack_replace_tcp_seq_number _ _ _ _ Eh Ep) as Eo.
      rewrite <- Eo. split; assumption.
    + intros -> N. apply pack_raises_ill_formed_seq; assumption.
Qed.

Lemma make_tpc_hdr_seq_rewrites_witness :
  let h := [x00; x50; x9c; x40; xff; xff; xff; xfe; x00; x00; x00; x02;
            x50; x10; xff; xff; x00; x00; x00; x00] in
  make_tpc_hdr_seq h 80 2 = Raise StructError
  /\ make_tpc_hdr_seq h 80 1
     = Ok [x00; x50; x9c; x40; xff; xff; xff; xff; x00; x00; x00; x02;
           x50; x10; xff; xff; x00; x00; x00; x00].
Proof.
  intros h.
  destruct (new_ok (T := StructTcpHeaderWithoutOptions) h) as [nt E];
    [reflexivity|].
  destruct (proj2 (make_tpc_hdr_seq_rewrites h 80 2) nt E) as (_ & _ & H2).
  destruct (proj2 (make_tpc_hdr_seq_rewrites h 80 1) nt E) as (_ & H1 & _).
  vm_compute in E. injection E as <-.
  split.
  - apply H2; [reflexivity | vm_compute; intros [_ H]; discriminate H].
  - destruct H1 as [H1 _]; [reflexivity | vm_compute; split; congruence |].
    rewrite H1. vm_compute. reflexivity.
Defined.

(** X17.  The five predicates on a TCP base header raise [struct.error]
    unless the header has 20 bytes.  On a 20-byte header [get_tpc_sync]
    is bit 1 and [need_reset_tcp_connection] bit 2 of byte 13;
    [goes_from_server_to_client] compares the port with bytes 0-1 and
    [goes_from_client_to_server] with bytes 2-3, both big-endian, and
    [has_correct_port] is their disjunction. *)
Theorem tcp_header_predicates (h : bytes) (port : Z) :
  (length h <> 20%nat ->
   get_tpc_sync h = Raise StructError
   /\ need_reset_tcp_connection h = Raise StructError
   /\ goes_from_server_to_client h port = Raise StructError
   /\ goes_from_client_to_server h port = Raise StructError
   /\ has_correct_port h port = Raise StructError)
  /\ (length h = 20%nat ->
      get_tpc_sync h = Ok (Z.testbit (be_decode (slice 13 14 h)) 1)
      /\ need_reset_tcp_connection h
         = Ok (Z.testbit (be_decode (slice 13 14 h)) 2)
      /\ goes_from_server_to_client h port
         = Ok (port =? be_decode (firstn 2 h))
      /\ goes_from_client_to_server h port
         = Ok (port =? be_decode (slice 2 4 h))
      /\ has_correct_port h port
         = (a ← goes_from_server_to_client h port;
            b ← goes_from_client_to_server h port;
            Ok (a || b))).
Proof.
  unfold get_tpc_sync, need_reset_tcp_connection, goes_from_server_to_client,
    goes_from_client_to_server, has_correct_port.
  split.
  - intros L.
    rewrite (new_error (T := StructTcpHeaderWithoutOptions)) by exact L.
    repeat split; reflexivity.
  - intros L.
    destruct (new_ok (T := StructTcpHeaderWithoutOptions) h) as [nt E];
      [exact L|].
    destruct (tcp_header_bytes _ _ E)
      as (_ & <- & <- & _ & _ & _ & <- & _).
    rewrite E. cbn [mbind result_bind]. cbv zeta.
    rewrite parse_tcp_flags_testbits. repeat split; reflexivity.
Qed.

Lemma tcp_header_predicates_witness :
  get_tpc_sync (firstn 20 (skipn 34 sample_forward)) = Ok true
  /\ goes_from_client_to_server (firstn 20 (skipn 34 sample_forward)) 80
     = Ok true
  /\ get_tpc_sync (firstn 19 (skipn 34 sample_forward)) = Raise StructError.
Proof.
  destruct (proj2 (tcp_header_predicates
                     (firstn 20 (skipn 34 sample_forward)) 80) eq_refl)
    as (E1 & _ & _ & E2 & _).
  destruct (proj1 (tcp_header_predicates
                     (firstn 19 (skipn 34 sample_forward)) 80))
    as (E3 & _); [cbn; lia|].
  rewrite E1, E2, E3. repeat split; vm_compute; reflexivity.
Defined.

(** ** The pipelines as a whole *)

Lemma send_all_wire (sckt : Socket) (new_pkt : bytes) (w : World) :
  exists chunks,
    wire (outcome_world (send_all sckt new_pkt w))
    = wire w ++ map (fun c => (sckt, c)) chunks.
Proof.
  unfold send_all.
  destruct (drain (send_results w) new_pkt) as [[chunks ?] u].
  exists chunks. destruct u; reflexivity.
Qed.

Lemma test_found_sends (frame : bytes) (eth : StructEthHeader)
    (ip : StructIpHeader) (tcp : StructTcpHeaderWithoutOptions)
    (B : Bundle)
    (outer_eth outer_ip udp vxlan eth_nsh nsh : bytes)
    (eth_swapped ip_swapped eth_nsh_swapped nsh_decremented : bytes)
    (sckt : Socket) (w : World) :
  bare_headers frame = Ok (Some (eth, ip, tcp)) ->
  sessions w !! flow_swapped_key eth ip tcp = Some B ->
  sessions_reply_info w !! flow_swapped_key eth ip tcp
  = Some (outer_eth, outer_ip, udp, vxlan, eth_nsh, nsh) ->
  make_nsh_decr_si nsh = Ok nsh_decremented ->
  make_ethernet_header_swap outer_eth = Ok eth_swapped ->
  make_ip_header_swap outer_ip = Ok ip_swapped ->
  make_ethernet_header_swap eth_nsh = Ok eth_nsh_swapped ->
  parse_frame_and_encapsulate_test frame sckt w
  = send_all sckt
      (eth_swapped ++ ip_swapped ++ udp ++ vxlan ++ eth_nsh_swapped
       ++ nsh_decremented ++ frame) w.
Proof.
  intros Hb Hk Hr E1 E2 E3 E4.
  unfold parse_frame_and_encapsulate_test. rewrite Hb. cbv beta iota zeta.
  unfold Bundle in *. rewrite Hk, Hr. cbv beta iota.
  rewrite E1, E2, E3, E4. reflexivity.
Qed.

(** X18.  Let the tables hold bundles as the decap pipeline stores them,
    let a bare frame on unencap-out parse as Ethernet 0x0800, IPv4
    protocol 6 and TCP, and let its swapped key be in both tables, the
    NSH of the [sessions_reply_info] bundle having a Service Index of at
    least 1.  Then [parse_frame_and_encapsulate_test] sends on the encap
    socket exactly: the reply bundle's outer Ethernet header with its
    addresses exchanged, its outer IPv4 header with its addresses
    exchanged, its UDP and VXLAN-GPE headers as stored, its NSH-carrying
    Ethernet header with its addresses exchanged, its NSH with the Service
    Index one less, and the input frame.  The [sessions] bundle is not
    used and both tables are unchanged.  The sends are assumed to take at
    least a byte each. *)
Theorem reverse_encap_rebuilds_frame
    (frame : bytes) (eth : StructEthHeader) (ip : StructIpHeader)
    (tcp : StructTcpHeaderWithoutOptions) (B : Bundle)
    (outer_eth outer_ip udp vxlan eth_nsh nsh : bytes)
    (nt : StructNshHeader) (w : World) :
  tables_wf w ->
  bare_headers frame = Ok (Some (eth, ip, tcp)) ->
  sessions w !! flow_swapped_key eth ip tcp = Some B ->
  sessions_reply_info w !! flow_swapped_key eth ip tcp
  = Some (outer_eth, outer_ip, udp, vxlan, eth_nsh, nsh) ->
  new StructNshHeader nsh = Ok nt ->
  1 <= get_nsh_si nt ->
  Forall (fun r => (1 <= r)%nat) (send_results w) ->
  (88 + length frame <= length (send_results w))%nat ->
  exists chunks w',
    parse_frame_and_encapsulate_test frame sckt_encap w = Returned w'
    /\ wire w' = wire w ++ map (fun c => (sckt_encap, c)) chunks
    /\ concat chunks
       = (slice 6 12 outer_eth ++ slice 0 6 outer_eth
          ++ slice 12 14 outer_eth)
         ++ (firstn 12 outer_ip ++ slice 16 20 outer_ip
             ++ slice 12 16 outer_ip)
         ++ udp ++ vxlan
         ++ (slice 6 12 eth_nsh ++ slice 0 6 eth_nsh ++ slice 12 14 eth_nsh)
         ++ (firstn 7 nsh ++ [byte_of_Z (get_nsh_si nt - 1)] ++ skipn 8 nsh)
         ++ frame
    /\ sessions w' = sessions w
    /\ sessions_reply_info w' = sessions_reply_info w.
Proof.
  intros [_ Hs] Hb Hk Hr Hnt Hsi Hpos Hlen.
  pose proof (Hs _ _ Hr) as Hwf. cbn in Hwf.
  destruct Hwf as (L1 & L2 & L3 & L4 & L5 & L6).
  rewrite (test_found_sends _ _ _ _ _ _ _ _ _ _ _ _ _ _ _ _ _
             Hb Hk Hr (make_nsh_decr_si_bytes _ _ Hnt Hsi)
             (make_ethernet_header_swap_bytes _ L1)
             (make_ip_header_swap_bytes _ L2)
             (make_ethernet_header_swap_bytes _ L5)).
  assert (M : forall h : bytes, length h = 14%nat ->
              length (slice 6 12 h ++ slice 0 6 h ++ slice 12 14 h)
              = 14%nat).
  { intros h L. unfold slice.
    rewrite !length_app, !length_take, !length_drop. lia. }
  assert (M2 : length (firstn 12 outer_ip ++ slice 16 20 outer_ip
                       ++ slice 12 16 outer_ip) = 20%nat).
  { unfold slice. rewrite !length_app, !length_take, !length_drop. lia. }
  assert (M3 : length (firstn 7 nsh ++ [byte_of_Z (get_nsh_si nt - 1)]
                       ++ skipn 8 nsh) = 24%nat).
  { rewrite !length_app, length_take, length_drop. cbn [length]. lia. }
  match goal with
  | |- context [send_all _ ?p _] =>
      assert (Hn : (length p <= length (send_results w))%nat)
  end.
  { rewrite length_app, (M _ L1), length_app, M2, length_app, L3,
      length_app, L4, length_app, (M _ L5), length_app, M3. lia. }
  destruct (send_all_ok sckt_encap _ w Hpos Hn)
    as (chunks & unused & E & Hcat & _).
  exists chunks. eexists. split; [exact E|].
  cbn [wire sessions sessions_reply_info]. auto.
Qed.

Lemma reverse_encap_rebuilds_frame_witness :
  exists chunks w',
    parse_frame_and_encapsulate_test sample_reply sckt_encap
      (replied_world x64 x05 (repeat 1%nat 142)) = Returned w'
    /\ wire w' = map (fun c => (sckt_encap, c)) chunks
    /\ concat chunks
       = (sample_mac_c ++ sample_mac_d ++ [x08; x00])
         ++ (firstn 12 sample_outer_ip
             ++ [xc0; xa8; x01; x02] ++ [xc0; xa8; x01; x01])
         ++ sample_udp ++ sample_vxlan
         ++ (sample_mac_c ++ sample_mac_d ++ [x89; x4f])
         ++ sample_nsh x64 x04 ++ sample_reply.
Proof.
  destruct (reverse_encap_rebuilds_frame sample_reply sample_reply_eth
              sample_reply_ip sample_reply_tcp (sample_bundle x64 x05)
              sample_outer_eth sample_outer_ip sample_udp sample_vxlan
              sample_eth_nsh (sample_nsh x64 x05)
              {| nsh_flags_length := 6; nsh_md_type := 1; nsh_np := 3;
                 nsh_sph := 0x6405; nsh_ctx1 := 0; nsh_ctx2 := 0;
                 nsh_ctx3 := 0; nsh_ctx4 := 0 |}
              (replied_world x64 x05 (repeat 1%nat 142)))
    as (chunks & w' & E & Hw & Hc & _).
  - split; apply map_Forall_singleton; vm_compute; repeat split; reflexivity.
  - vm_compute. reflexivity.
  - apply lookup_singleton_eq.
  - apply lookup_singleton_eq.
  - vm_compute. reflexivity.
  - vm_compute. discriminate.
  - cbn. repeat constructor.
  - cbn. lia.
  - exists chunks, w'. split; [exact E|]. split; [exact Hw|].
    rewrite Hc. vm_compute. reflexivity.
Defined.

Lemma worker_rel (R : World -> World -> Prop)
    (body : bytes -> World -> Outcome) :
  (forall w, R w w) ->
  (forall a b c, R a b -> R b c -> R a c) ->
  (forall frame w, R w (outcome_world (body frame w))) ->
  forall frames w, R w (outcome_world (worker body frames w)).
Proof.
  intros Hrefl Htrans Hbody frames.
  induction frames as [|frame frames IH]; intros w; [apply Hrefl|].
  cbn [worker]. pose proof (Hbody frame w) as H.
  destruct (body frame w) as [w1|e w1|w1]; cbn [outcome_world] in *;
    [|exact H|exact H].
  exact (Htrans _ _ _ H (IH w1)).
Qed.

Lemma sent_only_refl (P : Socket -> Prop) (w : World) : sent_only P w w.
Proof. exists []. rewrite app_nil_r. auto. Qed.

Lemma sent_only_trans (P : Socket -> Prop) (a b c : World) :
  sent_only P a b -> sent_only P b c -> sent_only P a c.
Proof.
  intros (s1 & E1 & F1) (s2 & E2 & F2). exists (s1 ++ s2).
  rewrite E2, E1, app_assoc. split; [reflexivity|].
  apply Forall_app; auto.
Qed.

Lemma send_all_sent_only (P : Socket -> Prop) (sckt : Socket)
    (new_pkt : bytes) (w : World) :
  P sckt -> sent_only P w (outcome_world (send_all sckt new_pkt w)).
Proof.
  intros HP. destruct (send_all_wire sckt new_pkt w) as [chunks E].
  exists (map (fun c => (sckt, c)) chunks). split; [exact E|].
  apply Forall_map. apply Forall_forall. intros c _. exact HP.
Qed.

Lemma encap_body_kept (frame : bytes) (sckt : Socket) (w : World) :
  let w' := outcome_world (parse_frame_and_encapsulate frame sckt w) in
  tables_kept w w' /\ sent_only (fun s => s = sckt) w w'.
Proof.
  assert (K : tables_kept w w /\ sent_only (fun s => s = sckt) w w)
    by (split; [split; reflexivity | apply sent_only_refl]).
  unfold parse_frame_and_encapsulate.
  destruct (bare_headers frame) as [[[[eth ip] tcp]|]|e0]; try exact K.
  cbv zeta.
  destruct (sessions w !! flow_key eth ip tcp)
    as [[[[[[b1 b2] b3] b4] b5] b6]|]; try exact K.
  match goal with
  | |- context [match ?m with Ok _ => _ | Raise _ => _ end] =>
      destruct m as [p|?]; try exact K
  end.
  split; [exact (send_all_tables _ _ _)|].
  apply send_all_sent_only. reflexivity.
Qed.

Lemma test_body_kept (frame : bytes) (sckt : Socket) (w : World) :
  let w' := outcome_world (parse_frame_and_encapsulate_test frame sckt w) in
  tables_kept w w' /\ sent_only (fun s => s = sckt) w w'.
Proof.
  assert (K : tables_kept w w /\ sent_only (fun s => s = sckt) w w)
    by (split; [split; reflexivity | apply sent_only_refl]).
  unfold parse_frame_and_encapsulate_test.
  destruct (bare_headers frame) as [[[[eth ip] tcp]|]|e0]; try exact K.
  cbv zeta.
  destruct (sessions w !! flow_swapped_key eth ip tcp); try exact K.
  destruct (sessions_reply_info w !! flow_swapped_key eth ip tcp)
    as [[[[[[b1 b2] b3] b4] b5] b6]|]; try exact K.
  match goal with
  | |- context [match ?m with Ok _ => _ | Raise _ => _ end] =>
      destruct m as [p|?]; try exact K
  end.
  split; [exact (send_all_tables _ _ _)|].
  apply send_all_sent_only. reflexivity.
Qed.

(** X19.  Neither [encapsulating_loop] nor [test_loop] ever writes to
    [sessions] or [sessions_reply_info], whatever frames arrive and
    however the loop ends (blocked on the next frame, killed by an
    exception, or inside a send): the tables are those it started with,
    and everything it sent went to the encap socket. *)
Theorem encap_loops_keep_tables (frames : list bytes) (w : World) :
  (let w' := outcome_world (encapsulating_loop frames w) in
   tables_kept w w' /\ sent_only (fun s => s = sckt_encap) w w')
  /\ (let w' := outcome_world (test_loop frames w) in
      tables_kept w w' /\ sent_only (fun s => s = sckt_encap) w w').
Proof.
  set (R := fun a b : World =>
              tables_kept a b /\ sent_only (fun s => s = sckt_encap) a b).
  assert (Hrefl : forall a, R a a)
    by (intros a; split; [split; reflexivity | apply sent_only_refl]).
  assert (Htrans : forall a b c, R a b -> R b c -> R a c).
  { intros a b c [[A1 A2] A3] [[B1 B2] B3]. split.
    - split; congruence.
    - exact (sent_only_trans _ _ _ _ A3 B3). }
  split.
  - apply (worker_rel R _ Hrefl Htrans).
    intros frame w0. apply encap_body_kept.
  - apply (worker_rel R _ Hrefl Htrans).
    intros frame w0. apply test_body_kept.
Qed.

Lemma decap_body_grows (frame : bytes) (w : World) :
  let w' :=
    outcome_world (parse_frame_and_deencapsulate frame sckt_unencap_out w) in
  tables_grow w w'
  /\ sent_only (fun s => s <> sckt_encap) w w'
  /\ (replies_primed w -> replies_primed w').
Proof.
  assert (K : tables_grow w w /\ sent_only (fun s => s <> sckt_encap) w w
              /\ (replies_primed w -> replies_primed w))
    by (split; [split; auto | split; [apply sent_only_refl | auto]]).
  unfold parse_frame_and_deencapsulate.
  destruct (decap_headers frame) as [[d|]|e]; try exact K.
  cbv zeta.
  destruct (bool_decide (is_Some (sessions w !! decap_swapped_key d)))
    eqn:Hdec; cbn [negb].
  - apply bool_decide_eq_true_1 in Hdec.
    match goal with
    | |- context [send_all ?sk ?pk ?wk] =>
        destruct (send_all_tables sk pk wk) as [Es Er];
        pose proof (send_all_sent_only (fun x => x <> sckt_encap) sk pk wk
                      ltac:(discriminate)) as Hw
    end.
    cbn [sessions sessions_reply_info wire] in Es, Er, Hw.
    split; [|split].
    + split; intros k Hk; [rewrite Es; exact Hk|].
      rewrite Er. destruct (decide (k = decap_swapped_key d)) as [->|Hne].
      * rewrite lookup_insert_eq. eauto.
      * rewrite lookup_insert_ne by congruence. exact Hk.
    + exact Hw.
    + intros Hinv k. rewrite Er, Es.
      destruct (decide (k = decap_swapped_key d)) as [->|Hne].
      * intros _. exact Hdec.
      * rewrite lookup_insert_ne by congruence. apply Hinv.
  - match goal with
    | |- context [send_all ?sk ?pk ?wk] =>
        destruct (send_all_tables sk pk wk) as [Es Er];
        pose proof (send_all_sent_only (fun x => x <> sckt_encap) sk pk wk
                      ltac:(discriminate)) as Hw
    end.
    cbn [sessions sessions_reply_info wire] in Es, Er, Hw.
    split; [|split].
    + split; intros k Hk; [|rewrite Er; exact Hk].
      rewrite Es. destruct (decide (k = decap_key d)) as [->|Hne].
      * rewrite lookup_insert_eq. eauto.
      * rewrite lookup_insert_ne by congruence. exact Hk.
    + exact Hw.
    + intros Hinv k. rewrite Er, Es. intros Hk.
      destruct (decide (k = decap_key d)) as [->|Hne].
      * rewrite lookup_insert_eq. eauto.
      * rewrite lookup_insert_ne by congruence. apply Hinv. exact Hk.
Qed.

(** X20.  [unencapsulating_loop] only adds to the tables: a key present
    in [sessions] or [sessions_reply_info] stays present, whatever frames
    arrive and however the loop ends; nothing it sends goes to the encap
    socket; and it keeps every key of [sessions_reply_info] a key of
    [sessions], so starting from empty tables reply information exists
    only for primed flows. *)
Theorem decap_loop_grows_tables (frames : list bytes) (w : World) :
  let w' := outcome_world (unencapsulating_loop frames w) in
  tables_grow w w'
  /\ sent_only (fun s => s <> sckt_encap) w w'
  /\ (replies_primed w -> replies_primed w').
Proof.
  set (R := fun a b : World =>
              tables_grow a b
              /\ sent_only (fun s => s <> sckt_encap) a b
              /\ (replies_primed a -> replies_primed b)).
  assert (Hrefl : forall a, R a a)
    by (intros a; split; [split; auto | split; [apply sent_only_refl|auto]]).
  assert (Htrans : forall a b c, R a b -> R b c -> R a c).
  { intros a b c ([A1 A2] & A3 & A4) ([B1 B2] & B3 & B4).
    split; [split; auto|].
    split; [exact (sent_only_trans _ _ _ _ A3 B3) | auto]. }
  apply (worker_rel R _ Hrefl Htrans).
  intros frame w0. apply decap_body_grows.
Qed.

Lemma decap_loop_grows_tables_witness :
  replies_primed
    (outcome_world
       (unencapsulating_loop
          [sample_encapsulated x64 x05 sample_forward;
           sample_encapsulated x64 x03 sample_reply]
          (empty_world (repeat 1%nat 200)))).
Proof.
  apply (decap_loop_grows_tables
           [sample_encapsulated x64 x05 sample_forward;
            sample_encapsulated x64 x03 sample_reply]
           (empty_world (repeat 1%nat 200))).
  intros k [B HB]. cbn in HB. rewrite lookup_empty in HB. discriminate.
Defined.

Lemma decap_inner_bare (frame : bytes) (d : Decapsulated) :
  decap_headers frame = Ok (Some d) ->
  eth_type (inner_eth_header_nt d) = 0x0800 ->
  ip_protocol (inner_ip_header_nt d) = 6 ->
  bare_headers (nsh_payload d)
  = Ok (Some (inner_eth_header_nt d, inner_ip_header_nt d,
              inner_tcp_header_nt d)).
Proof.
  unfold decap_headers, parse_ethernet, parse_udp, parse_vxlan_gpe,
    parse_nsh. cbv zeta. intros H.
  bind_step H oe E1.
  destruct (Z.eqb_spec (eth_type oe) 0x0800) as [T1|]; [|discriminate].
  bind_step H ipp E2. destruct ipp as [iph ipp]. cbv beta iota in H.
  bind_step H ip E3.
  destruct (Z.eqb_spec (ip_protocol ip) 17) as [T2|]; [|discriminate].
  bind_step H udp E4.
  destruct (Z.eqb_spec (udp_dst_port udp) 4790) as [T3|]; [|discriminate].
  bind_step H vx E5. bind_step H en E6. bind_step H nsh E7.
  bind_step H ie E8.
  bind_step H iipp E9. destruct iipp as [iiph iipp]. cbv beta iota in H.
  bind_step H iip E10.
  bind_step H tcpp E11. destruct tcpp as [[tcph tcpo] tcpl].
  cbv beta iota in H.
  bind_step H tcp E12.
  injection H as <-.
  cbn [nsh_payload inner_eth_header_nt inner_ip_header_nt
       inner_tcp_header_nt].
  intros T4 T5.
  unfold bare_headers, parse_ethernet. cbv zeta.
  change (8 + 16)%nat with 24%nat in *.
  rewrite E8. cbn [mbind result_bind]. rewrite T4. cbn [Z.eqb Pos.eqb].
  rewrite E9. cbn [mbind result_bind]. cbv beta iota.
  rewrite E10. cbn [mbind result_bind]. rewrite T5. cbn [Z.eqb Pos.eqb].
  rewrite E11. cbn [mbind result_bind]. cbv beta iota.
  rewrite E12. reflexivity.
Qed.

Lemma swapped_lengths (outer_eth outer_ip nsh : bytes) (v : Z) :
  length outer_eth = 14%nat -> length outer_ip = 20%nat ->
  length nsh = 24%nat ->
  length (slice 6 12 outer_eth ++ slice 0 6 outer_eth
          ++ slice 12 14 outer_eth) = 14%nat
  /\ length (firstn 12 outer_ip ++ slice 16 20 outer_ip
             ++ slice 12 16 outer_ip) = 20%nat
  /\ length (firstn 7 nsh ++ [byte_of_Z v] ++ skipn 8 nsh) = 24%nat.
Proof.
  intros L1 L2 L3. unfold slice. split; [|split].
  - rewrite !length_app, !length_take, !length_drop. lia.
  - rewrite !length_app, !length_take, !length_drop. lia.
  - rewrite !length_app, length_take, length_drop. cbn [length]. lia.
Qed.

(** X21.  Decap followed by encap sends the frame back re-addressed.  Let
    a frame from the encap interface parse through the whole stack with
    an inner IPv4/TCP frame, a flow not seen in the other direction and an
    NSH Service Index of at least 1.  After [parse_frame_and_deencapsulate]
    forwarded the inner frame on unencap-out, [parse_frame_and_encapsulate]
    on that same inner frame finds the flow and sends on encap the
    received outer headers with the outer Ethernet and IPv4 addresses
    exchanged and the Service Index one less, followed by the inner frame:
    a frame of the length of the one received.  The sends are assumed to
    take at least a byte each. *)
Theorem decap_then_encap (frame : bytes) (d : Decapsulated)
    (nt : StructNshHeader) (w : World) :
  decap_headers frame = Ok (Some d) ->
  eth_type (inner_eth_header_nt d) = 0x0800 ->
  ip_protocol (inner_ip_header_nt d) = 6 ->
  sessions w !! decap_swapped_key d = None ->
  new StructNshHeader (nsh_header d) = Ok nt ->
  1 <= get_nsh_si nt ->
  Forall (fun r => (1 <= r)%nat) (send_results w) ->
  (length frame + length (nsh_payload d) <= length (send_results w))%nat ->
  exists w1 w2 chunks1 chunks2,
    parse_frame_and_deencapsulate frame sckt_unencap_out w = Returned w1
    /\ parse_frame_and_encapsulate (nsh_payload d) sckt_encap w1
       = Returned w2
    /\ wire w2
       = wire w ++ map (fun c => (sckt_unencap_out, c)) chunks1
         ++ map (fun c => (sckt_encap, c)) chunks2
    /\ concat chunks1 = nsh_payload d
    /\ frame
       = outer_eth_header d ++ ip_header d ++ udp_header d
         ++ vxlan_header d ++ eth_nsh_header d ++ nsh_header d
         ++ nsh_payload d
    /\ concat chunks2
       = (slice 6 12 (outer_eth_header d) ++ slice 0 6 (outer_eth_header d)
          ++ slice 12 14 (outer_eth_header d))
         ++ (firstn 12 (ip_header d) ++ slice 16 20 (ip_header d)
             ++ slice 12 16 (ip_header d))
         ++ udp_header d ++ vxlan_header d ++ eth_nsh_header d
         ++ (firstn 7 (nsh_header d) ++ [byte_of_Z (get_nsh_si nt - 1)]
             ++ skipn 8 (nsh_header d))
         ++ nsh_payload d
    /\ length (concat chunks2) = length frame.
Proof.
  intros Hd T4 T5 Hk Hnt Hsi Hpos Hlen.
  destruct (decap_headers_Some _ _ Hd) as (Hframe & Hwf & _).
  pose proof (decap_inner_bare _ _ Hd T4 T5) as Hb.
  unfold decap_bundle in Hwf. cbn in Hwf.
  destruct Hwf as (L1 & L2 & L3 & L4 & L5 & L6).
  destruct (swapped_lengths _ _ _ (get_nsh_si nt - 1) L1 L2 L6)
    as (M1 & M2 & M3).
  assert (Lf : length frame = (88 + length (nsh_payload d))%nat).
  { rewrite <- Hframe. rewrite !length_app. lia. }
  rewrite (decap_forward _ _ _ _ Hd Hk).
  match goal with
  | |- context [send_all sckt_unencap_out ?p ?w0] =>
      destruct (send_all_ok sckt_unencap_out p w0 Hpos ltac:(cbn; lia))
        as (chunks1 & unused & E1 & Hc1 & _ & Hn1 & Hsplit)
  end.
  cbn [sessions sessions_reply_info wire send_results] in E1, Hsplit.
  rewrite E1.
  set (w1 := {| sessions := <[decap_key d:=decap_bundle d]> (sessions w);
                sessions_reply_info := sessions_reply_info w;
                wire := wire w
                        ++ map (fun c => (sckt_unencap_out, c)) chunks1;
                send_results := unused |}).
  assert (Hpos1 : Forall (fun r => (1 <= r)%nat) (send_results w1)).
  { cbn. rewrite Hsplit in Hpos. apply Forall_app in Hpos as [_ H].
    exact H. }
  assert (Hlen1 : (88 + length (nsh_payload d)
                   <= length (send_results w1))%nat).
  { cbn. apply (f_equal length) in Hsplit.
    rewrite length_app, length_take in Hsplit. lia. }
  assert (Hk1 : sessions w1 !! flow_key (inner_eth_header_nt d)
                  (inner_ip_header_nt d) (inner_tcp_header_nt d)
                = Some (outer_eth_header d, ip_header d, udp_header d,
                        vxlan_header d, eth_nsh_header d, nsh_header d)).
  { cbn. apply lookup_insert_eq. }
  pose proof (encap_found_sends _ _ _ _ _ _ _ _ _ _ _ _ _ sckt_encap w1
                Hb Hk1 (make_ethernet_header_swap_bytes _ L1)
                (make_ip_header_swap_bytes _ L2)
                (make_nsh_decr_si_bytes _ _ Hnt Hsi)) as E2.
  match type of E2 with
  | _ = send_all _ ?p _ =>
      assert (Hn : (length p <= length (send_results w1))%nat)
  end.
  { rewrite length_app, M1, length_app, M2, length_app, L3, length_app, L4,
      length_app, L5, length_app, M3. lia. }
  destruct (send_all_ok sckt_encap _ w1 Hpos1 Hn)
    as (chunks2 & unused2 & E3 & Hc2 & _).
  rewrite E3 in E2.
  exists w1. eexists. exists chunks1, chunks2.
  split; [reflexivity|]. split; [exact E2|].
  subst w1. cbn [wire]. split; [rewrite <- app_assoc; reflexivity|].
  split; [exact Hc1|]. split; [symmetry; exact Hframe|].
  split; [exact Hc2|].
  rewrite Hc2, Lf.
  rewrite length_app, M1, length_app, M2, length_app, L3, length_app, L4,
    length_app, L5, length_app, M3. lia.
Qed.

Lemma decap_then_encap_witness :
  exists w1 w2 (chunks1 chunks2 : list bytes),
    parse_frame_and_deencapsulate
      (sample_encapsulated x64 x05 sample_forward) sckt_unencap_out
      (empty_world (repeat 1%nat 200)) = Returned w1
    /\ parse_frame_and_encapsulate sample_forward sckt_encap w1
       = Returned w2
    /\ concat chunks1 = sample_forward
    /\ length (concat chunks2) = 142%nat.
Proof.
  destruct (decap_then_encap
              (sample_encapsulated x64 x05 sample_forward)
              (sample_decapsulated x64 x05)
              {| nsh_flags_length := 6; nsh_md_type := 1; nsh_np := 3;
                 nsh_sph := 0x6405; nsh_ctx1 := 0; nsh_ctx2 := 0;
                 nsh_ctx3 := 0; nsh_ctx4 := 0 |}
              (empty_world (repeat 1%nat 200)))
    as (w1 & w2 & c1 & c2 & E1 & E2 & _ & Hc1 & _ & _ & Hl).
  - vm_compute. reflexivity.
  - reflexivity.
  - reflexivity.
  - apply lookup_empty.
  - vm_compute. reflexivity.
  - vm_compute. discriminate.
  - cbn. repeat constructor.
  - cbn. lia.
  - exists w1, w2, c1, c2. auto.
Defined.

(** ** Bare frames the encap pipelines do not forward *)

Lemma bare_headers_not_ip (frame : bytes) (eth : StructEthHeader) :
  new StructEthHeader (parse_ethernet frame).1 = Ok eth ->
  eth_type eth <> 0x0800 ->
  bare_headers frame = Ok None.
Proof.
  intros E1 T1. unfold bare_headers. unfold parse_ethernet in *.
  cbn [fst snd] in E1. cbv zeta. rewrite E1. cbn [mbind result_bind].
  destruct (Z.eqb_spec (eth_type eth) 0x0800); [contradiction|reflexivity].
Qed.

Lemma bare_headers_not_tcp (frame : bytes) (eth : StructEthHeader)
    (ip_header ip_payload : bytes) (ip : StructIpHeader) :
  new StructEthHeader (parse_ethernet frame).1 = Ok eth ->
  eth_type eth = 0x0800 ->
  parse_ip (parse_ethernet frame).2 = Ok (ip_header, ip_payload) ->
  new StructIpHeader ip_header = Ok ip ->
  ip_protocol ip <> 6 ->
  bare_headers frame = Ok None.
Proof.
  intros E1 T1 E2 E3 T2. unfold bare_headers. unfold parse_ethernet in *.
  cbn [fst snd] in E1, E2. cbv zeta. rewrite E1. cbn [mbind result_bind].
  rewrite T1. cbn [Z.eqb Pos.eqb]. rewrite E2. cbn [mbind result_bind].
  cbv beta iota. rewrite E3. cbn [mbind result_bind].
  destruct (Z.eqb_spec (ip_protocol ip) 6); [contradiction|reflexivity].
Qed.

Lemma bare_headers_short_tcp (frame : bytes) (eth : StructEthHeader)
    (ip_header ip_payload : bytes) (ip : StructIpHeader) :
  new StructEthHeader (parse_ethernet frame).1 = Ok eth ->
  eth_type eth = 0x0800 ->
  parse_ip (parse_ethernet frame).2 = Ok (ip_header, ip_payload) ->
  new StructIpHeader ip_header = Ok ip ->
  ip_protocol ip = 6 ->
  (length ip_payload < 20)%nat ->
  bare_headers frame = Raise StructError.
Proof.
  intros E1 T1 E2 E3 T2 L. unfold bare_headers. unfold parse_ethernet in *.
  cbn [fst snd] in E1, E2. cbv zeta. rewrite E1. cbn [mbind result_bind].
  rewrite T1. cbn [Z.eqb Pos.eqb]. rewrite E2. cbn [mbind result_bind].
  cbv beta iota. rewrite E3. cbn [mbind result_bind].
  rewrite T2. cbn [Z.eqb Pos.eqb].
  unfold parse_tcp. cbv zeta.
  rewrite (new_error (T := StructTcpHeaderWithoutOptions)); [reflexivity|].
  cbn. rewrite length_take. lia.
Qed.

Lemma bare_headers_short (frame : bytes) :
  (length frame < 14)%nat -> bare_headers frame = Raise StructError.
Proof.
  intros L. unfold bare_headers, parse_ethernet. cbv zeta.
  rewrite (new_error (T := StructEthHeader)); [reflexivity|].
  cbn. rewrite length_take. lia.
Qed.

Lemma encap_bodies_of_bare (frame : bytes) (sckt : Socket) (w : World) :
  (bare_headers frame = Ok None ->
   parse_frame_and_encapsulate frame sckt w = Returned w
   /\ parse_frame_and_encapsulate_test frame sckt w = Returned w)
  /\ (forall e, bare_headers frame = Raise e ->
      parse_frame_and_encapsulate frame sckt w = Raised e w
      /\ parse_frame_and_encapsulate_test frame sckt w = Raised e w).
Proof.
  unfold parse_frame_and_encapsulate, parse_frame_and_encapsulate_test.
  split; [intros -> | intros e ->]; split; reflexivity.
Qed.

(** ** Bare frames the encap pipelines do not forward, byte by byte *)

Lemma parse_ip_nonempty (packet : bytes) :
  packet <> [] ->
  parse_ip packet
  = Ok (firstn (Z.to_nat (Z.land (byte_to_Z (nth 0 packet x00)) 0x0F * 4))
          packet,
        skipn (Z.to_nat (Z.land (byte_to_Z (nth 0 packet x00)) 0x0F * 4))
          packet).
Proof. destruct packet; [contradiction|]. reflexivity. Qed.

Lemma bare_headers_no_ip (frame : bytes) (eth : StructEthHeader) :
  new StructEthHeader (parse_ethernet frame).1 = Ok eth ->
  eth_type eth = 0x0800 ->
  (parse_ethernet frame).2 = [] ->
  bare_headers frame = Raise IndexError.
Proof.
  intros E1 T1 E2. unfold bare_headers. unfold parse_ethernet in *.
  cbn [fst snd] in E1, E2. cbv zeta. rewrite E1. cbn [mbind result_bind].
  rewrite T1. cbn [Z.eqb Pos.eqb]. rewrite E2. reflexivity.
Qed.

Lemma bare_headers_ip_length (frame : bytes) (eth : StructEthHeader)
    (ip_header ip_payload : bytes) :
  new StructEthHeader (parse_ethernet frame).1 = Ok eth ->
  eth_type eth = 0x0800 ->
  parse_ip (parse_ethernet frame).2 = Ok (ip_header, ip_payload) ->
  length ip_header <> 20%nat ->
  bare_headers frame = Raise StructError.
Proof.
  intros E1 T1 E2 L. unfold bare_headers. unfold parse_ethernet in *.
  cbn [fst snd] in E1, E2. cbv zeta. rewrite E1. cbn [mbind result_bind].
  rewrite T1. cbn [Z.eqb Pos.eqb]. rewrite E2. cbn [mbind result_bind].
  cbv beta iota.
  rewrite (new_error (T := StructIpHeader)); [reflexivity|exact L].
Qed.

Lemma bare_headers_tcp (frame : bytes) (eth : StructEthHeader)
    (ip_header ip_payload : bytes) (ip : StructIpHeader)
    (tcp : StructTcpHeaderWithoutOptions) :
  new StructEthHeader (parse_ethernet frame).1 = Ok eth ->
  eth_type eth = 0x0800 ->
  parse_ip (parse_ethernet frame).2 = Ok (ip_header, ip_payload) ->
  new StructIpHeader ip_header = Ok ip ->
  ip_protocol ip = 6 ->
  new StructTcpHeaderWithoutOptions (firstn 20 ip_payload) = Ok tcp ->
  bare_headers frame = Ok (Some (eth, ip, tcp)).
Proof.
  intros E1 T1 E2 E3 T2 E4. unfold bare_headers. unfold parse_ethernet in *.
  cbn [fst snd] in E1, E2. cbv zeta. rewrite E1. cbn [mbind result_bind].
  rewrite T1. cbn [Z.eqb Pos.eqb]. rewrite E2. cbn [mbind result_bind].
  cbv beta iota. rewrite E3. cbn [mbind result_bind].
  rewrite T2. cbn [Z.eqb Pos.eqb].
  unfold parse_tcp. cbv zeta. rewrite E4. cbn [mbind result_bind].
  cbv beta iota. rewrite E4. reflexivity.
Qed.

Lemma bare_headers_cases (frame : bytes) :
  let ethertype := be_decode (slice 12 14 frame) in
  let ip_packet := skipn 14 frame in
  let ip_header_length :=
    Nat.min
      (Z.to_nat (Z.land (byte_to_Z (nth 0 ip_packet x00)) 0x0F * 4))
      (length ip_packet) in
  let ip_proto := be_decode (slice 23 24 frame) in
  ((length frame < 14)%nat -> bare_headers frame = Raise StructError)
  /\ ((14 <= length frame)%nat -> ethertype <> 0x0800 ->
      bare_headers frame = Ok None)
  /\ (length frame = 14%nat -> ethertype = 0x0800 ->
      bare_headers frame = Raise IndexError)
  /\ ((14 < length frame)%nat -> ethertype = 0x0800 ->
      ip_header_length <> 20%nat ->
      bare_headers frame = Raise StructError)
  /\ ((14 < length frame)%nat -> ethertype = 0x0800 ->
      ip_header_length = 20%nat -> ip_proto <> 6 ->
      bare_headers frame = Ok None)
  /\ ((14 < length frame)%nat -> ethertype = 0x0800 ->
      ip_header_length = 20%nat -> ip_proto = 6 ->
      (length frame < 54)%nat ->
      bare_headers frame = Raise StructError)
  /\ ((54 <= length frame)%nat -> ethertype = 0x0800 ->
      ip_header_length = 20%nat -> ip_proto = 6 ->
      exists eth ip tcp,
        bare_headers frame = Ok (Some (eth, ip, tcp))
        /\ flow_key eth ip tcp
           = (slice 0 6 frame, slice 6 12 frame, ethertype,
              slice 30 34 frame, slice 26 30 frame,
              be_decode (slice 36 38 frame),
              be_decode (slice 34 36 frame))).
Proof.
  intros ethertype ip_packet ip_header_length ip_proto.
  split; [exact (bare_headers_short frame)|].
  assert (Heth : (14 <= length frame)%nat ->
                 exists eth,
                   new StructEthHeader (parse_ethernet frame).1 = Ok eth
                   /\ eth_type eth = ethertype).
  { intros L.
    destruct (new_after_take StructEthHeader frame) as [_ Hx].
    destruct Hx as [eth E]; [cbn; exact L|].
    exists eth. split; [exact E|].
    destruct (eth_header_fields _ _ E) as (_ & _ & F).
    rewrite slice_take in F by (cbn; lia). exact F. }
  assert (Hip : (14 < length frame)%nat ->
                parse_ip (parse_ethernet frame).2
                = Ok (firstn (Z.to_nat
                                (Z.land (byte_to_Z (nth 0 ip_packet x00))
                                   0x0F * 4)) ip_packet,
                      skipn (Z.to_nat
                               (Z.land (byte_to_Z (nth 0 ip_packet x00))
                                  0x0F * 4)) ip_packet)).
  { intros L. apply parse_ip_nonempty. unfold parse_ethernet. cbn [snd].
    intros E. unfold ip_packet in E.
    apply (f_equal length) in E. rewrite length_drop in E.
    cbn in E. lia. }
  set (n := Z.to_nat (Z.land (byte_to_Z (nth 0 ip_packet x00)) 0x0F * 4))
    in *.
  clearbody n.
  assert (Hipnt : (14 < length frame)%nat -> ip_header_length = 20%nat ->
                  exists ip,
                    new StructIpHeader (firstn n ip_packet) = Ok ip
                    /\ ip_protocol ip = ip_proto).
  { intros L L20.
    destruct (new_ok (T := StructIpHeader) (firstn n ip_packet)) as [ip E].
    { rewrite length_take. exact L20. }
    exists ip. split; [exact E|].
    destruct (ip_header_fields _ _ E) as (F & _ & _).
    subst ip_header_length ip_packet.
    rewrite slice_take, slice_drop in F by lia. exact F. }
  repeat match goal with |- _ /\ _ => split end.
  - intros L T. destruct (Heth L) as (eth & E & F).
    apply (bare_headers_not_ip _ _ E). congruence.
  - intros L T. destruct (Heth ltac:(lia)) as (eth & E & F).
    apply (bare_headers_no_ip _ _ E); [congruence|].
    unfold parse_ethernet. cbn [snd]. apply drop_ge. lia.
  - intros L T L20. destruct (Heth ltac:(lia)) as (eth & E & F).
    apply (bare_headers_ip_length _ _ _ _ E ltac:(congruence) (Hip L)).
    rewrite length_take. exact L20.
  - intros L T L20 P. destruct (Heth ltac:(lia)) as (eth & E & F).
    destruct (Hipnt L L20) as (ip & E3 & F3).
    apply (bare_headers_not_tcp _ _ _ _ _ E ltac:(congruence) (Hip L) E3).
    congruence.
  - intros L T L20 P L54. destruct (Heth ltac:(lia)) as (eth & E & F).
    destruct (Hipnt L L20) as (ip & E3 & F3).
    apply (bare_headers_short_tcp _ _ _ _ _ E ltac:(congruence) (Hip L) E3
             ltac:(congruence)).
    subst ip_header_length ip_packet. rewrite !length_drop in *. lia.
  - intros L T L20 P. destruct (Heth ltac:(lia)) as (eth & E & F).
    destruct (Hipnt ltac:(lia) L20) as (ip & E3 & F3).
    assert (Hn : n = 20%nat).
    { subst ip_header_length ip_packet. rewrite length_drop in L20. lia. }
    destruct (new_ok (T := StructTcpHeaderWithoutOptions)
                (firstn 20 (skipn n ip_packet))) as [tcp E4].
    { subst ip_packet. rewrite length_take, !length_drop.
      change (calcsize struct_fmt) with 20%nat. lia. }
    exists eth, ip, tcp.
    pose proof (bare_headers_tcp _ _ _ _ _ _ E ltac:(congruence)
                  (Hip ltac:(lia)) E3 ltac:(congruence) E4) as Hb.
    split; [exact Hb|].
    assert (Ht : parse_tcp (skipn n ip_packet)
                 = Ok (firstn 20 (skipn n ip_packet),
                       slice 20
                         (Z.to_nat (Z.shiftr (tcp_byte_data_offset tcp) 4
                                    * 4)) (skipn n ip_packet),
                       skipn (Z.to_nat
                                (Z.shiftr (tcp_byte_data_offset tcp) 4 * 4))
                         (skipn n ip_packet))).
    { unfold parse_tcp. cbv zeta. rewrite E4. reflexivity. }
    destruct (inner_headers_at frame eth _ _ _ _ _ ip tcp E
                (Hip ltac:(lia)) E3 Ht E4) as (_ & _ & _ & Hk).
    rewrite Hk. reflexivity.
Qed.

Lemma encap_bodies_unknown (frame : bytes) (eth : StructEthHeader)
    (ip : StructIpHeader) (tcp : StructTcpHeaderWithoutOptions)
    (sckt : Socket) (w : World) :
  bare_headers frame = Ok (Some (eth, ip, tcp)) ->
  (sessions w !! flow_key eth ip tcp = None ->
   parse_frame_and_encapsulate frame sckt w = Returned w)
  /\ (sessions w !! swap_key (flow_key eth ip tcp) = None ->
      parse_frame_and_encapsulate_test frame sckt w = Returned w).
Proof.
  intros Hb. split; intros Hk.
  - unfold parse_frame_and_encapsulate. rewrite Hb. cbv beta iota zeta.
    unfold Bundle in *. rewrite Hk. reflexivity.
  - unfold parse_frame_and_encapsulate_test. rewrite Hb.
    cbv beta iota zeta. rewrite swapped_key_is_swap.
    unfold Bundle in *. rewrite Hk. reflexivity.
Qed.

(** X22.  What [parse_frame_and_encapsulate] and
    [parse_frame_and_encapsulate_test] do with a bare frame, read off its
    bytes; the two agree up to the table lookup and the state is as it
    was in every case listed.  A frame shorter than 14 bytes raises
    [struct.error].  An ethertype other than 0x0800 returns.  Ethertype
    0x0800 with nothing after the Ethernet header raises [IndexError].
    An IP header, the first 4 x IHL bytes after the Ethernet header or
    what the frame has of them, that is not 20 bytes long raises
    [struct.error], whatever the protocol.  With a 20-byte IP header, a
    protocol other than 6 returns, and protocol 6 with a frame shorter
    than 54 bytes raises [struct.error].  Every other frame is looked up
    under the key read from its bytes: [parse_frame_and_encapsulate]
    returns when the key is not in [sessions], and
    [parse_frame_and_encapsulate_test] when the swapped key is not. *)
Theorem bare_frame_mismatch (frame : bytes) (sckt : Socket) (w : World) :
  let ethertype := be_decode (slice 12 14 frame) in
  let ip_packet := skipn 14 frame in
  let ip_header_length :=
    Nat.min
      (Z.to_nat (Z.land (byte_to_Z (nth 0 ip_packet x00)) 0x0F * 4))
      (length ip_packet) in
  let ip_proto := be_decode (slice 23 24 frame) in
  let k : Key :=
    (slice 0 6 frame, slice 6 12 frame, ethertype,
     slice 30 34 frame, slice 26 30 frame,
     be_decode (slice 36 38 frame), be_decode (slice 34 36 frame)) in
  let both (o : Outcome) :=
    parse_frame_and_encapsulate frame sckt w = o
    /\ parse_frame_and_encapsulate_test frame sckt w = o in
  ((length frame < 14)%nat -> both (Raised StructError w))
  /\ ((14 <= length frame)%nat -> ethertype <> 0x0800 -> both (Returned w))
  /\ (length frame = 14%nat -> ethertype = 0x0800 ->
      both (Raised IndexError w))
  /\ ((14 < length frame)%nat -> ethertype = 0x0800 ->
      ip_header_length <> 20%nat -> both (Raised StructError w))
  /\ ((14 < length frame)%nat -> ethertype = 0x0800 ->
      ip_header_length = 20%nat -> ip_proto <> 6 -> both (Returned w))
  /\ ((14 < length frame)%nat -> ethertype = 0x0800 ->
      ip_header_length = 20%nat -> ip_proto = 6 ->
      (length frame < 54)%nat -> both (Raised StructError w))
  /\ ((54 <= length frame)%nat -> ethertype = 0x0800 ->
      ip_header_length = 20%nat -> ip_proto = 6 ->
      (sessions w !! k = None ->
       parse_frame_and_encapsulate frame sckt w = Returned w)
      /\ (sessions w !! swap_key k = None ->
          parse_frame_and_encapsulate_test frame sckt w = Returned w)).
Proof.
  intros ethertype ip_packet ip_header_length ip_proto k both.
  destruct (encap_bodies_of_bare frame sckt w) as [Hnone Hraise].
  destruct (bare_headers_cases frame)
    as (C1 & C2 & C3 & C4 & C5 & C6 & C7).
  repeat match goal with |- _ /\ _ => split end; unfold both.
  - intros L. apply Hraise. exact (C1 L).
  - intros L T. apply Hnone. exact (C2 L T).
  - intros L T. apply Hraise. exact (C3 L T).
  - intros L T L20. apply Hraise. exact (C4 L T L20).
  - intros L T L20 P. apply Hnone. exact (C5 L T L20 P).
  - intros L T L20 P L54. apply Hraise. exact (C6 L T L20 P L54).
  - intros L T L20 P.
    destruct (C7 L T L20 P) as (eth & ip & tcp & Hb & Hk).
    pose proof (encap_bodies_unknown _ _ _ _ sckt w Hb) as H.
    rewrite Hk in H. exact H.
Qed.

Lemma bare_frame_mismatch_witness :
  parse_frame_and_encapsulate sample_arp sckt_encap
    (primed_world x64 x05 [])
  = Returned (primed_world x64 x05 [])
  /\ parse_frame_and_encapsulate_test sample_outer_eth sckt_encap
       (primed_world x64 x05 [])
     = Raised IndexError (primed_world x64 x05 [])
  /\ parse_frame_and_encapsulate sample_ip_options sckt_encap
       (primed_world x64 x05 [])
     = Raised StructError (primed_world x64 x05 [])
  /\ parse_frame_and_encapsulate_test (firstn 40 sample_reply) sckt_encap
       (primed_world x64 x05 [])
     = Raised StructError (primed_world x64 x05 [])
  /\ parse_frame_and_encapsulate sample_reply sckt_encap
       (primed_world x64 x05 [])
     = Returned (primed_world x64 x05 []).
Proof.
  repeat match goal with |- _ /\ _ => split end.
  - destruct (bare_frame_mismatch sample_arp sckt_encap
                (primed_world x64 x05 []))
      as (_ & H & _).
    apply H; [cbn; lia | vm_compute; discriminate].
  - destruct (bare_frame_mismatch sample_outer_eth sckt_encap
                (primed_world x64 x05 []))
      as (_ & _ & H & _).
    apply H; [reflexivity | vm_compute; reflexivity].
  - destruct (bare_frame_mismatch sample_ip_options sckt_encap
                (primed_world x64 x05 []))
      as (_ & _ & _ & H & _).
    apply H; [cbn; lia | vm_compute; reflexivity | vm_compute; lia].
  - destruct (bare_frame_mismatch (firstn 40 sample_reply) sckt_encap
                (primed_world x64 x05 []))
      as (_ & _ & _ & _ & _ & H & _).
    apply H;
      [cbn; lia | vm_compute; reflexivity | vm_compute; reflexivity
      | vm_compute; reflexivity | cbn; lia].
  - destruct (bare_frame_mismatch sample_reply sckt_encap
                (primed_world x64 x05 []))
      as (_ & _ & _ & _ & _ & _ & H).
    apply H;
      [cbn; lia | vm_compute; reflexivity | vm_compute; reflexivity
      | vm_compute; reflexivity | vm_compute; reflexivity].
Defined.

(** ** The Internet checksum on any packet *)

Lemma pair_ind (P : bytes -> Prop) :
  P [] -> (forall a, P [a]) -> (forall a b l, P l -> P (a :: b :: l)) ->
  forall l, P l.
Proof.
  intros H0 H1 H2.
  assert (H : forall l, P l /\ forall a, P (a :: l)).
  { induction l as [|b l [IH1 IH2]]; split; auto. }
  intros l. apply H.
Qed.

Lemma sum_app (l1 l2 : list Z) : sum (l1 ++ l2) = sum l1 + sum l2.
Proof.
  induction l1 as [|x l1 IH]; [rewrite sum_nil; reflexivity|].
  cbn [app]. rewrite !sum_cons, IH. lia.
Qed.

Lemma array_H_app_even (host : byteorder) (a b : bytes) :
  Nat.even (length a) = true ->
  array_H host (a ++ b) = array_H host a ++ array_H host b.
Proof.
  revert a. apply (pair_ind (fun a => Nat.even (length a) = true ->
    array_H host (a ++ b) = array_H host a ++ array_H host b)).
  - reflexivity.
  - intros a [=].
  - intros x y l IH E. cbn [app array_H]. rewrite IH by exact E.
    reflexivity.
Qed.

Lemma sum_array_H_facts (p : bytes) :
  0 <= sum (array_H little p)
  /\ 0 <= sum (array_H big p)
  /\ 2 * sum (array_H big p) <= 65535 * Z.of_nat (length p)
  /\ 2 * sum (array_H little p) <= 65535 * Z.of_nat (length p)
  /\ sum (array_H little p) <= 256 * sum (array_H big p)
  /\ exists hi, sum (array_H big p)
                = 256 * sum (array_H little p) - 65535 * hi.
Proof.
  revert p. apply pair_ind.
  - cbn [array_H]. rewrite sum_nil. cbn [length].
    repeat split; try lia. exists 0. lia.
  - intros a. cbn [array_H]. rewrite sum_nil. cbn [length].
    repeat split; try lia. exists 0. lia.
  - intros a b l (H1 & H2 & H3 & H4 & H5 & hi & H6).
    cbn [array_H]. rewrite !sum_cons.
    pose proof (word16_range little a b).
    pose proof (word16_range big a b).
    pose proof (word16_little_le a b).
    pose proof (word16_swap a b) as Hs.
    cbn [length].
    repeat split; try lia.
    exists (hi + byte_to_Z b). lia.
Qed.

Lemma checksum_verifies_arith_gen (b0 l hi c f k : Z) :
  b0 = 256 * l - 65535 * hi ->
  0 <= b0 < 4294967296 - 65535 ->
  (b0 = 0 -> l = 0) ->
  0 <= f <= 65535 -> 0 <= k -> l = f + 65535 * k -> (f = 0 <-> l = 0) ->
  c = (65535 - f) mod 256 * 256 + (65535 - f) / 256 ->
  fold16 (fold16 (b0 + c)) = 65535.
Proof.
  intros Hb Rb Hz Rf Rk El Hf0 Ec.
  set (y := 65535 - f) in *.
  assert (Ry : 0 <= y <= 65535) by lia.
  assert (Ey : y = 256 * (y / 256) + y mod 256)
    by (Z.div_mod_to_equations; lia).
  assert (Rlo : 0 <= y mod 256 < 256) by (apply Z.mod_pos_bound; lia).
  assert (Rhi : 0 <= y / 256 < 256) by (Z.div_mod_to_equations; lia).
  apply (fold16_multiple _ (256 + 256 * k - hi - y / 256)); [|lia].
  split; [|lia].
  destruct (Z.eq_dec b0 0) as [E0|N0]; [|lia].
  assert (f = 0) by (apply Hf0, Hz, E0).
  assert (y = 65535) by lia.
  assert (y mod 256 = 255 /\ y / 256 = 255) as [E1 E2]
    by (Z.div_mod_to_equations; lia).
  lia.
Qed.

Lemma odd_test (n : nat) : (n mod 2 =? 1)%nat = negb (Nat.even n).
Proof.
  pose proof (Nat.div_mod_eq n 2) as E.
  pose proof (Nat.mod_upper_bound n 2 ltac:(lia)) as B.
  rewrite E at 2. rewrite Nat.add_comm, Nat.even_add_mul_2.
  destruct (n mod 2)%nat as [|[|m]]; [reflexivity | reflexivity | lia].
Qed.

Lemma checksum_even_verifies (pre post : bytes) (c : Z) :
  Nat.even (length pre) = true ->
  Nat.even (length post) = true ->
  Z.of_nat (length pre + length post) <= 131068 ->
  c = calculate_checksum little (pre ++ [x00; x00] ++ post) ->
  ones_complement_sum (pre ++ [byte_of_Z (c / 256); byte_of_Z c] ++ post)
  = 0xFFFF.
Proof.
  intros Hpre Hpost Hlen Ec.
  pose proof (calculate_checksum_range little (pre ++ [x00; x00] ++ post))
    as Rc. rewrite <- Ec in Rc.
  destruct (sum_array_H_facts pre) as (A1 & A2 & A3 & A4 & A5 & h1 & A6).
  destruct (sum_array_H_facts post) as (B1 & B2 & B3 & B4 & B5 & h2 & B6).
  rewrite Nat2Z.inj_add in Hlen.
  assert (EL : sum (array_H little (pre ++ [x00; x00] ++ post))
               = sum (array_H little pre) + sum (array_H little post)).
  { rewrite array_H_app_even by exact Hpre. rewrite sum_app.
    cbn [app array_H]. rewrite sum_cons.
    change (word16 little x00 x00) with 0. lia. }
  assert (Hodd : (length (pre ++ [x00; x00] ++ post) mod 2 =? 1)%nat
                 = false).
  { rewrite odd_test, !length_app, !Nat.even_add, Hpre, Hpost.
    reflexivity. }
  destruct (calculate_checksum_even little _ Hodd)
    as (f & k & Rf & Rk & El & Hf0 & Et); [rewrite EL; lia|].
  rewrite EL in El, Hf0. rewrite <- Ec in Et.
  unfold ones_complement_sum.
  rewrite array_H_app_even by exact Hpre. rewrite sum_app.
  cbn [app array_H]. rewrite sum_cons.
  rewrite (word16_big_bytes c Rc).
  replace (sum (array_H big pre) + (c + sum (array_H big post)))
    with ((sum (array_H big pre) + sum (array_H big post)) + c) by lia.
  apply (checksum_verifies_arith_gen
           (sum (array_H big pre) + sum (array_H big post))
           (sum (array_H little pre) + sum (array_H little post))
           (h1 + h2) c f k); try assumption; lia.
Qed.

Lemma internet_checksum_verifies_gen (pre post : bytes) :
  Nat.even (length pre) = true ->
  Z.of_nat (length pre + length post) <= 131067 ->
  let c := calculate_checksum little (pre ++ [x00; x00] ++ post) in
  let pkt := pre ++ [byte_of_Z (c / 256); byte_of_Z c] ++ post in
  0 <= c < 65536
  /\ ones_complement_sum
       (if (length pkt mod 2 =? 1)%nat then pkt ++ [x00] else pkt)
     = 0xFFFF.
Proof.
  intros Hpre Hlen c pkt.
  split; [apply calculate_checksum_range|].
  assert (Hp : (length pkt mod 2 =? 1)%nat = negb (Nat.even (length post))).
  { subst pkt. rewrite odd_test, !length_app, !Nat.even_add, Hpre.
    cbn [length Nat.even]. destruct (Nat.even (length post)); reflexivity. }
  rewrite Hp.
  destruct (Nat.even (length post)) eqn:Hpost; cbn [negb].
  - apply checksum_even_verifies; try assumption; [lia | reflexivity].
  - subst pkt. rewrite <- !app_assoc.
    apply checksum_even_verifies; try assumption.
    + rewrite length_app, Nat.even_add, Hpost. reflexivity.
    + rewrite length_app. cbn [length]. lia.
    + subst c. unfold calculate_checksum.
      rewrite !odd_test, !length_app, !Nat.even_add, Hpre, Hpost.
      cbn [length Nat.even Nat.add negb Bool.eqb].
      rewrite <- !app_assoc. reflexivity.
Qed.

(** X23.  On a little-endian host the value [calculate_checksum] returns
    for a packet with a null 16-bit field at an even offset is the
    Internet checksum of that packet: written into the field in network
    byte order, it makes the one's-complement sum of the packet, padded
    with a null byte when its length is odd, fold to [0xFFFF].  This holds
    for packets of up to 131069 bytes, so that the word sum stays below
    [2^32]. *)
Theorem internet_checksum_verifies (pre post : bytes) :
  Nat.even (length pre) = true ->
  Z.of_nat (length pre + length post) <= 131067 ->
  let c := calculate_checksum little (pre ++ [x00; x00] ++ post) in
  let pkt := pre ++ [byte_of_Z (c / 256); byte_of_Z c] ++ post in
  0 <= c < 65536
  /\ ones_complement_sum
       (if (length pkt mod 2 =? 1)%nat then pkt ++ [x00] else pkt)
     = 0xFFFF.
Proof. exact (internet_checksum_verifies_gen pre post). Qed.

Lemma internet_checksum_verifies_witness :
  let c := calculate_checksum little
             (firstn 10 sample_outer_ip ++ [x00; x00]
              ++ skipn 12 sample_outer_ip) in
  ones_complement_sum
    (firstn 10 sample_outer_ip ++ [byte_of_Z (c / 256); byte_of_Z c]
     ++ skipn 12 sample_outer_ip) = 0xFFFF.
Proof.
  exact (proj2 (internet_checksum_verifies (firstn 10 sample_outer_ip)
                  (skipn 12 sample_outer_ip) eq_refl
                  ltac:(cbn; lia))).
Defined.

(** ** TCP checksum and the rebuilt IP packet *)

Lemma pack_replace_tcp_checksum (nt : StructTcpHeaderWithoutOptions) (v : Z)
    (h out : bytes) :
  pack nt = Ok h -> pack (replace_tcp_checksum nt v) = Ok out ->
  out = firstn 16 h ++ be_encode 2 v ++ skipn 18 h.
Proof.
  destruct nt as [a b c d e f g hh i]. unfold replace_tcp_checksum.
  cbn [tcp_src_port tcp_dst_port tcp_seq_number tcp_ack
       tcp_byte_data_offset tcp_flags tcp_win_size tcp_checksum
       tcp_urgent_ptr].
  rewrite !pack_tcp_bytes. intros H1 H2.
  bind_step H1 ba Ea. bind_step H1 bb Eb. bind_step H1 bc Ec.
  bind_step H1 bd Ed. bind_step H1 be Ee. bind_step H1 bf Ef.
  bind_step H1 bg Eg. bind_step H1 bh Eh. bind_step H1 bi Ei.
  rewrite Ea, Eb, Ec, Ed, Ee, Ef, Eg, Ei in H2. cbn in H2.
  bind_step H2 bh' Eh'. cbn in H2.
  injection H1 as <-. injection H2 as <-.
  apply pack_uint_Ok_inv in Eh' as [_ ->].
  apply pack_uint_length in Ea, Eb, Ec, Ed, Ee, Ef, Eg, Eh.
  explode ba Ea. explode bb Eb. explode bc Ec. explode bd Ed.
  explode be Ee. explode bf Ef. explode bg Eg. explode bh Eh.
  reflexivity.
Qed.

Lemma replace_tcp_checksum_well_formed
    (nt : StructTcpHeaderWithoutOptions) (v : Z) :
  well_formed nt -> 0 <= v < 65536 ->
  well_formed (replace_tcp_checksum nt v).
Proof.
  destruct nt as [a b c d e f g hh i]. unfold well_formed. cbn. tauto.
Qed.

Lemma pack_tcp_checksum_bytes (h : bytes)
    (nt : StructTcpHeaderWithoutOptions) (v : Z) :
  new StructTcpHeaderWithoutOptions h = Ok nt -> 0 <= v < 65536 ->
  pack (replace_tcp_checksum nt v)
  = Ok (firstn 16 h ++ [byte_of_Z (v / 256); byte_of_Z v] ++ skipn 18 h).
Proof.
  intros E R.
  destruct (new_pack _ (replace_tcp_checksum_well_formed nt v
                          (new_well_formed _ _ E) R)) as (out & Ep & _).
  rewrite Ep. f_equal.
  rewrite (pack_replace_tcp_checksum _ _ _ _ (pack_new _ _ E) Ep).
  rewrite be_encode_2. reflexivity.
Qed.

Lemma pack_pseudo_bytes (s d : bytes) (p n : Z) :
  length s = 4%nat -> length d = 4%nat -> 0 <= p < 256 ->
  pack {| src := s; dst := d; zero := 0; protocol := p; tcp_length := n |}
  = (b ← pack_uint 2 n; Ok (s ++ d ++ [x00; byte_of_Z p] ++ b)).
Proof.
  intros Ls Ld Rp. unfold pack. cbn.
  rewrite (pack_s_exact 4 s Ls), (pack_s_exact 4 d Ld).
  rewrite (pack_uint_ok 1 0), (pack_uint_ok 1 p) by (cbn; lia).
  cbn. destruct (pack_uint 2 n); cbn; [|reflexivity].
  rewrite app_nil_r. reflexivity.
Qed.

Lemma ip_header_fields_ok (ip_header : bytes) (ipnt : StructIpHeader) :
  new StructIpHeader ip_header = Ok ipnt ->
  length (ip_src ipnt) = 4%nat /\ length (ip_dst ipnt) = 4%nat
  /\ 0 <= ip_protocol ipnt < 256.
Proof.
  intros E. pose proof (new_well_formed _ _ E) as Hwf.
  destruct ipnt. unfold well_formed in Hwf. cbn in Hwf. cbn. tauto.
Qed.

Lemma calculate_tcp_checksum_eq (host : byteorder)
    (ip_header h o p : bytes) (ipnt : StructIpHeader)
    (nt : StructTcpHeaderWithoutOptions) :
  new StructIpHeader ip_header = Ok ipnt ->
  new StructTcpHeaderWithoutOptions h = Ok nt ->
  calculate_tcp_checksum host ip_header h o p
  = (b ← pack_uint 2 (Z.of_nat (length (h ++ o ++ p)));
     Ok (calculate_checksum host
           ((ip_src ipnt ++ ip_dst ipnt
             ++ [x00; byte_of_Z (ip_protocol ipnt)] ++ b)
            ++ (firstn 16 h ++ [x00; x00] ++ skipn 18 h) ++ o ++ p))).
Proof.
  intros Ei Et.
  destruct (ip_header_fields_ok _ _ Ei) as (Ls & Ld & Rp).
  unfold calculate_tcp_checksum. rewrite Ei. cbn [mbind result_bind].
  change (new StructPseudoHeader (repeat x00 12))
    with (Ok {| src := [x00; x00; x00; x00]; dst := [x00; x00; x00; x00];
                zero := 0; protocol := 0; tcp_length := 0 |}).
  cbn [mbind result_bind]. rewrite Et. cbn [mbind result_bind].
  rewrite (pack_pseudo_bytes _ _ _ _ Ls Ld Rp).
  destruct (pack_uint 2 (Z.of_nat (length (h ++ o ++ p)))) as [b|e];
    [|reflexivity].
  cbn [mbind result_bind].
  rewrite (pack_tcp_checksum_bytes _ _ 0 Et) by lia.
  reflexivity.
Qed.

Lemma calculate_tcp_checksum_raises (host : byteorder)
    (ip_header h o p : bytes) :
  length ip_header <> 20%nat \/ length h <> 20%nat
  \/ 65536 <= Z.of_nat (length (h ++ o ++ p)) ->
  calculate_tcp_checksum host ip_header h o p = Raise StructError.
Proof.
  intros H.
  destruct (Nat.eq_dec (length ip_header) 20%nat) as [Li|Li].
  2:{ unfold calculate_tcp_checksum.
      rewrite (new_error (T := StructIpHeader)) by exact Li.
      reflexivity. }
  destruct (new_ok (T := StructIpHeader) ip_header) as [ipnt Ei];
    [exact Li|].
  destruct (Nat.eq_dec (length h) 20%nat) as [Lh|Lh].
  2:{ unfold calculate_tcp_checksum. rewrite Ei.
      cbn [mbind result_bind].
      change (new StructPseudoHeader (repeat x00 12))
        with (Ok {| src := [x00; x00; x00; x00];
                    dst := [x00; x00; x00; x00];
                    zero := 0; protocol := 0; tcp_length := 0 |}).
      cbn [mbind result_bind].
      rewrite (new_error (T := StructTcpHeaderWithoutOptions))
        by exact Lh.
      reflexivity. }
  destruct (new_ok (T := StructTcpHeaderWithoutOptions) h) as [nt Et];
    [exact Lh|].
  rewrite (calculate_tcp_checksum_eq _ _ _ _ _ _ _ Ei Et).
  destruct (pack_uint_cases 2 (Z.of_nat (length (h ++ o ++ p))))
    as [[R _] | [_ ->]]; [|reflexivity].
  change (256 ^ Z.of_nat 2) with 65536 in R. destruct H as [?|[?|?]]; lia.
Qed.

(** X24.  [calculate_tcp_checksum] raises [struct.error] when the IP
    header or the TCP base header is not 20 bytes long, or when the
    segment has 65536 bytes or more.  Otherwise it returns the checksum
    of the 12-byte pseudo-header (source, destination, zero, protocol,
    segment length) followed by the segment with bytes 16-17 of the base
    header nulled: the checksum stored in the header does not matter.  On
    a little-endian host that value, written into bytes 16-17, makes the
    one's-complement sum over pseudo-header and segment fold to
    [0xFFFF]. *)
Theorem calculate_tcp_checksum_pseudo (host : byteorder)
    (ip_header h o p : bytes) :
  (length ip_header <> 20%nat \/ length h <> 20%nat
   \/ 65536 <= Z.of_nat (length (h ++ o ++ p)) ->
   calculate_tcp_checksum host ip_header h o p = Raise StructError)
  /\ (forall ipnt,
        new StructIpHeader ip_header = Ok ipnt ->
        length h = 20%nat ->
        Z.of_nat (length (h ++ o ++ p)) < 65536 ->
        let pseudo :=
          ip_src ipnt ++ ip_dst ipnt
          ++ [x00; byte_of_Z (ip_protocol ipnt)]
          ++ be_encode 2 (Z.of_nat (length (h ++ o ++ p))) in
        exists c,
          calculate_tcp_checksum host ip_header h o p = Ok c
          /\ 0 <= c < 65536
          /\ length pseudo = 12%nat
          /\ c = calculate_checksum host
                   (pseudo ++ (firstn 16 h ++ [x00; x00] ++ skipn 18 h)
                    ++ o ++ p)
          /\ (host = little ->
              let segment :=
                pseudo
                ++ (firstn 16 h ++ [byte_of_Z (c / 256); byte_of_Z c]
                    ++ skipn 18 h) ++ o ++ p in
              ones_complement_sum
                (if (length segment mod 2 =? 1)%nat
                 then segment ++ [x00] else segment) = 0xFFFF)).
Proof.
  split; [apply calculate_tcp_checksum_raises|].
  intros ipnt Ei Lh Hlen pseudo.
  destruct (new_ok (T := StructTcpHeaderWithoutOptions) h) as [nt Et];
    [exact Lh|].
  destruct (ip_header_fields_ok _ _ Ei) as (Ls & Ld & Rp).
  rewrite (calculate_tcp_checksum_eq _ _ _ _ _ _ _ Ei Et).
  rewrite pack_uint_ok
    by (change (256 ^ Z.of_nat 2) with 65536; lia).
  cbn [mbind result_bind]. fold pseudo.
  assert (Lps : length pseudo = 12%nat).
  { subst pseudo. rewrite !length_app, Ls, Ld, length_be_encode.
    reflexivity. }
  eexists. split; [reflexivity|].
  split; [apply calculate_checksum_range|].
  split; [exact Lps|]. split; [reflexivity|].
  intros ->. clearbody pseudo.
  assert (Lf : length (firstn 16 h) = 16%nat)
    by (rewrite length_take; lia).
  pose proof (internet_checksum_verifies_gen (pseudo ++ firstn 16 h)
                (skipn 18 h ++ o ++ p)) as V.
  cbv zeta in V.
  rewrite <- !app_assoc in V. cbn [app] in V.
  rewrite <- !app_assoc. cbn [app].
  apply V.
  - rewrite length_app, Lps, Lf. reflexivity.
  - rewrite !length_app in *. rewrite Lps, Lf, length_drop. lia.
Qed.

Lemma calculate_tcp_checksum_pseudo_witness :
  let ip_header := firstn 20 (skipn 14 sample_forward) in
  let h := firstn 20 (skipn 34 sample_forward) in
  exists c,
    calculate_tcp_checksum little ip_header h [] [x68; x69; x21] = Ok c
    /\ ones_complement_sum
         (((sample_ip_a ++ sample_ip_b ++ [x00; x06; x00; x17])
           ++ (firstn 16 h ++ [byte_of_Z (c / 256); byte_of_Z c]
               ++ skipn 18 h) ++ [] ++ [x68; x69; x21]) ++ [x00])
       = 0xFFFF.
Proof.
  intros ip_header h.
  destruct (proj2 (calculate_tcp_checksum_pseudo little ip_header h []
                     [x68; x69; x21]) sample_forward_ip)
    as (c & E & _ & _ & _ & V).
  - vm_compute. reflexivity.
  - reflexivity.
  - cbn. lia.
  - exists c. split; [exact E|]. exact (V eq_refl).
Defined.

Lemma pack_ip_binds (v0 v1 v2 v3 v4 v5 v6 : Z) (s d : bytes) :
  pack {| ip_ver_ihl_type := v0; ip_total_length := v1; ip_id := v2;
          ip_flags_frag_offset := v3; ip_time2live := v4;
          ip_protocol := v5; ip_hdr_checksum := v6;
          ip_src := s; ip_dst := d |}
  = (b0 ← pack_uint 2 v0; b1 ← pack_uint 2 v1; b2 ← pack_uint 2 v2;
     b3 ← pack_uint 2 v3; b4 ← pack_uint 1 v4; b5 ← pack_uint 1 v5;
     b6 ← pack_uint 2 v6;
     Ok (b0 ++ b1 ++ b2 ++ b3 ++ b4 ++ b5 ++ b6 ++ pack_s 4 s
         ++ pack_s 4 d)).
Proof.
  unfold pack. cbn.
  destruct (pack_uint 2 v0); [|reflexivity].
  destruct (pack_uint 2 v1); [|reflexivity].
  destruct (pack_uint 2 v2); [|reflexivity].
  destruct (pack_uint 2 v3); [|reflexivity].
  destruct (pack_uint 1 v4); [|reflexivity].
  destruct (pack_uint 1 v5); [|reflexivity].
  destruct (pack_uint 2 v6); [|reflexivity].
  cbn. rewrite app_nil_r. reflexivity.
Qed.

Lemma make_ip_header_raises (host : byteorder) (header : bytes) (n : Z) :
  length header <> 20%nat \/ ~ 0 <= n < 65536 ->
  make_ip_header host header n = Raise StructError.
Proof.
  intros H. unfold make_ip_header.
  destruct (Nat.eq_dec (length header) 20%nat) as [L|L].
  2:{ rewrite (new_error (T := StructIpHeader)) by exact L. reflexivity. }
  destruct H as [H|H]; [contradiction|].
  destruct (new_ok (T := StructIpHeader) header) as [nt E]; [exact L|].
  rewrite E. cbn [mbind result_bind].
  pose proof (new_well_formed _ _ E) as Hwf.
  destruct nt as [v0 v1 v2 v3 v4 v5 v6 s d].
  unfold well_formed in Hwf. cbn in Hwf.
  destruct Hwf as (H0 & _).
  cbn [ip_ver_ihl_type ip_total_length ip_id ip_flags_frag_offset
       ip_time2live ip_protocol ip_hdr_checksum ip_src ip_dst].
  rewrite pack_ip_binds.
  rewrite (pack_uint_ok 2 v0) by (cbn; lia). cbn [mbind result_bind].
  destruct (pack_uint_cases 2 n) as [[R _] | [_ ->]]; [|reflexivity].
  exfalso. apply H. exact R.
Qed.

Lemma make_ip_header_ok (header : bytes) (nt : StructIpHeader) (n : Z) :
  new StructIpHeader header = Ok nt ->
  0 <= n < 65536 ->
  exists out nt',
    make_ip_header little header n = Ok out
    /\ length out = 20%nat
    /\ new StructIpHeader out = Ok nt'
    /\ ip_total_length nt' = n
    /\ ip_protocol nt' = ip_protocol nt
    /\ ip_src nt' = ip_src nt
    /\ ip_dst nt' = ip_dst nt
    /\ ones_complement_sum out = 0xFFFF.
Proof.
  intros Enew Hn.
  pose proof (new_well_formed _ _ Enew) as Hwf.
  destruct nt as [v0 v1 v2 v3 v4 v5 v6 s d].
  cbn in Hwf. destruct Hwf as (H0 & H1 & H2 & H3 & H4 & H5 & H6 & Hs & Hd & _).
  cbn [ip_ver_ihl_type ip_total_length ip_id ip_flags_frag_offset
       ip_time2live ip_protocol ip_hdr_checksum ip_src ip_dst].
  unfold make_ip_header. rewrite Enew. cbn [mbind result_bind].
  cbn [ip_ver_ihl_type ip_total_length ip_id ip_flags_frag_offset
       ip_time2live ip_protocol ip_hdr_checksum ip_src ip_dst].
  rewrite (pack_ip_bytes v0 n v2 v3 v4 v5 v6 s d) by assumption.
  cbn [mbind result_bind].
  match goal with
  | |- context [calculate_ip_checksum little ?p] =>
      remember (calculate_ip_checksum little p) as c eqn:Ec
  end.
  assert (Hc : 0 <= c < 65536)
    by (rewrite Ec; apply calculate_checksum_range).
  assert (Hwf2 : well_formed
                   {| ip_ver_ihl_type := v0; ip_total_length := n;
                      ip_id := v2; ip_flags_frag_offset := v3;
                      ip_time2live := v4; ip_protocol := v5;
                      ip_hdr_checksum := c; ip_src := s; ip_dst := d |})
    by (cbn; tauto).
  destruct (new_pack _ Hwf2) as (out & Eout & Enew2).
  rewrite Eout. eexists. eexists.
  split; [reflexivity|].
  split; [exact (pack_length _ out Eout)|].
  split; [exact Enew2|].
  do 4 (split; [reflexivity|]).
  rewrite (pack_ip_bytes v0 n v2 v3 v4 v5 c s d) in Eout by assumption.
  injection Eout as <-.
  exact (ip_header_sum_verifies_app _ _ _ _ _ _ _ _ _ _ _ _ s d c Hs Hd Ec).
Qed.

(** X25.  [make_ip_package] raises [struct.error] when the IP header or
    the TCP base header is not 20 bytes long or when the packet would
    have 65536 bytes or more.  Otherwise, on a little-endian host, it
    returns a new 20-byte IP header followed by the TCP base header with
    bytes 16-17 replaced by the value of [calculate_tcp_checksum], the
    options and the payload: the new IP header carries the length of the
    whole packet in [ip_total_length], keeps protocol and addresses, and
    its one's-complement sum folds to [0xFFFF]. *)
Theorem make_ip_package_rebuilds (host : byteorder)
    (ip_header h o p : bytes) :
  (length ip_header <> 20%nat \/ length h <> 20%nat
   \/ 65536 <= Z.of_nat (40 + length o + length p) ->
   make_ip_package host ip_header h o p = Raise StructError)
  /\ (forall ipnt,
        host = little ->
        new StructIpHeader ip_header = Ok ipnt ->
        length h = 20%nat ->
        Z.of_nat (40 + length o + length p) < 65536 ->
        exists new_ip_header c nt',
          make_ip_package host ip_header h o p
          = Ok (new_ip_header
                ++ (firstn 16 h ++ [byte_of_Z (c / 256); byte_of_Z c]
                    ++ skipn 18 h) ++ o ++ p)
          /\ calculate_tcp_checksum host ip_header h o p = Ok c
          /\ length new_ip_header = 20%nat
          /\ new StructIpHeader new_ip_header = Ok nt'
          /\ ip_total_length nt' = Z.of_nat (40 + length o + length p)
          /\ ip_protocol nt' = ip_protocol ipnt
          /\ ip_src nt' = ip_src ipnt
          /\ ip_dst nt' = ip_dst ipnt
          /\ ones_complement_sum new_ip_header = 0xFFFF).
Proof.
  split.
  - intros H. unfold make_ip_package.
    destruct (Nat.eq_dec (length ip_header) 20%nat) as [Li|Li].
    2:{ rewrite calculate_tcp_checksum_raises by auto. reflexivity. }
    destruct (Nat.eq_dec (length h) 20%nat) as [Lh|Lh].
    2:{ rewrite calculate_tcp_checksum_raises by auto. reflexivity. }
    destruct H as [?|[?|H]]; [contradiction | contradiction |].
    destruct (calculate_tcp_checksum host ip_header h o p) as [c|e] eqn:Ec.
    2:{ destruct (Z.le_gt_cases 65536 (Z.of_nat (length (h ++ o ++ p))))
          as [Hge|Hlt].
        - rewrite calculate_tcp_checksum_raises in Ec by auto.
          injection Ec as <-. reflexivity.
        - destruct (new_ok (T := StructIpHeader) ip_header) as [ipnt Ei];
            [exact Li|].
          destruct (new_ok (T := StructTcpHeaderWithoutOptions) h)
            as [nt Et]; [exact Lh|].
          rewrite (calculate_tcp_checksum_eq _ _ _ _ _ _ _ Ei Et) in Ec.
          rewrite pack_uint_ok in Ec
            by (change (256 ^ Z.of_nat 2) with 65536; lia).
          discriminate Ec. }
    cbn [mbind result_bind].
    destruct (new_ok (T := StructIpHeader) ip_header) as [ipnt Ei];
      [exact Li|].
    destruct (new_ok (T := StructTcpHeaderWithoutOptions) h) as [nt Et];
      [exact Lh|].
    assert (Rc : 0 <= c < 65536).
    { rewrite (calculate_tcp_checksum_eq _ _ _ _ _ _ _ Ei Et) in Ec.
      destruct (pack_uint 2 _); [|discriminate Ec].
      injection Ec as <-. apply calculate_checksum_range. }
    rewrite Et. cbn [mbind result_bind].
    rewrite (pack_tcp_checksum_bytes _ _ _ Et Rc). cbn [mbind result_bind].
    rewrite make_ip_header_raises; [reflexivity|].
    right. rewrite !length_app, Li, length_take, length_drop, Lh.
    cbn [length]. lia.
  - intros ipnt -> Ei Lh Hlen.
    pose proof (new_length _ _ Ei) as Li. cbn in Li.
    destruct (new_ok (T := StructTcpHeaderWithoutOptions) h) as [nt Et];
      [exact Lh|].
    assert (Ec : exists c, calculate_tcp_checksum little ip_header h o p
                           = Ok c /\ 0 <= c < 65536).
    { rewrite (calculate_tcp_checksum_eq _ _ _ _ _ _ _ Ei Et).
      rewrite pack_uint_ok
        by (change (256 ^ Z.of_nat 2) with 65536;
            rewrite !length_app, Lh; lia).
      eexists. split; [reflexivity | apply calculate_checksum_range]. }
    destruct Ec as (c & Ec & Rc).
    assert (Ln : Z.of_nat
                   (length (ip_header
                            ++ (firstn 16 h
                                ++ [byte_of_Z (c / 256); byte_of_Z c]
                                ++ skipn 18 h) ++ o ++ p))
                 = Z.of_nat (40 + length o + length p)).
    { rewrite !length_app, Li, length_take, length_drop, Lh.
      cbn [length]. lia. }
    destruct (make_ip_header_ok ip_header ipnt
                (Z.of_nat (40 + length o + length p)) Ei ltac:(lia))
      as (out & nt' & Eo & Lo & En & F1 & F2 & F3 & F4 & V).
    exists out, c, nt'.
    split.
    { unfold make_ip_package. rewrite Ec. cbn [mbind result_bind].
      rewrite Et. cbn [mbind result_bind].
      rewrite (pack_tcp_checksum_bytes _ _ _ Et Rc).
      cbn [mbind result_bind]. rewrite Ln, Eo. reflexivity. }
    repeat split; assumption.
Qed.

Lemma make_ip_package_rebuilds_witness :
  let ip_header := firstn 20 (skipn 14 sample_forward) in
  let h := firstn 20 (skipn 34 sample_forward) in
  exists new_ip_header c nt',
    make_ip_package little ip_header h [] [x68; x69; x21]
    = Ok (new_ip_header
          ++ (firstn 16 h ++ [byte_of_Z (c / 256); byte_of_Z c]
              ++ skipn 18 h) ++ [] ++ [x68; x69; x21])
    /\ new StructIpHeader new_ip_header = Ok nt'
    /\ ip_total_length nt' = 43
    /\ ones_complement_sum new_ip_header = 0xFFFF.
Proof.
  intros ip_header h.
  destruct (proj2 (make_ip_package_rebuilds little ip_header h []
                     [x68; x69; x21]) sample_forward_ip eq_refl)
    as (out & c & nt' & E & _ & _ & En & Ft & _ & _ & _ & V).
  - vm_compute. reflexivity.
  - reflexivity.
  - cbn. lia.
  - exists out, c, nt'. repeat split; assumption.
Defined.

(** X26.  [calculate_ip_checksum] does not read bytes 10 and 11 of a
    header of at least 12 bytes: whatever checksum the header carries,
    the value computed is the same, and it is a 16-bit value. *)
Theorem calculate_ip_checksum_skips_field (host : byteorder) (pkt : bytes)
    (x y : byte) :
  (12 <= length pkt)%nat ->
  calculate_ip_checksum host (firstn 10 pkt ++ [x; y] ++ skipn 12 pkt)
  = calculate_ip_checksum host pkt
  /\ 0 <= calculate_ip_checksum host pkt < 65536.
Proof.
  intros L. split; [|apply calculate_checksum_range].
  unfold calculate_ip_checksum, slice. cbv zeta.
  assert (L10 : length (firstn 10 pkt) = 10%nat)
    by (rewrite length_take; lia).
  assert (E1 : firstn 10 (firstn 10 pkt ++ [x; y] ++ skipn 12 pkt)
               = firstn 10 pkt)
    by (apply take_app_length'; symmetry; exact L10).
  assert (E2 : skipn 12 (firstn 10 pkt ++ [x; y] ++ skipn 12 pkt)
               = skipn 12 pkt).
  { rewrite drop_app_ge by (rewrite L10; lia). rewrite L10. reflexivity. }
  assert (E3 : length (firstn 10 pkt ++ [x; y] ++ skipn 12 pkt)
               = length pkt).
  { rewrite !length_app, L10, length_drop. cbn [length]. lia. }
  rewrite E3, !Nat.sub_0_r, !drop_0, E1, E2. reflexivity.
Qed.

Lemma calculate_ip_checksum_skips_field_witness :
  calculate_ip_checksum little
    (firstn 10 sample_outer_ip ++ [x00; x00] ++ skipn 12 sample_outer_ip)
  = calculate_ip_checksum little sample_outer_ip.
Proof.
  apply (calculate_ip_checksum_skips_field little sample_outer_ip x00 x00).
  cbn. lia.
Defined.

(** ** The checksum on a big-endian host *)

Lemma sum_big_le (p : bytes) :
  sum (array_H big p) <= 256 * sum (array_H little p).
Proof.
  revert p. apply pair_ind.
  - cbn [array_H]. rewrite sum_nil. lia.
  - intros a. cbn [array_H]. rewrite sum_nil. lia.
  - intros a b l IH. cbn [array_H]. rewrite !sum_cons.
    pose proof (byte_to_Z_range a). pose proof (byte_to_Z_range b).
    unfold word16. lia.
Qed.

Lemma swapped_checksum_arith (sl sb hi fl kl fb kb : Z) :
  sb = 256 * sl - 65535 * hi ->
  0 <= sl -> 0 <= sb -> sl <= 256 * sb -> sb <= 256 * sl ->
  0 <= fl <= 65535 -> 0 <= kl -> sl = fl + 65535 * kl ->
  (fl = 0 <-> sl = 0) ->
  0 <= fb <= 65535 -> 0 <= kb -> sb = fb + 65535 * kb ->
  (fb = 0 <-> sb = 0) ->
  let c := (65535 - fl) mod 256 * 256 + (65535 - fl) / 256 in
  (65535 - fb) mod 256 * 256 + (65535 - fb) / 256
  = c mod 256 * 256 + c / 256.
Proof.
  intros Hs Rsl Rsb Hle1 Hle2 Rfl Rkl El Zl Rfb Rkb Eb Zb c.
  set (y := 65535 - fl) in *. set (z := 65535 - fb).
  assert (Ry : 0 <= y <= 65535) by lia.
  assert (Rz : 0 <= z <= 65535) by (subst z; lia).
  pose proof (Z.div_mod y 256 ltac:(lia)) as Ey.
  pose proof (Z.mod_pos_bound y 256 ltac:(lia)) as By.
  pose proof (Z.div_mod z 256 ltac:(lia)) as Ez.
  pose proof (Z.mod_pos_bound z 256 ltac:(lia)) as Bz.
  assert (Ay : 0 <= y / 256 < 256)
    by (split; [apply Z.div_pos; lia | apply Z.div_lt_upper_bound; lia]).
  assert (Az : 0 <= z / 256 < 256)
    by (split; [apply Z.div_pos; lia | apply Z.div_lt_upper_bound; lia]).
  assert (Ec : c mod 256 * 256 + c / 256 = y).
  { subst c.
    replace ((y mod 256 * 256 + y / 256) mod 256) with (y / 256).
    2:{ rewrite Z.add_comm, Z.mod_add by lia.
        symmetry. apply Z.mod_small. lia. }
    replace ((y mod 256 * 256 + y / 256) / 256) with (y mod 256).
    2:{ rewrite Z.add_comm, Z.div_add by lia.
        rewrite (Z.div_small (y / 256)) by lia. lia. }
    lia. }
  rewrite Ec.
  set (p := z / 256) in *. set (q := z mod 256) in *.
  assert (M : exists m, q * 256 + p - y = 65535 * m).
  { exists (255 - fl - 256 * (256 * kl - hi - kb) - p). subst y z. lia. }
  destruct M as [m M].
  assert (m = -1 \/ m = 0 \/ m = 1) as [->|[->| ->]] by lia; [|lia|].
  - (* q * 256 + p = 0 and y = 65535 *)
    assert (q = 0 /\ p = 0) as [Q P] by lia.
    assert (fb = 65535) by (subst z; lia).
    assert (fl = 0) by (subst y; lia).
    assert (sl = 0) by tauto. lia.
  - (* q * 256 + p = 65535 and y = 0 *)
    assert (q = 255 /\ p = 255) as [Q P] by lia.
    assert (fb = 0) by (subst z; lia).
    assert (sb = 0) by tauto.
    assert (sl = 0) by lia. assert (fl = 0) by tauto.
    subst y. lia.
Qed.

(** X27.  The endianness test of [calculate_checksum] compares [bytes]
    with a [str] and never succeeds, so the byte swap meant for
    little-endian hosts is applied on every host: on a big-endian host
    the function returns, for any packet of up to 131070 bytes, the value
    it returns on a little-endian host with its two bytes exchanged. *)
Theorem calculate_checksum_big_endian_host (pkt : bytes) :
  Z.of_nat (length pkt) <= 131070 ->
  let c := calculate_checksum little pkt in
  calculate_checksum big pkt = c mod 256 * 256 + c / 256.
Proof.
  intros Hlen. unfold calculate_checksum, bytes_eq_str. cbv zeta.
  set (pkt' := if (length pkt mod 2 =? 1)%nat then pkt ++ [x00] else pkt).
  assert (Lp : Z.of_nat (length pkt') <= 131071).
  { subst pkt'. destruct (length pkt mod 2 =? 1)%nat;
      [rewrite length_app; cbn [length]|]; lia. }
  destruct (sum_array_H_facts pkt')
    as (A1 & A2 & A3 & A4 & A5 & hi & A6).
  pose proof (sum_big_le pkt') as A7.
  destruct (checksum_tail (sum (array_H little pkt')) ltac:(lia))
    as (fl & kl & Rfl & Rkl & El & Zl & Tl).
  destruct (checksum_tail (sum (array_H big pkt')) ltac:(lia))
    as (fb & kb & Rfb & Rkb & Eb & Zb & Tb).
  cbv zeta in Tl, Tb. rewrite Tl, Tb.
  exact (swapped_checksum_arith _ _ hi fl kl fb kb A6 A1 A2 A5 A7
           Rfl Rkl El Zl Rfb Rkb Eb Zb).
Qed.

Lemma calculate_checksum_big_endian_host_witness :
  calculate_checksum big (firstn 10 sample_outer_ip ++ [x00; x00]
                          ++ skipn 12 sample_outer_ip) = 0x0ef7
  /\ calculate_checksum little (firstn 10 sample_outer_ip ++ [x00; x00]
                                ++ skipn 12 sample_outer_ip) = 0xf70e.
Proof.
  pose proof (calculate_checksum_big_endian_host
                (firstn 10 sample_outer_ip ++ [x00; x00]
                 ++ skipn 12 sample_outer_ip) ltac:(cbn; lia)) as H.
  cbv zeta in H. split; [rewrite H|]; vm_compute; reflexivity.
Defined.

(** ** A reply through decap and reverse-encap *)

Lemma decap_reply (frame : bytes) (d : Decapsulated) (sckt : Socket)
    (w : World) :
  decap_headers frame = Ok (Some d) ->
  is_Some (sessions w !! decap_swapped_key d) ->
  parse_frame_and_deencapsulate frame sckt w
  = send_all sckt_unencap_in (nsh_payload d)
      {| sessions := sessions w;
         sessions_reply_info :=
           <[decap_swapped_key d := decap_bundle d]> (sessions_reply_info w);
         wire := wire w;
         send_results := send_results w |}.
Proof.
  intros Hd Hk. unfold parse_frame_and_deencapsulate. rewrite Hd.
  cbv zeta. rewrite bool_decide_eq_true_2 by exact Hk. reflexivity.
Qed.

(** X28.  Decap of a reply followed by reverse-encap sends the frame back
    re-addressed.  Let a frame from the encap interface parse through the
    whole stack with an inner IPv4/TCP frame whose swapped key is in
    [sessions], and an NSH Service Index of at least 1.
    [parse_frame_and_deencapsulate] records its bundle in
    [sessions_reply_info] under the swapped key and forwards the inner
    frame on unencap-in, whatever socket it was given;
    [parse_frame_and_encapsulate_test] on that same inner frame then
    sends on encap the received outer headers with the addresses of the
    outer Ethernet, the outer IPv4 and the NSH-carrying Ethernet headers
    exchanged and the Service Index one less, followed by the inner frame:
    a frame of the length of the one received.  [sessions] is unchanged.
    The sends are assumed to take at least a byte each. *)
Theorem decap_reply_then_reverse_encap (frame : bytes) (d : Decapsulated)
    (nt : StructNshHeader) (w : World) :
  decap_headers frame = Ok (Some d) ->
  eth_type (inner_eth_header_nt d) = 0x0800 ->
  ip_protocol (inner_ip_header_nt d) = 6 ->
  is_Some (sessions w !! decap_swapped_key d) ->
  new StructNshHeader (nsh_header d) = Ok nt ->
  1 <= get_nsh_si nt ->
  Forall (fun r => (1 <= r)%nat) (send_results w) ->
  (length frame + length (nsh_payload d) <= length (send_results w))%nat ->
  exists w1 w2 chunks1 chunks2,
    parse_frame_and_deencapsulate frame sckt_unencap_out w = Returned w1
    /\ parse_frame_and_encapsulate_test (nsh_payload d) sckt_encap w1
       = Returned w2
    /\ wire w2
       = wire w ++ map (fun c => (sckt_unencap_in, c)) chunks1
         ++ map (fun c => (sckt_encap, c)) chunks2
    /\ concat chunks1 = nsh_payload d
    /\ concat chunks2
       = (slice 6 12 (outer_eth_header d) ++ slice 0 6 (outer_eth_header d)
          ++ slice 12 14 (outer_eth_header d))
         ++ (firstn 12 (ip_header d) ++ slice 16 20 (ip_header d)
             ++ slice 12 16 (ip_header d))
         ++ udp_header d ++ vxlan_header d
         ++ (slice 6 12 (eth_nsh_header d) ++ slice 0 6 (eth_nsh_header d)
             ++ slice 12 14 (eth_nsh_header d))
         ++ (firstn 7 (nsh_header d) ++ [byte_of_Z (get_nsh_si nt - 1)]
             ++ skipn 8 (nsh_header d))
         ++ nsh_payload d
    /\ length (concat chunks2) = length frame
    /\ sessions w2 = sessions w
    /\ sessions_reply_info w2
       = <[decap_swapped_key d := decap_bundle d]> (sessions_reply_info w).
Proof.
  intros Hd T4 T5 Hk Hnt Hsi Hpos Hlen.
  destruct (decap_headers_Some _ _ Hd) as (Hframe & Hwf & _).
  pose proof (decap_inner_bare _ _ Hd T4 T5) as Hb.
  unfold decap_bundle in Hwf. cbn in Hwf.
  destruct Hwf as (L1 & L2 & L3 & L4 & L5 & L6).
  destruct (swapped_lengths _ _ _ (get_nsh_si nt - 1) L1 L2 L6)
    as (M1 & M2 & M3).
  destruct (swapped_lengths _ _ _ (get_nsh_si nt - 1) L5 L2 L6)
    as (M4 & _ & _).
  assert (Lf : length frame = (88 + length (nsh_payload d))%nat).
  { rewrite <- Hframe. rewrite !length_app. lia. }
  rewrite (decap_reply _ _ _ _ Hd Hk).
  match goal with
  | |- context [send_all sckt_unencap_in ?p ?w0] =>
      destruct (send_all_ok sckt_unencap_in p w0 Hpos ltac:(cbn; lia))
        as (chunks1 & unused & E1 & Hc1 & _ & Hn1 & Hsplit)
  end.
  cbn [sessions sessions_reply_info wire send_results] in E1, Hsplit.
  rewrite E1.
  set (w1 := {| sessions := sessions w;
                sessions_reply_info :=
                  <[decap_swapped_key d:=decap_bundle d]>
                    (sessions_reply_info w);
                wire := wire w
                        ++ map (fun c => (sckt_unencap_in, c)) chunks1;
                send_results := unused |}).
  assert (Hpos1 : Forall (fun r => (1 <= r)%nat) (send_results w1)).
  { cbn. rewrite Hsplit in Hpos. apply Forall_app in Hpos as [_ H].
    exact H. }
  assert (Hlen1 : (88 + length (nsh_payload d)
                   <= length (send_results w1))%nat).
  { cbn. apply (f_equal length) in Hsplit.
    rewrite length_app, length_take in Hsplit. lia. }
  destruct Hk as [B Hk].
  assert (Hk1 : sessions w1 !! flow_swapped_key (inner_eth_header_nt d)
                  (inner_ip_header_nt d) (inner_tcp_header_nt d)
                = Some B) by exact Hk.
  assert (Hr1 : sessions_reply_info w1
                !! flow_swapped_key (inner_eth_header_nt d)
                     (inner_ip_header_nt d) (inner_tcp_header_nt d)
                = Some (outer_eth_header d, ip_header d, udp_header d,
                        vxlan_header d, eth_nsh_header d, nsh_header d)).
  { cbn. apply lookup_insert_eq. }
  pose proof (test_found_sends _ _ _ _ _ _ _ _ _ _ _ _ _ _ _ sckt_encap w1
                Hb Hk1 Hr1 (make_nsh_decr_si_bytes _ _ Hnt Hsi)
                (make_ethernet_header_swap_bytes _ L1)
                (make_ip_header_swap_bytes _ L2)
                (make_ethernet_header_swap_bytes _ L5)) as E2.
  match type of E2 with
  | _ = send_all _ ?p _ =>
      assert (Hn : (length p <= length (send_results w1))%nat)
  end.
  { rewrite length_app, M1, length_app, M2, length_app, L3, length_app, L4,
      length_app, M4, length_app, M3. lia. }
  destruct (send_all_ok sckt_encap _ w1 Hpos1 Hn)
    as (chunks2 & unused2 & E3 & Hc2 & _).
  rewrite E3 in E2.
  exists w1. eexists. exists chunks1, chunks2.
  split; [reflexivity|]. split; [exact E2|].
  subst w1. cbn [wire sessions sessions_reply_info].
  split; [rewrite <- app_assoc; reflexivity|].
  split; [exact Hc1|]. split; [exact Hc2|].
  split; [|split; reflexivity].
  rewrite Hc2, Lf.
  rewrite length_app, M1, length_app, M2, length_app, L3, length_app, L4,
    length_app, M4, length_app, M3. lia.
Qed.

Lemma decap_reply_then_reverse_encap_witness :
  exists w1 w2 (chunks1 chunks2 : list bytes),
    parse_frame_and_deencapsulate
      (sample_encapsulated x64 x05 sample_reply) sckt_unencap_out
      (primed_world x64 x05 (repeat 1%nat 200)) = Returned w1
    /\ parse_frame_and_encapsulate_test sample_reply sckt_encap w1
       = Returned w2
    /\ wire w2
       = [(sckt_unencap_out, sample_forward)]
         ++ map (fun c => (sckt_unencap_in, c)) chunks1
         ++ map (fun c => (sckt_encap, c)) chunks2
    /\ concat chunks1 = sample_reply
    /\ length (concat chunks2) = 142%nat.
Proof.
  destruct (decap_reply_then_reverse_encap
              (sample_encapsulated x64 x05 sample_reply)
              (sample_reply_decapsulated x64 x05)
              {| nsh_flags_length := 6; nsh_md_type := 1; nsh_np := 3;
                 nsh_sph := 0x6405; nsh_ctx1 := 0; nsh_ctx2 := 0;
                 nsh_ctx3 := 0; nsh_ctx4 := 0 |}
              (primed_world x64 x05 (repeat 1%nat 200)))
    as (w1 & w2 & c1 & c2 & E1 & E2 & Hw & Hc1 & _ & Hl & _).
  - vm_compute. reflexivity.
  - reflexivity.
  - reflexivity.
  - eexists. apply lookup_singleton_eq.
  - vm_compute. reflexivity.
  - vm_compute. discriminate.
  - cbn. repeat constructor.
  - cbn. lia.
  - exists w1, w2, c1, c2. auto.
Defined.

(** ** HTTP header enrichment *)

Lemma utf8_char_Some (c : Z) : is_Some (utf8_char c) <-> encodable c.
Proof.
  unfold utf8_char, encodable.
  destruct (Z.ltb_spec c 0), (Z.ltb_spec 0x10FFFF c), (Z.ltb_spec c 0x80),
    (Z.ltb_spec c 0x800), (Z.leb_spec 0xD800 c), (Z.leb_spec c 0xDFFF),
    (Z.ltb_spec c 0x10000); cbn [orb andb];
    (split; [intros [b Hb]; try discriminate; lia
            |intros Hc; try lia; eexists; reflexivity]).
Qed.

Lemma utf8_char_ascii (c : Z) :
  0 <= c < 128 -> utf8_char c = Some [byte_of_Z c].
Proof.
  intros Hc. unfold utf8_char.
  destruct (Z.ltb_spec c 0), (Z.ltb_spec 0x10FFFF c), (Z.ltb_spec c 0x80);
    cbn [orb]; try lia; reflexivity.
Qed.

Lemma encode_utf8_app (a b : str) :
  encode_utf8 (a ++ b)
  = (x ← encode_utf8 a; y ← encode_utf8 b; Some (x ++ y)).
Proof.
  induction a as [|c a IH]; cbn [app encode_utf8].
  - destruct (encode_utf8 b); reflexivity.
  - destruct (utf8_char c) as [bc|]; [|reflexivity]. cbn.
    rewrite IH. destruct (encode_utf8 a) as [x|]; [|reflexivity]. cbn.
    destruct (encode_utf8 b) as [y|]; [|reflexivity]. cbn.
    rewrite app_assoc. reflexivity.
Qed.

Lemma encode_utf8_Some (s : str) :
  is_Some (encode_utf8 s) <-> Forall encodable s.
Proof.
  induction s as [|c s IH]; cbn [encode_utf8].
  - split; [constructor|eexists; reflexivity].
  - rewrite Forall_cons, <- IH, <- utf8_char_Some.
    destruct (utf8_char c) as [bc|], (encode_utf8 s) as [r|]; cbn;
      split; try (intros [? [=]]); try (intros [[? [=]] [? [=]]]);
      try (intros [_ [? [=]]]); try (intros [[? [=]] _]);
      intros; try split; eexists; reflexivity.
Qed.

Lemma encode_utf8_app_Some (a b : str) :
  is_Some (encode_utf8 (a ++ b))
  <-> is_Some (encode_utf8 a) /\ is_Some (encode_utf8 b).
Proof. rewrite !encode_utf8_Some. apply Forall_app. Qed.

Lemma encoded_length_app (a b : str) :
  is_Some (encode_utf8 (a ++ b)) ->
  encoded_length (a ++ b) = (encoded_length a + encoded_length b)%nat.
Proof.
  intros H. apply encode_utf8_app_Some in H as [[x Hx] [y Hy]].
  unfold encoded_length. rewrite encode_utf8_app, Hx, Hy. cbn.
  apply length_app.
Qed.

Lemma encoded_length_ascii (s : str) :
  Forall (fun c => 0 <= c < 128) s ->
  is_Some (encode_utf8 s) /\ encoded_length s = length s.
Proof.
  unfold encoded_length. induction 1 as [|c s Hc _ [[r Hr] IH]].
  - split; [eexists|]; reflexivity.
  - cbn [encode_utf8]. rewrite (utf8_char_ascii _ Hc), Hr in *. cbn in *.
    split; [eexists; reflexivity|]. lia.
Qed.

Lemma encoded_length_Some (s : str) (b : bytes) :
  encode_utf8 s = Some b -> length b = encoded_length s.
Proof. intros H. unfold encoded_length. rewrite H. reflexivity. Qed.

Lemma occurrences_cons (key_enrich : str) (kv : str * str)
    (items : list (str * str)) :
  occurrences key_enrich (kv :: items)
  = ((if bool_decide (kv.1 = key_enrich) then 1 else 0)
     + occurrences key_enrich items)%nat.
Proof.
  unfold occurrences. rewrite filter_cons.
  destruct (decide (kv.1 = key_enrich)) as [e|n].
  - rewrite bool_decide_eq_true_2 by exact e. reflexivity.
  - rewrite bool_decide_eq_false_2 by exact n. reflexivity.
Qed.

Lemma header_line_eq (key_enrich value_enrich k v : str) :
  header_line key_enrich value_enrich (k, v)
  = k ++ colon_space
    ++ (if bool_decide (k = key_enrich)
        then v ++ repeat hash (length (key_enrich ++ colon_space)
                               + length crlf)
               ++ value_enrich
        else v)
    ++ crlf.
Proof.
  unfold header_line. cbn [fst snd].
  replace (length (key_enrich ++ colon_space) + length crlf)%nat
    with (length key_enrich + 4)%nat
    by (rewrite length_app; cbn; lia).
  reflexivity.
Qed.

Lemma modify_http_header_loop_text (items : list (str * str))
    (key_enrich value_enrich : str) (acc : bytes) (updated : bool) :
  modify_http_header_loop items key_enrich value_enrich
    (length (key_enrich ++ colon_space) + length crlf) acc updated
  = (lines ← encode_utf8
               (concat (map (header_line key_enrich value_enrich) items));
     Some (acc ++ lines,
           updated || negb (occurrences key_enrich items =? 0)%nat)).
Proof.
  revert acc updated.
  induction items as [|[k v] items IH]; intros acc updated.
  - cbn. rewrite app_nil_r, orb_false_r. reflexivity.
  - cbn [modify_http_header_loop map concat].
    rewrite encode_utf8_app, occurrences_cons, header_line_eq.
    cbn [fst snd].
    destruct (bool_decide (k = key_enrich));
      (match goal with
       | |- context [encode_utf8 (k ++ ?t)] =>
           destruct (encode_utf8 (k ++ t)) as [line|]; [|reflexivity]
       end);
      cbn [mbind option_bind]; rewrite IH;
      (destruct (encode_utf8 (concat _)) as [lines|]; [|reflexivity]);
      cbn [mbind option_bind]; rewrite app_assoc;
      rewrite ?orb_true_r; reflexivity.
Qed.

Lemma modify_http_header_text (items : list (str * str))
    (key_enrich value_enrich : str) :
  modify_http_header items key_enrich value_enrich
  = encode_utf8 (enriched_text items key_enrich value_enrich).
Proof.
  unfold modify_http_header, enriched_text. cbv zeta.
  rewrite modify_http_header_loop_text, <- app_assoc.
  set (extra := key_enrich ++ colon_space ++ value_enrich ++ crlf).
  rewrite !encode_utf8_app.
  destruct (encode_utf8 (concat _)) as [lines|]; [|reflexivity].
  cbn [mbind option_bind orb app].
  destruct (occurrences key_enrich items =? 0)%nat; cbn [negb].
  - destruct (encode_utf8 extra) as [line|]; [|reflexivity].
    cbn. rewrite app_assoc. reflexivity.
  - cbn. reflexivity.
Qed.

Lemma encodable_literals (n : nat) :
  Forall encodable colon_space /\ Forall encodable crlf
  /\ Forall encodable (repeat hash n).
Proof.
  repeat match goal with |- _ /\ _ => split end;
    [repeat constructor; unfold encodable; lia ..|].
  induction n as [|n IH]; cbn [repeat]; constructor; [|exact IH].
  unfold encodable, hash. lia.
Qed.

Lemma header_line_encodable (key_enrich value_enrich : str)
    (kv : str * str) :
  Forall encodable (header_line key_enrich value_enrich kv)
  <-> Forall encodable kv.1 /\ Forall encodable kv.2
      /\ (kv.1 = key_enrich -> Forall encodable value_enrich).
Proof.
  destruct (encodable_literals (length key_enrich + 4)) as (C & R & H).
  unfold header_line.
  destruct (decide (kv.1 = key_enrich)) as [e|n].
  - rewrite bool_decide_eq_true_2 by exact e.
    rewrite !Forall_app. tauto.
  - rewrite bool_decide_eq_false_2 by exact n.
    rewrite !Forall_app. tauto.
Qed.

Lemma lines_encodable (items : list (str * str))
    (key_enrich value_enrich : str) :
  Forall encodable (concat (map (header_line key_enrich value_enrich) items))
  <-> Forall (fun kv => Forall encodable kv.1 /\ Forall encodable kv.2) items
      /\ (occurrences key_enrich items <> 0%nat ->
          Forall encodable key_enrich /\ Forall encodable value_enrich).
Proof.
  induction items as [|kv items IH]; cbn [map concat].
  - split; [intros _; split; [constructor|intros H; contradiction]
           |constructor].
  - rewrite Forall_app, Forall_cons, IH, header_line_encodable,
      occurrences_cons.
    destruct (decide (kv.1 = key_enrich)) as [e|n].
    + rewrite bool_decide_eq_true_2 by exact e. rewrite <- e.
      split; intros H.
      * intuition auto.
      * assert (Forall encodable value_enrich) by (apply H; cbn; lia).
        intuition auto.
    + rewrite bool_decide_eq_false_2 by exact n. cbn [Nat.add]. tauto.
Qed.

Lemma lines_end (items : list (str * str)) (key_enrich value_enrich : str) :
  items <> [] ->
  exists pre,
    concat (map (header_line key_enrich value_enrich) items) = pre ++ crlf.
Proof.
  destruct items as [|kv items _] using rev_ind; [contradiction|].
  intros _. rewrite map_app, concat_app. cbn [map concat].
  rewrite app_nil_r. unfold header_line at 2.
  eexists. rewrite !app_assoc. reflexivity.
Qed.

Lemma enriched_text_end (items : list (str * str))
    (key_enrich value_enrich : str) :
  exists pre,
    enriched_text items key_enrich value_enrich = pre ++ crlf ++ crlf.
Proof.
  unfold enriched_text.
  destruct (occurrences key_enrich items =? 0)%nat eqn:E.
  - eexists. rewrite !app_assoc. reflexivity.
  - destruct (lines_end items key_enrich value_enrich) as [pre ->].
    + intros ->. discriminate.
    + exists pre. rewrite <- app_assoc. reflexivity.
Qed.

(** X29.  [modify_http_header] returns exactly when no string it is
    given (the key, the value, the header names and the header values)
    holds a surrogate code point, and raises [UnicodeEncodeError]
    otherwise: the key and the value are encoded whether a header of that
    name is present or not.  What it returns ends with an empty line,
    CR LF CR LF. *)
Theorem modify_http_header_returns (items : list (str * str))
    (key_enrich value_enrich : str) :
  (is_Some (modify_http_header items key_enrich value_enrich)
   <-> Forall encodable key_enrich /\ Forall encodable value_enrich
       /\ Forall (fun kv => Forall encodable kv.1 /\ Forall encodable kv.2)
            items)
  /\ (forall out,
        modify_http_header items key_enrich value_enrich = Some out ->
        exists block, out = block ++ [x0d; x0a; x0d; x0a]).
Proof.
  rewrite modify_http_header_text. split.
  - rewrite encode_utf8_Some. unfold enriched_text.
    destruct (encodable_literals 0) as (C & R & _).
    rewrite !Forall_app, lines_encodable.
    destruct (Nat.eqb_spec (occurrences key_enrich items) 0) as [e|n].
    + rewrite !Forall_app. rewrite e. intuition.
    + intuition.
  - intros out H.
    destruct (enriched_text_end items key_enrich value_enrich) as [pre E].
    rewrite E, encode_utf8_app in H.
    destruct (encode_utf8 pre) as [block|]; [|discriminate].
    exists block. vm_compute in H. injection H as <-. reflexivity.
Qed.

Lemma encoded_length_literals (n : nat) :
  encoded_length colon_space = 2%nat /\ encoded_length crlf = 2%nat
  /\ encoded_length (repeat hash n) = n.
Proof.
  split; [reflexivity|]. split; [reflexivity|].
  destruct (encoded_length_ascii (repeat hash n)) as [_ ->].
  - induction n as [|n IH]; cbn [repeat]; constructor; [|exact IH].
    unfold hash. lia.
  - apply repeat_length.
Qed.

Ltac split_len S :=
  match type of S with
  | is_Some (encode_utf8 (?a ++ ?b)) =>
      rewrite (encoded_length_app a b S);
      let S1 := fresh "S" in
      let S2 := fresh "S" in
      apply encode_utf8_app_Some in S as [S1 S2];
      try split_len S1; try split_len S2
  end.

Lemma header_line_length (key_enrich value_enrich : str) (kv : str * str) :
  is_Some (encode_utf8 (header_line key_enrich value_enrich kv)) ->
  encoded_length (header_line key_enrich value_enrich kv)
  = (encoded_length kv.1 + encoded_length kv.2 + 4
     + (if bool_decide (kv.1 = key_enrich)
        then length key_enrich + encoded_length value_enrich + 4
        else 0))%nat.
Proof.
  destruct (encoded_length_literals (length key_enrich + 4))
    as (C & R & H).
  unfold header_line. intros S.
  destruct (bool_decide (kv.1 = key_enrich)); split_len S.
  - rewrite C, R, H. lia.
  - rewrite C, R. lia.
Qed.

Lemma lines_length (items : list (str * str))
    (key_enrich value_enrich : str) :
  is_Some (encode_utf8
             (concat (map (header_line key_enrich value_enrich) items))) ->
  encoded_length (concat (map (header_line key_enrich value_enrich) items))
  = (sum_list (map (fun kv => encoded_length kv.1 + encoded_length kv.2 + 4)
                 items)
     + occurrences key_enrich items
       * (length key_enrich + encoded_length value_enrich + 4))%nat.
Proof.
  induction items as [|kv items IH]; cbn [map concat sum_list];
    [reflexivity|].
  intros S. rewrite (encoded_length_app _ _ S).
  apply encode_utf8_app_Some in S as [S1 S2].
  rewrite (header_line_length _ _ _ S1), (IH S2), occurrences_cons.
  unfold id. destruct (bool_decide (kv.1 = key_enrich)); lia.
Qed.

(** X30.  The enrichment adds the same number of bytes whether the header
    is new or not.  For a key of ASCII characters, what
    [modify_http_header] returns is as long as the header lines it was
    given (name, [': '], value and CR LF each) and the closing CR LF, plus
    [len(key) + len(value as UTF-8) + 4] bytes for the one line it appends
    when no header has that name, and the same amount for every header of
    that name otherwise: the ['#'] separator is as long as the [': '] and
    CR LF of a line of its own. *)
Theorem modify_http_header_length (items : list (str * str))
    (key_enrich value_enrich : str) (out : bytes) :
  Forall (fun c => 0 <= c < 128) key_enrich ->
  modify_http_header items key_enrich value_enrich = Some out ->
  length out
  = (sum_list (map (fun kv => encoded_length kv.1 + encoded_length kv.2 + 4)
                 items)
     + 2
     + Nat.max 1 (occurrences key_enrich items)
       * (length key_enrich + encoded_length value_enrich + 4))%nat.
Proof.
  intros Hkey H. rewrite modify_http_header_text in H.
  rewrite (encoded_length_Some _ _ H).
  assert (S : is_Some (encode_utf8
                         (enriched_text items key_enrich value_enrich)))
    by (rewrite H; eexists; reflexivity).
  clear H. unfold enriched_text in *.
  destruct (encoded_length_literals 0) as (C & R & _).
  destruct (encoded_length_ascii _ Hkey) as [_ K].
  rewrite (encoded_length_app _ _ S).
  apply encode_utf8_app_Some in S as [S1 S].
  rewrite (lines_length _ _ _ S1).
  rewrite (encoded_length_app _ _ S).
  apply encode_utf8_app_Some in S as [S _].
  destruct (Nat.eqb_spec (occurrences key_enrich items) 0) as [e|n].
  - split_len S.
    rewrite C, R, K, e. cbn [Nat.max]. lia.
  - change (encoded_length []) with 0%nat. rewrite R.
    rewrite (Nat.max_r 1 (occurrences key_enrich items)) by lia. lia.
Qed.

Lemma modify_http_header_length_witness :
  exists out out',
    modify_http_header sample_headers [88; 45; 73; 100] [57] = Some out
    /\ length out = 37%nat
    /\ modify_http_header sample_headers [86; 105; 97] [57] = Some out'
    /\ length out' = 36%nat.
Proof.
  destruct (modify_http_header sample_headers [88; 45; 73; 100] [57])
    as [out|] eqn:E; [|vm_compute in E; discriminate].
  destruct (modify_http_header sample_headers [86; 105; 97] [57])
    as [out'|] eqn:E'; [|vm_compute in E'; discriminate].
  exists out, out'.
  pose proof (modify_http_header_length sample_headers [88; 45; 73; 100]
                [57] out ltac:(repeat constructor; lia) E) as L.
  pose proof (modify_http_header_length sample_headers [86; 105; 97]
                [57] out' ltac:(repeat constructor; lia) E') as L'.
  repeat match goal with |- _ /\ _ => split end;
    [reflexivity | rewrite L | reflexivity | rewrite L'];
    vm_compute; reflexivity.
Defined.
